(** * Market sentiment analyzer: ticker resolver, news fetcher, sentiment chain

    A shallow embedding of [src/chains/ticker_resolver.py],
    [src/chains/news_fetcher.py], [src/chains/sentiment_chain.py] and
    [src/models/sentiment_schema.py], and the properties of them that the
    specification states.

    Conventions of the embedding.
    - A Python [str] is a [string]; text is read as ASCII, characters above
      127 are letters of no case and no white space. The exception is
      [upper]: of a text with such a character it is what the interpreter
      says, a parameter.
    - A Python [float] is a binary64 number, [spec_float] with precision 53
      and maximal exponent 1024; [+], [<] and the literals are the IEEE ones.
    - A JSON-like Python object ([Dict[str, Any]]) is a [pyval]; a dict is a
      finite map from strings.
    - An exception is a value of [exn]; code that may raise returns a
      [result]; code that calls a provider (search, news, clock, language
      model) is a tree of [io]. *)

From Stdlib Require Import ZArith List String Ascii Bool Lia.
From Stdlib Require Import Floats.SpecFloat Sorting.Sorted.
From stdpp Require Import gmap strings.

#[local] Set Warnings "-register-all".
#[local] Open Scope Z_scope.

(** ** Python text *)

(** [s.upper()] of a text with a character beyond ASCII: the case mapping
    of Unicode, which lengthens some texts (['ß'.upper()] is ['SS']) and
    leads others into ASCII (the dotless i, the long s). *)
Class StrUpper := upper_beyond_ascii : string -> string.

Module PyStr.

Definition code (c : ascii) : N := N_of_ascii c.

Definition in_range (lo hi : N) (c : ascii) : bool :=
  ((lo <=? code c) && (code c <=? hi))%N.

(** [str.isspace] on one character: TAB..CR, FS..US and the blank. *)
Definition is_space (c : ascii) : bool :=
  in_range 9 13 c || in_range 28 32 c.

Definition is_upper (c : ascii) : bool := in_range 65 90 c.
Definition is_lower (c : ascii) : bool := in_range 97 122 c.
Definition is_digit (c : ascii) : bool := in_range 48 57 c.

Definition lower_char (c : ascii) : ascii :=
  if is_upper c then ascii_of_N (code c + 32) else c.
Definition upper_char (c : ascii) : ascii :=
  if is_lower c then ascii_of_N (code c - 32) else c.

Fixpoint map_chars (f : ascii -> ascii) (s : string) : string :=
  match s with
  | EmptyString => EmptyString
  | String c s' => String (f c) (map_chars f s')
  end.

Definition is_ascii (c : ascii) : bool := (code c <? 128)%N.

Fixpoint ascii_only (s : string) : bool :=
  match s with
  | EmptyString => true
  | String c s' => is_ascii c && ascii_only s'
  end.

(** [s.lower()] and [s.upper()] *)
Definition lower : string -> string := map_chars lower_char.
Definition upper `{StrUpper} (s : string) : string :=
  if ascii_only s then map_chars upper_char s else upper_beyond_ascii s.

Definition is_empty (s : string) : bool :=
  match s with EmptyString => true | _ => false end.

Fixpoint lstrip (s : string) : string :=
  match s with
  | EmptyString => EmptyString
  | String c s' => if is_space c then lstrip s' else s
  end.

Fixpoint rstrip (s : string) : string :=
  match s with
  | EmptyString => EmptyString
  | String c s' =>
      let r := rstrip s' in
      if is_space c && is_empty r then EmptyString else String c r
  end.

(** [s.strip()] *)
Definition strip (s : string) : string := rstrip (lstrip s).

Definition cons_token (t : string) (ts : list string) : list string :=
  if is_empty t then ts else t :: ts.

(** The token that starts at the head of [s] (empty when [s] starts with
    white space) and the tokens after it. *)
Fixpoint split_go (s : string) : string * list string :=
  match s with
  | EmptyString => (EmptyString, [])
  | String c s' =>
      let '(t, ts) := split_go s' in
      if is_space c then (EmptyString, cons_token t ts) else (String c t, ts)
  end.

(** [s.split()] *)
Definition split (s : string) : list string :=
  let '(t, ts) := split_go s in cons_token t ts.

(** [sub in s] *)
Fixpoint contains (sub s : string) : bool :=
  String.prefix sub s ||
  match s with
  | EmptyString => false
  | String _ s' => contains sub s'
  end.

(** [s.endswith(c)] for a one-character suffix *)
Fixpoint ends_with_char (c : ascii) (s : string) : bool :=
  match s with
  | EmptyString => false
  | String a EmptyString => Ascii.eqb a c
  | String _ s' => ends_with_char c s'
  end.

(** [s.replace(c, by)] for a one-character pattern *)
Fixpoint replace_char (c : ascii) (by_ : string) (s : string) : string :=
  match s with
  | EmptyString => EmptyString
  | String a s' =>
      if Ascii.eqb a c then by_ +:+ replace_char c by_ s'
      else String a (replace_char c by_ s')
  end.

(** [a < b] on [str]: code point by code point, a proper prefix first. *)
Definition ltb (a b : string) : bool := String.ltb a b.

(** [all(p(c) for c in s)] and [any(p(c) for c in s)] *)
Fixpoint all_chars (p : ascii -> bool) (s : string) : bool :=
  match s with
  | EmptyString => true
  | String c s' => p c && all_chars p s'
  end.

Definition any_char (p : ascii -> bool) (s : string) : bool :=
  negb (all_chars (fun c => negb (p c)) s).

(** [c.isalnum()] on ASCII *)
Definition is_alnum (c : ascii) : bool := is_upper c || is_lower c || is_digit c.

End PyStr.

(** ** Python floats *)

Module PyFloat.

Definition float : Type := spec_float.

Definition prec : Z := 53.
Definition emax : Z := 1024.

Definition of_Z (z : Z) : float := binary_normalize prec emax z 0 false.

Definition f0_0 : float := S754_zero false.
Definition f1_0 : float := Eval vm_compute in of_Z 1.
Definition f0_5 : float := Eval vm_compute in SFdiv prec emax (of_Z 1) (of_Z 2).
Definition f0_2 : float := Eval vm_compute in SFdiv prec emax (of_Z 1) (of_Z 5).
Definition f1_5 : float := Eval vm_compute in SFdiv prec emax (of_Z 3) (of_Z 2).

Definition add : float -> float -> float := SFadd prec emax.
Definition ltb : float -> float -> bool := SFltb.
Definition leb : float -> float -> bool := SFleb.

Definition is_nan (f : float) : bool :=
  match f with S754_nan => true | _ => false end.

(** [bool(f)]: both zeros are false, everything else (NaN too) is true. *)
Definition truthy (f : float) : bool :=
  match f with S754_zero _ => false | _ => true end.

(** [min(a, b)] and [max(a, b)] of the builtins: the first argument is kept
    unless the second is strictly smaller (greater). *)
Definition min2 (a b : float) : float := if ltb b a then b else a.
Definition max2 (a b : float) : float := if ltb a b then b else a.

End PyFloat.

Import PyFloat.

(** ** Exceptions and results *)

Inductive exn : Type :=
| AttributeError | TypeError | ValueError | OverflowError
| ValidationError | RuntimeError
| ProviderError (msg : string).

Inductive result (A : Type) : Type :=
| Ok (a : A)
| Err (e : exn).
Arguments Ok {A} a.
Arguments Err {A} e.

Definition rbind {A B} (r : result A) (f : A -> result B) : result B :=
  match r with Ok a => f a | Err e => Err e end.

Declare Scope result_scope.
Delimit Scope result_scope with result.
Notation "x <- r ;; k" := (rbind r (fun x => k))
  (at level 100, r at next level, right associativity) : result_scope.

(** ** Python objects *)

Inductive pyval : Type :=
| VNone
| VBool (b : bool)
| VInt (z : Z)
| VFloat (f : float)
| VStr (s : string)
| VList (l : list pyval)
| VDict (d : gmap string pyval).

(** [str -> float] of the builtin [float]: the parser of the interpreter. *)
Class StrToFloat := float_of_str : string -> option float.

Module Py.

(** [bool(v)] *)
Definition truthy (v : pyval) : bool :=
  match v with
  | VNone => false
  | VBool b => b
  | VInt z => negb (z =? 0)
  | VFloat f => PyFloat.truthy f
  | VStr s => negb (PyStr.is_empty s)
  | VList l => match l with [] => false | _ => true end
  | VDict d => negb (Nat.eqb (size d) 0)
  end.

(** [a or b] *)
Definition or_ (a b : pyval) : pyval := if truthy a then a else b.

(** [v.get(key)]: only a dict has the method. *)
Definition get (v : pyval) (key : string) : result pyval :=
  match v with
  | VDict d => Ok (default VNone (d !! key))
  | _ => Err AttributeError
  end.

(** [float(v)] *)
Definition to_float `{StrToFloat} (v : pyval) : result float :=
  match v with
  | VNone => Err TypeError
  | VBool b => Ok (if b then f1_0 else f0_0)
  | VInt z =>
      match PyFloat.of_Z z with
      | S754_infinity _ => Err OverflowError
      | f => Ok f
      end
  | VFloat f => Ok f
  | VStr s =>
      match float_of_str s with
      | Some f => Ok f
      | None => Err ValueError
      end
  | VList _ | VDict _ => Err TypeError
  end.

(** [int(f)]: truncation towards zero. *)
Definition int_of_float (f : float) : result Z :=
  match f with
  | S754_nan => Err ValueError
  | S754_infinity _ => Err OverflowError
  | S754_zero _ => Ok 0
  | S754_finite s m e =>
      let a := Z.shiftl (Z.pos m) e in
      Ok (if s then - a else a)
  end.

End Py.

(** ** Calls to the outside

    A computation that calls providers: it returns, raises, or makes a call
    [ev] and goes on with what the provider answers, a value or an
    exception. *)

Inductive io (E : Type) (R : E -> Type) (A : Type) : Type :=
| Ret (a : A)
| Raise (e : exn)
| Vis (ev : E) (k : result (R ev) -> io E R A).
Arguments Ret {E R A} a.
Arguments Raise {E R A} e.
Arguments Vis {E R A} ev k.

Section Io.
Context {E : Type} {R : E -> Type}.

Fixpoint bind {A B} (p : io E R A) (f : A -> io E R B) : io E R B :=
  match p with
  | Ret a => f a
  | Raise e => Raise e
  | Vis ev k => Vis ev (fun r => bind (k r) f)
  end.

(** A call whose exception propagates. *)
Definition call (ev : E) : io E R (R ev) :=
  Vis ev (fun r => match r with Ok v => Ret v | Err e => Raise e end).

Definition lift {A} (r : result A) : io E R A :=
  match r with Ok a => Ret a | Err e => Raise e end.

(** [try: p except Exception as e: h e] *)
Fixpoint try_catch {A} (p : io E R A) (h : exn -> io E R A) : io E R A :=
  match p with
  | Ret a => Ret a
  | Raise e => h e
  | Vis ev k => Vis ev (fun r => try_catch (k r) h)
  end.

(** The [tenacity] decorator [retry(stop=stop_after_attempt(n),
    retry=retry_if_exception_type((Exception,)), reraise=True)]: the body
    is run again after an exception, [n] times at most, and the last
    exception is raised again. The waits between the attempts take time
    and change nothing else. *)
Fixpoint with_retry {A} (attempts : nat) (p : io E R A) : io E R A :=
  match attempts with
  | O => p
  | S O => p
  | S n => try_catch p (fun _ => with_retry n p)
  end.

(** *** Running against a provider

    The outside is a state [W] and a handler that answers a call and moves
    the state. A run gives the result, the final state and the calls made,
    in order. *)
Context {W : Type}.
Variable handle : forall ev : E, W -> result (R ev) * W.

Record outcome (A : Type) : Type := Outcome {
  res : result A;
  final : W;
  calls : list E
}.
Arguments Outcome {A}.
Arguments res {A}.
Arguments final {A}.
Arguments calls {A}.

Fixpoint run {A} (p : io E R A) (w : W) : outcome A :=
  match p with
  | Ret a => Outcome (Ok a) w []
  | Raise e => Outcome (Err e) w []
  | Vis ev k =>
      let '(r, w') := handle ev w in
      let o := run (k r) w' in
      Outcome (res o) (final o) (ev :: calls o)
  end.

End Io.

Arguments outcome : clear implicits.
Arguments Outcome {E W A}.
Arguments res {E W A}.
Arguments final {E W A}.
Arguments calls {E W A}.

Declare Scope io_scope.
Delimit Scope io_scope with io.
Notation "x <- p ;; k" := (bind p (fun x => k))
  (at level 100, p at next level, right associativity) : io_scope.

(** ** [src/models/sentiment_schema.py] *)

(** What the schema library makes of a bool, of a text, or of an int
    beyond the range of binary64, in a field declared [float]: the
    number, or [None] when it refuses the value. *)
Class SchemaFloat := schema_float : pyval -> option float.

Module SentimentSchema.

Inductive sentiment_label : Type := Positive | Negative | Neutral.

Record SentimentResult : Type := {
  company_name : string;
  stock_code : string;
  newsdesc : string;
  sentiment : sentiment_label;
  people_names : list string;
  places_names : list string;
  other_companies_referred : list string;
  related_industries : list string;
  market_implications : string;
  confidence_score : float
}.

Section Validator.
Context `{StrToFloat} `{SchemaFloat}.

(** The field validator of [confidence_score], as a function of its own:
    what [SentimentResult._clamp_confidence(v)] returns. *)
Definition _clamp_confidence (v : pyval) : float :=
  match Py.to_float v with
  | Ok f => max2 f0_0 (min2 f1_0 f)
  | Err _ => f0_5
  end.

(** The validation of a field declared [float], which the library runs
    before the validator of the field (a [field_validator] without a mode
    runs after it): a float is taken as it is, NaN and the infinities
    too, an int as the float of its value; [None], a list and a dict are
    refused. *)
Definition validate_float (v : pyval) : result float :=
  match v with
  | VFloat f => Ok f
  | VInt z =>
      match PyFloat.of_Z z with
      | S754_infinity _ =>
          match schema_float v with Some f => Ok f | None => Err ValidationError end
      | f => Ok f
      end
  | VBool _ | VStr _ =>
      match schema_float v with Some f => Ok f | None => Err ValidationError end
  | VNone | VList _ | VDict _ => Err ValidationError
  end.

(** [SentimentResult(...)]: the model is built from the keyword
    arguments; an argument left out takes the default of its field,
    which is not validated; the confidence that is given is validated as
    a float, and the float goes through the validator. A confidence that
    is refused raises the validation error of the library. *)
Definition SentimentResult_init
    (company code news : string) (label : sentiment_label)
    (people places others industries : list string)
    (implications : string) (confidence : option pyval)
  : result SentimentResult :=
  (c <- match confidence with
        | Some v => f <- validate_float v ;; Ok (_clamp_confidence (VFloat f))
        | None => Ok f0_5
        end ;;
   Ok {| company_name := company;
         stock_code := code;
         newsdesc := news;
         sentiment := label;
         people_names := people;
         places_names := places;
         other_companies_referred := others;
         related_industries := industries;
         market_implications := implications;
         confidence_score := c |})%result.
End Validator.

End SentimentSchema.

(** ** Dates and times

    An aware [datetime] whose [tzinfo] is [timezone.utc]: the civil fields.
    Every object of the class satisfies [wf] (the constructor raises
    [ValueError] otherwise). *)

Module Datetime.

Record datetime : Type := {
  year : Z; month : Z; day : Z;
  hour : Z; minute : Z; second : Z; microsecond : Z
}.

Definition MINYEAR : Z := 1.
Definition MAXYEAR : Z := 9999.
Definition MAXORDINAL : Z := 3652059.

Definition is_leap (y : Z) : bool :=
  (y mod 4 =? 0) && (negb (y mod 100 =? 0) || (y mod 400 =? 0)).

Definition days_in_month (y m : Z) : Z :=
  if (m =? 2) && is_leap y then 29
  else nth (Z.to_nat m) [0; 31; 28; 31; 30; 31; 30; 31; 31; 30; 31; 30; 31] 0.

Definition days_before_month (y m : Z) : Z :=
  nth (Z.to_nat m) [0; 0; 31; 59; 90; 120; 151; 181; 212; 243; 273; 304; 334] 0
  + (if (2 <? m) && is_leap y then 1 else 0).

Definition days_before_year (y : Z) : Z :=
  let p := y - 1 in p * 365 + p / 4 - p / 100 + p / 400.

Definition wf (d : datetime) : Prop :=
  MINYEAR <= year d <= MAXYEAR /\ 1 <= month d <= 12 /\
  1 <= day d <= days_in_month (year d) (month d) /\
  0 <= hour d < 24 /\ 0 <= minute d < 60 /\ 0 <= second d < 60 /\
  0 <= microsecond d < 1000000.

(** [d.toordinal()] *)
Definition toordinal (d : datetime) : Z :=
  days_before_year (year d) + days_before_month (year d) (month d) + day d.

(** [_ord2ymd] of the [datetime] module. *)
Definition ord2ymd (ordinal : Z) : Z * Z * Z :=
  let n := ordinal - 1 in
  let n400 := n / 146097 in
  let n := n mod 146097 in
  let n100 := n / 36524 in
  let n := n mod 36524 in
  let n4 := n / 1461 in
  let n := n mod 1461 in
  let n1 := n / 365 in
  let n := n mod 365 in
  let y := n400 * 400 + 1 + n100 * 100 + n4 * 4 + n1 in
  if (n1 =? 4) || (n100 =? 4) then (y - 1, 12, 31)
  else
    let leapyear := (n1 =? 3) && (negb (n4 =? 24) || (n100 =? 3)) in
    let m := Z.shiftr (n + 50) 5 in
    let preceding :=
      nth (Z.to_nat m) [0; 0; 31; 59; 90; 120; 151; 181; 212; 243; 273; 304; 334] 0
      + (if (2 <? m) && leapyear then 1 else 0) in
    if n <? preceding then
      let m' := m - 1 in
      let preceding' :=
        preceding -
        (nth (Z.to_nat m') [0; 31; 28; 31; 30; 31; 30; 31; 31; 30; 31; 30; 31] 0
         + (if (m' =? 2) && leapyear then 1 else 0)) in
      (y, m', n - preceding' + 1)
    else (y, m, n - preceding + 1).

(** [datetime.fromtimestamp(secs, tz=timezone.utc)] for an integer number
    of seconds: [None] when the year is out of range (the call raises). *)
Definition fromtimestamp (secs : Z) : option datetime :=
  let days := secs / 86400 in
  let rem := secs mod 86400 in
  let ordinal := days + 719163 in
  if (1 <=? ordinal) && (ordinal <=? MAXORDINAL) then
    let '(y, m, d) := ord2ymd ordinal in
    Some {| year := y; month := m; day := d;
            hour := rem / 3600; minute := rem mod 3600 / 60;
            second := rem mod 60; microsecond := 0 |}
  else None.

(** [d - timedelta(days=n)] *)
Definition sub_days (d : datetime) (n : Z) : result datetime :=
  if 999999999 <? Z.abs n then Err OverflowError
  else
    let ordinal := toordinal d - n in
    if (0 <? ordinal) && (ordinal <=? MAXORDINAL) then
      let '(y, m, dd) := ord2ymd ordinal in
      Ok {| year := y; month := m; day := dd;
            hour := hour d; minute := minute d;
            second := second d; microsecond := microsecond d |}
    else Err OverflowError.

(** Comparison of two datetimes of the same time zone: field by field. *)
Definition fields (d : datetime) : list Z :=
  [year d; month d; day d; hour d; minute d; second d; microsecond d].

Fixpoint lex_compare (a b : list Z) : comparison :=
  match a, b with
  | [], [] => Eq
  | [], _ :: _ => Lt
  | _ :: _, [] => Gt
  | x :: a', y :: b' =>
      match x ?= y with
      | Eq => lex_compare a' b'
      | c => c
      end
  end.

Definition compare (d1 d2 : datetime) : comparison :=
  lex_compare (fields d1) (fields d2).

(** [d1 >= d2] and [d1 < d2] *)
Definition geb (d1 d2 : datetime) : bool :=
  match compare d1 d2 with Lt => false | _ => true end.
Definition ltb (d1 d2 : datetime) : bool :=
  match compare d1 d2 with Lt => true | _ => false end.

(** *** Formatting *)

Definition digit (n : Z) : ascii := ascii_of_N (48 + Z.to_N n).

(** The [w] lowest decimal digits of [n], the most significant first. *)
Fixpoint digits (w : nat) (n : Z) : string :=
  match w with
  | O => EmptyString
  | S w' => String (digit (n / 10 ^ Z.of_nat w' mod 10)) (digits w' n)
  end.

Fixpoint width_go (fuel : nat) (n : Z) : nat :=
  match fuel with
  | O => O
  | S fuel' => if n <? 10 then 1%nat else S (width_go fuel' (n / 10))
  end.

(** The number of decimal digits of [n >= 0]. *)
Definition width (n : Z) : nat := width_go (S (Z.to_nat (Z.log2 n))) n.

(** ["%0wd" % n] for [n >= 0]: at least [w] digits, zeros in front. *)
Definition fmt_d (w : nat) (n : Z) : string := digits (Nat.max w (width n)) n.

(** [d.isoformat()] of a UTC datetime: the fraction is printed only when
    the microsecond is not zero. *)
Definition isoformat (d : datetime) : string :=
  fmt_d 4 (year d) +:+ "-" +:+ fmt_d 2 (month d) +:+ "-" +:+ fmt_d 2 (day d)
  +:+ "T" +:+ fmt_d 2 (hour d) +:+ ":" +:+ fmt_d 2 (minute d)
  +:+ ":" +:+ fmt_d 2 (second d)
  +:+ (if microsecond d =? 0 then "" else "." +:+ fmt_d 6 (microsecond d))
  +:+ "+00:00".

End Datetime.

Import Datetime.

(** [datetime.fromisoformat(s).astimezone(timezone.utc)] of the standard
    library: [None] when it raises. What it returns is a datetime. *)
Class IsoParser := {
  fromisoformat_utc : string -> option datetime;
  fromisoformat_utc_wf :
    forall s d, fromisoformat_utc s = Some d -> Datetime.wf d
}.

(** Sorting and slicing of Python lists. *)

Section PyList.
Context {A K : Type} (lt : K -> K -> bool) (key : A -> K).

(** [x] goes in front of the first element whose key is not greater. *)
Fixpoint insert_desc (x : A) (l : list A) : list A :=
  match l with
  | [] => [x]
  | y :: l' => if lt (key x) (key y) then y :: insert_desc x l' else x :: l
  end.

(** [l.sort(key=key, reverse=True)]: the stable sort, greatest key first;
    elements of equal keys keep their order. *)
Definition sort_desc (l : list A) : list A := fold_right insert_desc [] l.

(** [l[:k]] for [k >= 0] *)
Definition slice_to (k : Z) (l : list A) : list A := firstn (Z.to_nat k) l.

(** [a] may stand in front of [b] in the sorted list: its key is not
    smaller. *)
Definition not_before (a b : A) : Prop := lt (key a) (key b) = false.
End PyList.

(** ** [src/chains/news_fetcher.py] *)

Module NewsFetcher.

(** The fields are declared [str], [Optional[str]] and [List[str]]; the
    dataclass stores what it is given. The title has been stripped, so it
    is a string; the link, the publisher and the tickers are taken from the
    record as they are. *)
Record NewsItem : Type := {
  title : string;
  link : pyval;
  publisher : pyval;
  published_at : string;
  related_tickers : pyval
}.

(** The providers: [yf.Ticker(ticker).news] and
    [datetime.now(timezone.utc)]. *)
Inductive event : Type :=
| TickerNews (ticker : string)
| Now.

Definition reply (ev : event) : Type :=
  match ev with
  | TickerNews _ => pyval
  | Now => datetime
  end.

(** What the loop reads from one raw record before it filters. *)
Record extracted : Type := {
  x_title : string;
  x_link : pyval;
  x_publisher : pyval;
  x_dt : option datetime;
  x_related : pyval
}.

Section Fetcher.
Context `{StrToFloat} `{IsoParser}.

Definition _to_iso (dt : option datetime) : option string :=
  match dt with
  | Some d => Some (isoformat d)
  | None => None
  end.

Definition _parse_epoch_to_dt (v : pyval) : option datetime :=
  match v with
  | VNone => None
  | _ =>
      match (f <- Py.to_float v ;; Py.int_of_float f)%result with
      | Ok secs => fromtimestamp secs
      | Err _ => None
      end
  end.

Definition _parse_iso_to_dt (v : pyval) : option datetime :=
  if negb (Py.truthy v) then None
  else
    match v with
    | VStr s =>
        let s' :=
          if PyStr.ends_with_char "Z" s
          then PyStr.replace_char "Z" "+00:00" s else s in
        fromisoformat_utc s'
    | _ => None
    end.

Definition _extract_published_dt (n : pyval) : result (option datetime) :=
  (ppt <- Py.get n "providerPublishTime" ;;
   match _parse_epoch_to_dt ppt with
   | Some dt => Ok (Some dt)
   | None =>
       c <- Py.get n "content" ;;
       let content := Py.or_ c (VDict ∅) in
       pd <- Py.get content "pubDate" ;;
       match _parse_iso_to_dt pd with
       | Some dt => Ok (Some dt)
       | None =>
           tp <- Py.get n "timePublished" ;;
           Ok (_parse_epoch_to_dt tp)
       end
   end)%result.

Definition _within_lookback (dt : option datetime) (lookback_days : Z)
  : io event reply bool :=
  match dt with
  | None => Ret false
  | Some d =>
      (now <- call Now ;;
       cutoff <- lift (sub_days now lookback_days) ;;
       Ret (Datetime.geb d cutoff))%io
  end.

Definition _extract_link (n : pyval) : result pyval :=
  (l <- Py.get n "link" ;;
   if Py.truthy l then Ok l
   else
     c <- Py.get n "content" ;;
     let content := Py.or_ c (VDict ∅) in
     cu <- Py.get content "canonicalUrl" ;;
     canon <- Py.get (Py.or_ cu (VDict ∅)) "url" ;;
     if Py.truthy canon then Ok canon
     else
       ct <- Py.get content "clickThroughUrl" ;;
       click <- Py.get (Py.or_ ct (VDict ∅)) "url" ;;
       if Py.truthy click then Ok click
       else Ok (VStr ""))%result.

Definition _extract_publisher (n : pyval) : result pyval :=
  (pub <- Py.get n "publisher" ;;
   if Py.truthy pub then Ok pub
   else
     c <- Py.get n "content" ;;
     let content := Py.or_ c (VDict ∅) in
     pv <- Py.get content "provider" ;;
     Py.get (Py.or_ pv (VDict ∅)) "displayName")%result.

(** [(n.get("title") or (n.get("content") or {}).get("title") or
    "").strip()] *)
Definition extract_title (n : pyval) : result string :=
  (t <- Py.get n "title" ;;
   t' <- (if Py.truthy t then Ok t
          else
            c <- Py.get n "content" ;;
            ct <- Py.get (Py.or_ c (VDict ∅)) "title" ;;
            Ok (Py.or_ ct (VStr ""))) ;;
   match t' with
   | VStr s => Ok (PyStr.strip s)
   | _ => Err AttributeError
   end)%result.

(** The first six statements of the loop body. *)
Definition extract (n : pyval) : result extracted :=
  (t <- extract_title n ;;
   l <- _extract_link n ;;
   p <- _extract_publisher n ;;
   dt <- _extract_published_dt n ;;
   r <- Py.get n "relatedTickers" ;;
   Ok {| x_title := t; x_link := l; x_publisher := p; x_dt := dt;
         x_related := Py.or_ r (VList []) |})%result.

Definition item_of (x : extracted) : NewsItem :=
  {| title := x_title x;
     link := x_link x;
     publisher := x_publisher x;
     published_at :=
       match _to_iso (x_dt x) with Some s => s | None => "" end;
     related_tickers := x_related x |}.

(** One turn of the loop: the item to append, or [None] on [continue]. *)
Definition process (n : pyval) (lookback_days : Z)
  : io event reply (option NewsItem) :=
  (x <- lift (extract n) ;;
   if PyStr.is_empty (x_title x) || negb (Py.truthy (x_link x))
   then Ret None
   else
     recent <- _within_lookback (x_dt x) lookback_days ;;
     if recent then Ret (Some (item_of x)) else Ret None)%io.

Fixpoint collect (raw_news : list pyval) (lookback_days : Z)
    (items : list NewsItem) : io event reply (list NewsItem) :=
  match raw_news with
  | [] => Ret items
  | n :: rest =>
      (o <- process n lookback_days ;;
       collect rest lookback_days
         (match o with Some it => items ++ [it] | None => items end))%io
  end.

(** The body of [fetch_recent_news], one attempt. *)
Definition fetch_once (ticker : string) (lookback_days top_k : Z)
  : io event reply (list NewsItem) :=
  (raw <- call (TickerNews ticker) ;;
   match Py.or_ raw (VList []) with
   | VList raw_news =>
       items <- collect raw_news lookback_days [] ;;
       Ret (slice_to (Z.max 0 top_k)
              (sort_desc PyStr.ltb published_at items))
   | VDict _ | VStr _ => Raise AttributeError
   | _ => Raise TypeError
   end)%io.

Definition fetch_recent_news (ticker : string) (lookback_days top_k : Z)
  : io event reply (list NewsItem) :=
  with_retry 3 (fetch_once ticker lookback_days top_k).

End Fetcher.

End NewsFetcher.

(** ** [src/chains/ticker_resolver.py] *)

Module TickerResolver.

Record TickerCandidate : Type := {
  symbol : string;
  shortname : string;
  longname : option string;
  exchange : option string;
  score : float;
  typeDisp : option string;
  exchDisp : option string
}.

Definition is_norm_char (c : ascii) : bool :=
  PyStr.is_lower c || PyStr.is_digit c.

(** [re.sub(r"[^a-z0-9]+", " ", s)]: [in_run] tells that the character
    before belongs to the run being replaced. *)
Fixpoint sub_runs (in_run : bool) (s : string) : string :=
  match s with
  | EmptyString => EmptyString
  | String c s' =>
      if is_norm_char c then String c (sub_runs false s')
      else if in_run then sub_runs true s'
      else String " " (sub_runs true s')
  end.

Definition _norm (s : string) : string :=
  PyStr.strip (sub_runs false (PyStr.lower s)).

(** A dict display: a later entry of the same key replaces the earlier. *)
Definition dict_of {V} (items : list (string * V)) : gmap string V :=
  fold_left (fun m kv => <[kv.1 := kv.2]> m) items ∅.

Definition CURATED : gmap string (string * string * string) :=
  dict_of [
    (_norm "Apple Inc", ("AAPL", "Apple Inc.", "NASDAQ"));
    (_norm "Alphabet Inc", ("GOOGL", "Alphabet Inc.", "NASDAQ"));
    (_norm "Microsoft Corporation", ("MSFT", "Microsoft Corporation", "NASDAQ"));
    (_norm "Amazon.com, Inc.", ("AMZN", "Amazon.com, Inc.", "NASDAQ"));
    (_norm "Tesla, Inc.", ("TSLA", "Tesla, Inc.", "NASDAQ"));
    (_norm "Meta Platforms, Inc.", ("META", "Meta Platforms, Inc.", "NASDAQ"));
    (_norm "NVIDIA Corporation", ("NVDA", "NVIDIA Corporation", "NASDAQ"));
    (_norm "Reliance Industries", ("RELIANCE.NS", "Reliance Industries Limited", "NSE"));
    (_norm "Tata Consultancy Services", ("TCS.NS", "Tata Consultancy Services Limited", "NSE"));
    (_norm "Infosys", ("INFY.NS", "Infosys Limited", "NSE"));
    (_norm "HDFC Bank", ("HDFCBANK.NS", "HDFC Bank Limited", "NSE"));
    (_norm "ICICI Bank", ("ICICIBANK.NS", "ICICI Bank Limited", "NSE"))
  ].

(** The provider: [yahoo_suggest(query, count=count, region=region)], the
    search of Yahoo Finance with its own retries. *)
Inductive event : Type :=
| YahooSuggest (query : string) (count : Z) (region : string).

Definition reply (ev : event) : Type := list TickerCandidate.

Section Scoring.
Context `{StrUpper}.

(** [str(c.typeDisp).upper() in {"EQUITY", "COMMON STOCK", "ETF"}] *)
Definition equity_like (c : TickerCandidate) : bool :=
  let t := PyStr.upper (match typeDisp c with Some s => s | None => "None" end) in
  String.eqb t "EQUITY" || String.eqb t "COMMON STOCK" || String.eqb t "ETF".

(** [_norm(f"{c.shortname} {c.longname or ''}")] *)
Definition combined_name (c : TickerCandidate) : string :=
  _norm (shortname c +:+ " " +:+ match longname c with Some s => s | None => "" end).

(** [all(tok in combined for tok in target_norm.split())] *)
Definition tokens_contained (c : TickerCandidate) (target_norm : string) : bool :=
  forallb (fun tok => PyStr.contains tok (combined_name c)) (PyStr.split target_norm).

(** The score after the first [if] of [_boost_score]. *)
Definition type_boosted (c : TickerCandidate) (prefer_equity : bool) : float :=
  let s := if PyFloat.truthy (score c) then score c else f0_0 in
  if prefer_equity && equity_like c then PyFloat.add s f1_5 else s.

Definition _boost_score (c : TickerCandidate) (target_norm : string)
    (prefer_equity : bool) : float :=
  let s := type_boosted c prefer_equity in
  if tokens_contained c target_norm then PyFloat.add s f1_0 else s.

(** [max(l, key=key)] on a list that is not empty: the first element is
    kept until a later one has a strictly greater key. *)
Fixpoint max_from {A} (key : A -> float) (best : A) (l : list A) : A :=
  match l with
  | [] => best
  | x :: l' =>
      if PyFloat.ltb (key best) (key x) then max_from key x l'
      else max_from key best l'
  end.

Definition resolve_ticker (company_name region : string) (prefer_equity : bool)
  : io event reply (option TickerCandidate) :=
  let key := _norm company_name in
  match CURATED !! key with
  | Some (sym, nm, exch) =>
      Ret (Some {| symbol := sym; shortname := nm; longname := Some nm;
                   exchange := Some exch; score := f1_0;
                   typeDisp := Some "EQUITY"; exchDisp := Some exch |})
  | None =>
      (candidates <- call (YahooSuggest company_name 8 region) ;;
       match candidates with
       | [] => Ret None
       | c :: rest =>
           let target := _norm company_name in
           Ret (Some (max_from (fun c => _boost_score c target prefer_equity) c rest))
       end)%io
  end.
End Scoring.

End TickerResolver.

(** ** [src/prompts/sentiment_prompt.py] and [src/chains/sentiment_chain.py] *)

Module SentimentChain.
Import SentimentSchema.

Definition nl : string := String (ascii_of_N 10) EmptyString.

Definition SYSTEM_PROMPT : string :=
  "You are a senior market analyst." +:+ nl +:+
  "Given a company name, its stock code, and a short list of recent headlines, produce a structured assessment." +:+ nl +:+
  nl +:+
  "Instructions:" +:+ nl +:+
  "- Read the bullets carefully; use only the given context (do not fabricate)." +:+ nl +:+
  "- Determine one overall sentiment: Positive, Negative, or Neutral." +:+ nl +:+
  "- Extract named entities (people, places, other companies), and related industries." +:+ nl +:+
  "- Write a concise, plain-English 'market_implications' (1–3 sentences)." +:+ nl +:+
  "- Provide a numeric confidence between 0.0 and 1.0 (be honest, not always high)." +:+ nl +:+
  "- If news is sparse or mixed, favor Neutral with lower confidence." +:+ nl +:+
  nl +:+
  "Output will be validated against a strict schema by the application." +:+ nl.

(** [HUMAN_TEMPLATE.format(company_name=.., stock_code=.., newsdesc=..)] *)
Definition human_message (company code news : string) : string :=
  "Company: " +:+ company +:+ nl +:+
  "Ticker: " +:+ code +:+ nl +:+
  nl +:+
  "Recent news (most recent first):" +:+ nl +:+
  news +:+ nl +:+
  nl +:+
  "Return ONLY the structured object. Do not add commentary outside fields.".

Inductive message : Type :=
| SystemMessage (content : string)
| HumanMessage (content : string).

Definition build_prompt (company code news : string) : list message :=
  [ SystemMessage SYSTEM_PROMPT;
    HumanMessage
      (human_message company code
         (if PyStr.is_empty (PyStr.strip news)
          then "(no recent articles found)" else news)) ].

(** What the language model hands to the schema: the keyword arguments of
    [SentimentResult]. *)
Record llm_output : Type := {
  o_company_name : string;
  o_stock_code : string;
  o_newsdesc : string;
  o_sentiment : string;
  o_people_names : list string;
  o_places_names : list string;
  o_other_companies_referred : list string;
  o_related_industries : list string;
  o_market_implications : string;
  o_confidence_score : option pyval
}.

(** The providers: [get_gemini_chat_model(model=..)], which reads the
    settings, and the call of the model with the structured output. *)
Inductive event : Type :=
| GetChatModel (model : string)
| Invoke (model : string) (prompt : list message).

Definition reply (ev : event) : Type :=
  match ev with
  | GetChatModel _ => unit
  | Invoke _ _ => llm_output
  end.

Definition label_of (s : string) : option sentiment_label :=
  if String.eqb s "Positive" then Some Positive
  else if String.eqb s "Negative" then Some Negative
  else if String.eqb s "Neutral" then Some Neutral
  else None.

Section Chain.
Context `{StrToFloat} `{SchemaFloat}.

(** The schema applied to the output of the model: a sentiment that is
    none of the three labels and a confidence that is no number are
    refused. *)
Definition validate (o : llm_output) : result SentimentResult :=
  match label_of (o_sentiment o) with
  | Some l =>
      SentimentResult_init (o_company_name o) (o_stock_code o)
        (o_newsdesc o) l (o_people_names o) (o_places_names o)
        (o_other_companies_referred o) (o_related_industries o)
        (o_market_implications o) (o_confidence_score o)
  | None => Err ValidationError
  end.

(** [SentimentResult(company_name=.., stock_code=.., newsdesc=..,
    sentiment="Neutral", market_implications=.., confidence_score=0.2)] *)
Definition fallback_init (company code : string) : result SentimentResult :=
  SentimentResult_init company code "(no recent articles found)" Neutral
    [] [] [] [] "Insufficient recent coverage; no clear directional signal."
    (Some (VFloat f0_2)).

(** The result that this construction gives: 0.2 is a float between 0.0
    and 1.0, which the validation and the validator leave as it is. *)
Definition fallback (company code : string) : SentimentResult :=
  {| company_name := company;
     stock_code := code;
     newsdesc := "(no recent articles found)";
     sentiment := Neutral;
     people_names := [];
     places_names := [];
     other_companies_referred := [];
     related_industries := [];
     market_implications :=
       "Insufficient recent coverage; no clear directional signal.";
     confidence_score := f0_2 |}.

Definition analyze_sentiment (company code news : string)
  : io event reply SentimentResult :=
  if PyStr.is_empty (PyStr.strip news) then lift (fallback_init company code)
  else
    (_ <- call (GetChatModel "gemini-2.0-flash") ;;
     o <- call (Invoke "gemini-2.0-flash" (build_prompt company code news)) ;;
     lift (validate o))%io.
End Chain.

End SentimentChain.

(** ** Sample data

    A parser of numerals and one of ISO texts that know a few inputs, three
    raw records as the news provider sends them, and providers that answer
    with them. *)

Module Samples.
Import NewsFetcher TickerResolver.

Definition sample_float_of_str : StrToFloat :=
  fun s =>
    if String.eqb s "1699999999" then Some (PyFloat.of_Z 1699999999)
    else if String.eqb s "2" then Some (PyFloat.of_Z 2)
    else None.

(** The schema reads the same numerals, and a bool as 1.0 or 0.0. *)
Definition sample_schema_float : SchemaFloat :=
  fun v =>
    match v with
    | VStr s => sample_float_of_str s
    | VBool b => Some (if b then f1_0 else f0_0)
    | _ => None
    end.

(** The samples are ASCII texts: the case mapping beyond is not consulted. *)
Definition sample_upper : StrUpper := fun s => s.

Definition dt_2023_11_13 : datetime :=
  {| year := 2023; month := 11; day := 13;
     hour := 10; minute := 0; second := 0; microsecond := 0 |}.

Definition dt_2023_11_14 : datetime :=
  {| year := 2023; month := 11; day := 14;
     hour := 22; minute := 13; second := 19; microsecond := 0 |}.

Definition sample_fromisoformat (s : string) : option datetime :=
  if String.eqb s "2023-11-13T10:00:00+00:00" then Some dt_2023_11_13 else None.

Definition sample_iso_parser : IsoParser.
Proof.
  refine {| fromisoformat_utc := sample_fromisoformat |}.
  intros s d. unfold sample_fromisoformat.
  destruct (String.eqb s "2023-11-13T10:00:00+00:00"); [|discriminate].
  intros [= <-]. repeat split; vm_compute; (reflexivity || discriminate).
Defined.

(** A flat record: epoch seconds, a top-level link, and a nested
    canonical URL as well. *)
Definition flat_record : gmap string pyval :=
  dict_of [
    ("title", VStr "  Apple beats estimates ");
    ("link", VStr "https://example.com/a");
    ("publisher", VStr "Reuters");
    ("providerPublishTime", VInt 1699999999);
    ("content", VDict (dict_of [
       ("canonicalUrl", VDict (dict_of [("url", VStr "https://example.com/canon")]))]));
    ("relatedTickers", VList [VStr "AAPL"])
  ].

(** A nested record: everything under [content]. *)
Definition nested_record : gmap string pyval :=
  dict_of [
    ("content", VDict (dict_of [
       ("title", VStr "Apple opens a store");
       ("pubDate", VStr "2023-11-13T10:00:00Z");
       ("canonicalUrl", VDict (dict_of [("url", VStr "https://example.com/b")]));
       ("provider", VDict (dict_of [("displayName", VStr "AP")]))]))
  ].

(** A record that is too old, and one without a title. *)
Definition old_record : gmap string pyval :=
  dict_of [
    ("title", VStr "Old news");
    ("link", VStr "https://example.com/old");
    ("providerPublishTime", VInt 1600000000)
  ].

Definition untitled_record : gmap string pyval :=
  dict_of [
    ("title", VStr "   ");
    ("link", VStr "https://example.com/c");
    ("providerPublishTime", VInt 1699999999)
  ].

Definition now_2023_11_15 : datetime :=
  {| year := 2023; month := 11; day := 15;
     hour := 12; minute := 0; second := 0; microsecond := 0 |}.

(** The clock reads 2023-11-15 12:00 at every call. *)
Definition news_provider (ev : NewsFetcher.event) (w : unit)
  : result (NewsFetcher.reply ev) * unit :=
  match ev with
  | TickerNews _ =>
      (Ok (VList [VDict nested_record; VDict old_record;
                  VDict untitled_record; VDict flat_record]), w)
  | Now => (Ok now_2023_11_15, w)
  end.

Definition cutoff_2023_11_08 : datetime :=
  {| year := 2023; month := 11; day := 8;
     hour := 12; minute := 0; second := 0; microsecond := 0 |}.

(** A record published at the cutoff: seven days before the clock, to the
    second. *)
Definition boundary_record : gmap string pyval :=
  dict_of [
    ("title", VStr "On the line");
    ("link", VStr "https://example.com/edge");
    ("providerPublishTime", VInt 1699444800)
  ].

Definition boundary_extracted : extracted :=
  {| x_title := "On the line";
     x_link := VStr "https://example.com/edge";
     x_publisher := VNone;
     x_dt := Some cutoff_2023_11_08;
     x_related := VList [] |}.


Definition fetched_sample : list NewsItem :=
  [ {| title := "Apple beats estimates";
       link := VStr "https://example.com/a";
       publisher := VStr "Reuters";
       published_at := "2023-11-14T22:13:19+00:00";
       related_tickers := VList [VStr "AAPL"] |};
    {| title := "Apple opens a store";
       link := VStr "https://example.com/b";
       publisher := VStr "AP";
       published_at := "2023-11-13T10:00:00+00:00";
       related_tickers := VList [] |} ].

Definition candidate (sym name : string) (s : float) (t : option string)
  : TickerCandidate :=
  {| symbol := sym; shortname := name; longname := None; exchange := None;
     score := s; typeDisp := t; exchDisp := None |}.

Definition acme_candidates : list TickerCandidate :=
  [ candidate "ACME.F" "Acme Futures" (PyFloat.of_Z 3) (Some "Future");
    candidate "ACME" "Acme Corp" (PyFloat.of_Z 2) (Some "Equity");
    candidate "ACM" "Other Holdings" (PyFloat.of_Z 2) (Some "ETF") ].

Definition search_provider (ev : TickerResolver.event) (w : unit)
  : result (TickerResolver.reply ev) * unit :=
  (Ok acme_candidates, w).

(** A language model that is never reached. *)
Definition no_model (ev : SentimentChain.event) (w : unit)
  : result (SentimentChain.reply ev) * unit :=
  (Err (ProviderError "offline"), w).

End Samples.

(** ** Shapes of texts, records and dates

    The predicates in which the further properties are stated. *)

Module Shapes.

Definition is_blank_char (c : ascii) : bool := Ascii.eqb c " ".

(** Only characters of [a-z0-9] and blanks, no two blanks in a row;
    [after_blank] tells that a blank may not come next. *)
Fixpoint spaced (after_blank : bool) (s : string) : bool :=
  match s with
  | EmptyString => true
  | String c s' =>
      if TickerResolver.is_norm_char c then spaced false s'
      else is_blank_char c && negb after_blank && spaced true s'
  end.

(** The same, and the text does not end with a blank. *)
Fixpoint canon_tail (after_blank : bool) (s : string) : bool :=
  match s with
  | EmptyString => negb after_blank
  | String c s' =>
      if TickerResolver.is_norm_char c then canon_tail false s'
      else is_blank_char c && negb after_blank && canon_tail true s'
  end.

(** A text in normal form: words of [a-z0-9], one blank between two words,
    none in front and none behind. *)
Definition canonical (s : string) : bool :=
  PyStr.is_empty s || canon_tail true s.

Definition str_or_falsy (v : pyval) : bool :=
  match v with VStr _ => true | _ => negb (Py.truthy v) end.

Definition dict_or_falsy (v : pyval) : bool :=
  match v with VDict _ => true | _ => negb (Py.truthy v) end.

(** [m.get(k)] *)
Definition field_of (m : gmap string pyval) (k : string) : pyval :=
  default VNone (m !! k).

(** The dict that [v or {}] is, when [v] is a dict or is falsy. *)
Definition as_dict (v : pyval) : gmap string pyval :=
  match v with VDict d => if Py.truthy v then d else ∅ | _ => ∅ end.

(** A raw record as the news provider documents it: a dict whose [title]
    is a text, whose [content] is a dict, and in it [title] a text and
    [canonicalUrl], [clickThroughUrl] and [provider] dicts; each of them
    may be missing, [None] or empty. The other fields may hold anything. *)
Definition well_shaped (n : pyval) : bool :=
  match n with
  | VDict r =>
      let c := as_dict (field_of r "content") in
      str_or_falsy (field_of r "title") && dict_or_falsy (field_of r "content") &&
      str_or_falsy (field_of c "title") && dict_or_falsy (field_of c "canonicalUrl") &&
      dict_or_falsy (field_of c "clickThroughUrl") && dict_or_falsy (field_of c "provider")
  | _ => false
  end.

Definition is_dict (v : pyval) : bool :=
  match v with VDict _ => true | _ => false end.

Definition is_news_call (ev : NewsFetcher.event) : bool :=
  match ev with NewsFetcher.TickerNews _ => true | NewsFetcher.Now => false end.

(** A date of the calendar, and its day number ([date.toordinal]). *)
Definition valid_date (y m d : Z) : Prop :=
  MINYEAR <= y <= MAXYEAR /\ 1 <= m <= 12 /\ 1 <= d <= days_in_month y m.

Definition ymd_ordinal (y m d : Z) : Z :=
  days_before_year y + days_before_month y m + d.

End Shapes.

(** ** One provider among others

    A computation over the calls [E1] runs among the calls [E2] that
    include them. *)

Class Embeds (E1 : Type) (R1 : E1 -> Type) (E2 : Type) (R2 : E2 -> Type) := {
  inj : E1 -> E2;
  back : forall ev : E1, result (R2 (inj ev)) -> result (R1 ev)
}.

Section Embedding.
Context {E1 : Type} {R1 : E1 -> Type} {E2 : Type} {R2 : E2 -> Type}.
Context `{Embeds E1 R1 E2 R2}.

Fixpoint translate {A} (p : io E1 R1 A) : io E2 R2 A :=
  match p with
  | Ret a => Ret a
  | Raise e => Raise e
  | Vis ev k => Vis (inj ev) (fun r => translate (k (back ev r)))
  end.

(** The handler of [E1] that a handler of [E2] gives. *)
Definition restrict {W} (handle : forall ev : E2, W -> result (R2 ev) * W)
    (ev : E1) (w : W) : result (R1 ev) * W :=
  let '(r, w') := handle (inj ev) w in (back ev r, w').
End Embedding.

Section Control.
Context {E : Type} {R : E -> Type}.

(** The outcome of [p] as a value: [try: p except Exception as e: e]. *)
Definition attempt {A} (p : io E R A) : io E R (result A) :=
  try_catch (bind p (fun a => Ret (Ok a))) (fun e => Ret (Err e)).

(** [try: p finally: cleanup]: the cleanup runs on both paths; when it
    raises, its exception is the one that goes on. *)
Definition try_finally {A} (p : io E R A) (cleanup : io E R unit) : io E R A :=
  (r <- attempt p ;; _ <- cleanup ;; lift r)%io.

(** [try: p except Exception: pass] *)
Definition swallow (p : io E R unit) : io E R unit :=
  try_catch p (fun _ => Ret tt).

(** What a run satisfies from every state of the provider: [post] holds of
    its result and of the calls it made. *)
Definition holds {W A} (handle : forall ev : E, W -> result (R ev) * W)
    (p : io E R A) (post : result A -> list E -> Prop) : Prop :=
  forall w, post (res (run handle p w)) (calls (run handle p w)).

(** Every call satisfies [T], and the value returned, if any, [Q]. *)
Definition ensures {W A} (handle : forall ev : E, W -> result (R ev) * W)
    (p : io E R A) (Q : A -> Prop) (T : E -> Prop) : Prop :=
  holds handle p (fun r tr => Forall T tr /\ forall a, r = Ok a -> Q a).
End Control.

(** ** [src/config.py] *)

(** [int(s)] of the interpreter on a text: [None] when it raises. *)
Class StrToInt := int_of_str : string -> option Z.

Module Config.

(** The provider: [os.getenv(name)]. *)
Inductive event : Type := GetEnv (name : string).
Definition reply (ev : event) : Type := option string.

Definition _as_bool (v : option string) (default : bool) : bool :=
  match v with
  | None => default
  | Some s =>
      let t := PyStr.lower (PyStr.strip s) in
      String.eqb t "1" || String.eqb t "true" || String.eqb t "yes"
      || String.eqb t "y" || String.eqb t "on"
  end.

Definition _as_int `{StrToInt} (v : option string) (default : Z) : Z :=
  match v with
  | None => default
  | Some s => match int_of_str s with Some z => z | None => default end
  end.

Record Settings : Type := {
  google_api_key : string;
  use_vertex : bool;
  news_lookback_days : Z;
  news_top_k : Z
}.

Section Loading.
Context `{StrToInt}.

(** [Settings.load()] *)
Definition load : io event reply Settings :=
  (key <- call (GetEnv "GOOGLE_API_KEY") ;;
   vertex <- call (GetEnv "GOOGLE_GENAI_USE_VERTEXAI") ;;
   days <- call (GetEnv "NEWS_LOOKBACK_DAYS") ;;
   top <- call (GetEnv "NEWS_TOP_K") ;;
   Ret {| google_api_key := default "" key;
          use_vertex := _as_bool vertex false;
          news_lookback_days := _as_int days 7;
          news_top_k := _as_int top 5 |})%io.

Definition get_settings : io event reply Settings :=
  (s <- load ;;
   if PyStr.is_empty (google_api_key s) then Raise RuntimeError
   else if use_vertex s then Raise RuntimeError
   else Ret s)%io.
End Loading.

End Config.

(** ** The rest of [src/chains/news_fetcher.py] and of
    [src/chains/ticker_resolver.py] *)

(** [str(v)] of a float, a list or a dict: the printer of the interpreter. *)
Class ObjToStr := str_of_obj : pyval -> string.

Module Digest.
Import NewsFetcher.

(** [str(z)] of an [int] *)
Definition str_of_int (z : Z) : string :=
  (if z <? 0 then "-" else "") +:+ digits (width (Z.abs z)) (Z.abs z).

(** [f"{v}"] *)
Definition format_value `{ObjToStr} (v : pyval) : string :=
  match v with
  | VNone => "None"
  | VBool b => if b then "True" else "False"
  | VInt z => str_of_int z
  | VStr s => s
  | VFloat _ | VList _ | VDict _ => str_of_obj v
  end.

(** [s[:n]] *)
Fixpoint take (n : nat) (s : string) : string :=
  match n, s with
  | S n', String c s' => String c (take n' s')
  | _, _ => EmptyString
  end.

(** ["\n".join(l)] *)
Fixpoint join_lines (l : list string) : string :=
  match l with
  | [] => EmptyString
  | [x] => x
  | x :: l' => x +:+ SentimentChain.nl +:+ join_lines l'
  end.

Section Render.
Context `{ObjToStr}.

(** One turn of the loop of [to_bulleted_newsdesc]. *)
Definition bullet (it : NewsItem) : string :=
  let date_short :=
    if PyStr.is_empty (published_at it) then "" else take 10 (published_at it) in
  let pub :=
    if Py.truthy (publisher it) then " [" +:+ format_value (publisher it) +:+ "]"
    else "" in
  "- " +:+ date_short +:+ pub +:+ ": " +:+ title it
  +:+ " (" +:+ format_value (link it) +:+ ")".

Definition to_bulleted_newsdesc (items : list NewsItem) : string :=
  join_lines (map bullet items).
End Render.

(** [asdict(x)] and [as_dict_list] *)
Definition asdict (it : NewsItem) : pyval :=
  VDict (TickerResolver.dict_of [
    ("title", VStr (title it));
    ("link", link it);
    ("publisher", publisher it);
    ("published_at", VStr (published_at it));
    ("related_tickers", related_tickers it)
  ]).

Definition as_dict_list (items : list NewsItem) : list pyval := map asdict items.

(** The provider of the snapshot: [YahooFinanceNewsTool().run(ticker)]. *)
Inductive tool_event : Type := ToolRun (ticker : string).
Definition tool_reply (ev : tool_event) : Type := string.

(** [has_tool] is [_HAS_LC_TOOL]: whether the import of the tool succeeded
    when the module was loaded. *)
Definition optional_tool_snapshot (has_tool : bool) (ticker : string)
  : io tool_event tool_reply (option string) :=
  if negb has_tool then Ret None
  else try_catch (s <- call (ToolRun ticker) ;; Ret (Some s))%io (fun _ => Ret None).

(** [TickerCandidate.display_name] *)
Definition display_name (c : TickerResolver.TickerCandidate) : string :=
  if negb (PyStr.is_empty (TickerResolver.shortname c)) then TickerResolver.shortname c
  else
    match TickerResolver.longname c with
    | Some l => if PyStr.is_empty l then TickerResolver.symbol c else l
    | None => TickerResolver.symbol c
    end.

End Digest.

(** ** [src/observability/mlflow_utils.py] *)

Module Mlflow.

(** The tracking library and the clock. [StartRun] is
    [mlflow.start_run(...)] entered by [with]; [EndRun failed] is the exit
    of that [with], which ends the run as failed when an exception leaves
    the block and lets the exception go on. *)
Inductive event : Type :=
| SetTrackingUri (uri : string)
| SetExperiment (name : string)
| Autolog
| StartRun (nested : bool) (run_name : string)
| EndRun (failed : bool)
| LogParams (params : list (string * pyval))
| LogMetric (key : string) (value : pyval)
| LogText (text path : string)
| LogDict (obj : pyval) (path : string)
| Clock.

Definition reply (ev : event) : Type :=
  match ev with
  | Clock => float
  | _ => unit
  end.

Section Utils.
Context {E : Type} {R : E -> Type} `{Embeds event reply E R}.

Definition ml (ev : event) : io E R (reply ev) := translate (call ev).

Definition init_mlflow (experiment : string) (tracking_uri : option string)
  : io E R unit :=
  (_ <- match tracking_uri with
        | Some uri => if PyStr.is_empty uri then Ret tt else ml (SetTrackingUri uri)
        | None => Ret tt
        end ;;
   _ <- ml (SetExperiment experiment) ;;
   swallow (ml Autolog))%io.

(** [with mlflow.start_run(nested=nested, run_name=run_name): body] *)
Definition with_run {A} (nested : bool) (run_name : string) (body : io E R A)
  : io E R A :=
  (_ <- ml (StartRun nested run_name) ;;
   r <- attempt body ;;
   match r with
   | Ok a => _ <- ml (EndRun false) ;; Ret a
   | Err e => _ <- ml (EndRun true) ;; Raise e
   end)%io.

Definition f1000 : float := Eval vm_compute in PyFloat.of_Z 1000.

(** [int((now - start) * 1000)] *)
Definition duration_ms (start now : float) : result Z :=
  Py.int_of_float (SFmul PyFloat.prec PyFloat.emax
                     (SFsub PyFloat.prec PyFloat.emax now start) f1000).

(** [with span(name, params): body] *)
Definition span {A} (name : string) (params : list (string * pyval))
    (body : io E R A) : io E R A :=
  (start <- ml Clock ;;
   with_run true name
     (_ <- match params with
           | [] => Ret tt
           | _ => ml (LogParams (map (fun kv => (name +:+ "." +:+ kv.1, kv.2)) params))
           end ;;
      try_finally body
        (now <- ml Clock ;;
         d <- lift (duration_ms start now) ;;
         ml (LogMetric (name +:+ ".duration_ms") (VInt d)))))%io.

Definition log_text (path text : string) : io E R unit := ml (LogText text path).
Definition log_dict (path : string) (obj : pyval) : io E R unit := ml (LogDict obj path).
End Utils.

End Mlflow.

(** ** [src/pipeline.py] *)

Module Pipeline.
Import SentimentSchema.

Inductive event : Type :=
| Env (ev : Config.event)
| Ml (ev : Mlflow.event)
| Resolve (ev : TickerResolver.event)
| News (ev : NewsFetcher.event)
| Tool (ev : Digest.tool_event)
| Chain (ev : SentimentChain.event).

Definition reply (ev : event) : Type :=
  match ev with
  | Env e => Config.reply e
  | Ml e => Mlflow.reply e
  | Resolve e => TickerResolver.reply e
  | News e => NewsFetcher.reply e
  | Tool e => Digest.tool_reply e
  | Chain e => SentimentChain.reply e
  end.

#[export] Instance embeds_env : Embeds Config.event Config.reply event reply :=
  {| inj := Env; back := fun _ r => r |}.
#[export] Instance embeds_ml : Embeds Mlflow.event Mlflow.reply event reply :=
  {| inj := Ml; back := fun _ r => r |}.
#[export] Instance embeds_resolve
  : Embeds TickerResolver.event TickerResolver.reply event reply :=
  {| inj := Resolve; back := fun _ r => r |}.
#[export] Instance embeds_news
  : Embeds NewsFetcher.event NewsFetcher.reply event reply :=
  {| inj := News; back := fun _ r => r |}.
#[export] Instance embeds_tool
  : Embeds Digest.tool_event Digest.tool_reply event reply :=
  {| inj := Tool; back := fun _ r => r |}.
#[export] Instance embeds_chain
  : Embeds SentimentChain.event SentimentChain.reply event reply :=
  {| inj := Chain; back := fun _ r => r |}.

Definition label_name (l : sentiment_label) : string :=
  match l with
  | Positive => "Positive"
  | Negative => "Negative"
  | Neutral => "Neutral"
  end.

(** [result.model_dump()] *)
Definition model_dump (r : SentimentResult) : pyval :=
  VDict (TickerResolver.dict_of [
    ("company_name", VStr (company_name r));
    ("stock_code", VStr (stock_code r));
    ("newsdesc", VStr (newsdesc r));
    ("sentiment", VStr (label_name (sentiment r)));
    ("people_names", VList (map VStr (people_names r)));
    ("places_names", VList (map VStr (places_names r)));
    ("other_companies_referred", VList (map VStr (other_companies_referred r)));
    ("related_industries", VList (map VStr (related_industries r)));
    ("market_implications", VStr (market_implications r));
    ("confidence_score", VFloat (confidence_score r))
  ]).

Section Run.
Context `{StrToFloat} `{IsoParser} `{StrToInt} `{ObjToStr}.
Context `{SchemaFloat} `{StrUpper}.
Variable has_tool : bool.

(** The first stage: the ticker to look up. *)
Definition ticker_stage (company : string)   : io event reply string :=
  Mlflow.span "ticker" [("company_name", VStr company)]
    (cand <- translate (TickerResolver.resolve_ticker company "US" true) ;;
     match cand with
     | Some c =>
         _ <- Mlflow.ml (Mlflow.LogParams [
                ("ticker.symbol", VStr (TickerResolver.symbol c));
                ("ticker.exchange",
                 VStr (match TickerResolver.exchDisp c with
                       | Some x => if PyStr.is_empty x
                                   then match TickerResolver.exchange c with
                                        | Some y => y | None => "" end
                                   else x
                       | None => match TickerResolver.exchange c with
                                 | Some y => y | None => "" end
                       end));
                ("ticker.display_name", VStr (Digest.display_name c))]) ;;
         Ret (TickerResolver.symbol c)
     | None =>
         _ <- Mlflow.ml (Mlflow.LogParams [
                ("ticker.symbol", VStr company);
                ("ticker.exchange", VStr "")]) ;;
         Ret company
     end)%io.

(** The second stage: the digest of the news. *)
Definition news_stage (ticker : string) (s : Config.Settings)   : io event reply string :=
  Mlflow.span "news"
    [("ticker", VStr ticker);
     ("lookback_days", VInt (Config.news_lookback_days s));
     ("top_k", VInt (Config.news_top_k s))]
    (items <- translate (NewsFetcher.fetch_recent_news ticker
                           (Config.news_lookback_days s) (Config.news_top_k s)) ;;
     let newsdesc := Digest.to_bulleted_newsdesc items in
     _ <- Mlflow.log_text "news/newsdesc.txt"
            (if PyStr.is_empty newsdesc then "(no recent articles found)"
             else newsdesc) ;;
     _ <- Mlflow.log_dict "news/news_items.json"
            (VDict (TickerResolver.dict_of [
               ("ticker", VStr ticker);
               ("items", VList (Digest.as_dict_list items))])) ;;
     snapshot <- translate (Digest.optional_tool_snapshot has_tool ticker) ;;
     _ <- match snapshot with
          | Some t => if PyStr.is_empty t then Ret tt
                      else Mlflow.log_text "news/yahoo_tool_snapshot.txt" t
          | None => Ret tt
          end ;;
     Ret newsdesc)%io.

(** The third stage: the sentiment. *)
Definition sentiment_stage (company ticker newsdesc : string)
  : io event reply SentimentResult :=
  Mlflow.span "sentiment" [("model", VStr "gemini-2.0-flash")]
    (let prompt_text :=
       SentimentChain.SYSTEM_PROMPT +:+ SentimentChain.nl +:+ SentimentChain.nl
       +:+ SentimentChain.human_message company ticker
             (if PyStr.is_empty (PyStr.strip newsdesc)
              then "(no recent articles found)" else newsdesc) in
     _ <- Mlflow.log_text "sentiment/prompt.txt" prompt_text ;;
     result <- translate (SentimentChain.analyze_sentiment company ticker newsdesc) ;;
     _ <- Mlflow.log_dict "sentiment/sentiment.json" (model_dump result) ;;
     _ <- swallow (Mlflow.ml (Mlflow.LogMetric "confidence_score"
                                (VFloat (confidence_score result)))) ;;
     Ret result)%io.

Definition run_pipeline (company : string) : io event reply SentimentResult :=
  (s <- translate Config.get_settings ;;
   _ <- Mlflow.init_mlflow "market-sentiment-analyzer" None ;;
   Mlflow.with_run false ("analyze:" +:+ company)
     (ticker <- ticker_stage company ;;
      newsdesc <- news_stage ticker s ;;
      sentiment_stage company ticker newsdesc))%io.
End Run.

(** The news lookups of a trace are all of a ticker that satisfies [P]. *)
Definition looks_up (P : string -> Prop) (ev : event) : Prop :=
  match ev with
  | News (NewsFetcher.TickerNews t) => P t
  | _ => True
  end.

Definition is_search (ev : event) : bool :=
  match ev with Resolve _ => true | _ => false end.

Definition is_model_call (ev : event) : bool :=
  match ev with Chain _ => true | _ => false end.

Definition is_env_read (ev : event) : bool :=
  match ev with Env _ => true | _ => false end.

Definition is_run_call (ev : event) : bool :=
  match ev with
  | Ml (Mlflow.StartRun _ _) | Ml (Mlflow.EndRun _) => true
  | _ => false
  end.

(** The depth of open runs after a sequence of calls, from [d]; [None]
    when a run is ended that was not started. *)
Fixpoint run_depth (d : nat) (tr : list event) : option nat :=
  match tr with
  | [] => Some d
  | Ml (Mlflow.StartRun _ _) :: tr' => run_depth (S d) tr'
  | Ml (Mlflow.EndRun _) :: tr' =>
      match d with
      | O => None
      | S d' => run_depth d' tr'
      end
  | _ :: tr' => run_depth d tr'
  end.

(** Every run that the calls start is ended by them, and none is ended
    that was not started. *)
Definition balanced (tr : list event) : Prop :=
  forall d, run_depth d tr = Some d.

End Pipeline.

(** ** More sample data

    An environment, a language model that answers, a news provider that
    sends a malformed record, and providers for the whole pipeline. *)

Module MoreSamples.
Import Samples.

Definition sample_int_of_str : StrToInt :=
  fun s => if String.eqb s "14" then Some 14 else None.

(** A printer that knows the empty list. *)
Definition sample_str_of_obj : ObjToStr :=
  fun v => match v with VList [] => "[]" | _ => "<object>" end.

(** The environment as a provider. *)
Definition env_provider (env : string -> option string) {W : Type}
    (ev : Config.event) (w : W) : result (Config.reply ev) * W :=
  match ev with Config.GetEnv name => (Ok (env name), w) end.

Definition env_full (name : string) : option string :=
  if String.eqb name "GOOGLE_API_KEY" then Some "k-123"
  else if String.eqb name "NEWS_LOOKBACK_DAYS" then Some "14"
  else None.

Definition env_bare (name : string) : option string :=
  if String.eqb name "GOOGLE_API_KEY" then Some "k-123"
  else if String.eqb name "NEWS_LOOKBACK_DAYS" then Some "soon"
  else None.

Definition env_empty (name : string) : option string := None.

Definition cutoff_2023_10_16 : datetime :=
  {| year := 2023; month := 10; day := 16;
     hour := 12; minute := 0; second := 0; microsecond := 0 |}.

(** A reply with a record that is not a dict. *)
Definition broken_provider (ev : NewsFetcher.event) (w : unit)
  : result (NewsFetcher.reply ev) * unit :=
  match ev with
  | NewsFetcher.TickerNews _ => (Ok (VList [VDict flat_record; VStr "oops"]), w)
  | NewsFetcher.Now => (Ok now_2023_11_15, w)
  end.

(** A language model that is sure of itself. *)
Definition sample_output : SentimentChain.llm_output :=
  {| SentimentChain.o_company_name := "Apple Inc.";
     SentimentChain.o_stock_code := "AAPL";
     SentimentChain.o_newsdesc := "Apple beats estimates";
     SentimentChain.o_sentiment := "Positive";
     SentimentChain.o_people_names := [];
     SentimentChain.o_places_names := [];
     SentimentChain.o_other_companies_referred := [];
     SentimentChain.o_related_industries := ["Consumer electronics"];
     SentimentChain.o_market_implications := "Upside.";
     SentimentChain.o_confidence_score := Some (VStr "2") |}.

Definition sample_model (ev : SentimentChain.event) (w : unit)
  : result (SentimentChain.reply ev) * unit :=
  match ev with
  | SentimentChain.GetChatModel _ => (Ok tt, w)
  | SentimentChain.Invoke _ _ => (Ok sample_output, w)
  end.

(** A tracking library that does what it is asked, with a clock that
    stands still. *)
Definition tracking_provider (ev : Mlflow.event) (w : unit)
  : result (Mlflow.reply ev) * unit :=
  match ev as e return result (Mlflow.reply e) * unit with
  | Mlflow.Clock => (Ok f1_0, w)
  | _ => (Ok tt, w)
  end.

(** The providers of the pipeline: an environment, what the search finds
    and what the news provider sends. *)
Definition pipeline_provider (env : string -> option string)
    (found : list TickerResolver.TickerCandidate) (news : pyval)
    (ev : Pipeline.event) (w : unit) : result (Pipeline.reply ev) * unit :=
  match ev as e return result (Pipeline.reply e) * unit with
  | Pipeline.Env e => env_provider env e w
  | Pipeline.Ml e => tracking_provider e w
  | Pipeline.Resolve e => (Ok found, w)
  | Pipeline.News e =>
      match e as e0 return result (NewsFetcher.reply e0) * unit with
      | NewsFetcher.TickerNews _ => (Ok news, w)
      | NewsFetcher.Now => (Ok now_2023_11_15, w)
      end
  | Pipeline.Tool e => (Ok "Apple: nothing new", w)
  | Pipeline.Chain e => sample_model e w
  end.

Definition sample_news : pyval :=
  VList [VDict nested_record; VDict old_record;
         VDict untitled_record; VDict flat_record].

End MoreSamples.

(** * Properties *)

(** ** The order of binary64 numbers *)

Module FloatFacts.

Ltac fold_pos_compare :=
  repeat match goal with
    | |- context [PosDef.Pos.compare_cont Eq ?p ?q] =>
        change (PosDef.Pos.compare_cont Eq p q) with (Pos.compare p q)
    end.

Lemma SFcompare_antisym (a b : float) :
  SFcompare a b = option_map CompOpp (SFcompare b a).
Proof.
  destruct a as [sa|sa| |sa ma ea], b as [sb|sb| |sb mb eb]; simpl;
    try reflexivity;
    try (destruct sa; reflexivity); try (destruct sb; reflexivity);
    try (destruct sa, sb; reflexivity).
  fold_pos_compare.
  rewrite (Z.compare_antisym ea eb), (Pos.compare_antisym ma mb).
  destruct sa, sb; try reflexivity;
    destruct (ea ?= eb); simpl; try reflexivity;
    destruct (ma ?= mb)%positive; reflexivity.
Qed.

Lemma ltb_irrefl (a : float) : PyFloat.ltb a a = false.
Proof.
  unfold PyFloat.ltb, SFltb.
  destruct a as [s|s| |s m e]; simpl; try reflexivity; try (destruct s; reflexivity).
  fold_pos_compare.
  rewrite Z.compare_refl, Pos.compare_refl. destruct s; reflexivity.
Qed.

Lemma ltb_asym (a b : float) : PyFloat.ltb a b = true -> PyFloat.ltb b a = false.
Proof.
  unfold PyFloat.ltb, SFltb. rewrite (SFcompare_antisym b a).
  destruct (SFcompare a b) as [[]|]; simpl; congruence.
Qed.

Lemma ltb_leb (a b : float) : PyFloat.ltb a b = true -> PyFloat.leb a b = true.
Proof.
  unfold PyFloat.ltb, PyFloat.leb, SFltb, SFleb.
  destruct (SFcompare a b) as [[]|]; congruence.
Qed.

(** Numbers that are not NaN are totally ordered. *)
Lemma not_ltb_leb (a b : float) :
  PyFloat.is_nan a = false -> PyFloat.is_nan b = false ->
  PyFloat.ltb a b = false -> PyFloat.leb b a = true.
Proof.
  unfold PyFloat.ltb, PyFloat.leb, SFltb, SFleb. rewrite (SFcompare_antisym b a).
  intros Ha Hb.
  assert (Hc : exists c, SFcompare a b = Some c).
  { destruct a, b; simpl in *; try discriminate; eauto. }
  destruct Hc as [c ->]. destruct c; simpl; congruence.
Qed.

Ltac cmp_cases :=
  repeat match goal with
    | |- context [(?x ?= ?y)%Z] => destruct (Z.compare_spec x y)
    | |- context [(?x ?= ?y)%positive] => destruct (Pos.compare_spec x y)
    | H : context [(?x ?= ?y)%Z] |- _ => destruct (Z.compare_spec x y)
    | H : context [(?x ?= ?y)%positive] |- _ => destruct (Pos.compare_spec x y)
    end.

Lemma ltb_trans (a b c : float) :
  PyFloat.ltb a b = true -> PyFloat.ltb b c = true -> PyFloat.ltb a c = true.
Proof.
  unfold PyFloat.ltb, SFltb.
  destruct a as [sa|sa| |sa ma ea], b as [sb|sb| |sb mb eb],
           c as [sc|sc| |sc mc ec]; simpl;
    try discriminate; try reflexivity;
    try (destruct sa; simpl; congruence);
    try (destruct sb; simpl; congruence);
    try (destruct sc; simpl; congruence);
    try (destruct sa, sb; simpl; congruence);
    try (destruct sa, sc; simpl; congruence);
    try (destruct sb, sc; simpl; congruence);
    try (destruct sa, sb, sc; simpl; congruence).
  fold_pos_compare.
  destruct sa, sb, sc; simpl; try discriminate; try reflexivity;
    intros; cmp_cases; simpl in *; subst; try discriminate; try reflexivity; lia.
Qed.

(** [min2] and [max2] pick one of their arguments. *)
Lemma clamp_cases (f : float) :
  let r := max2 f0_0 (min2 f1_0 f) in
  (r = f /\ PyFloat.ltb f0_0 f = true /\ PyFloat.ltb f f1_0 = true) \/
  (r = f0_0 /\ PyFloat.ltb f0_0 f = false /\ PyFloat.ltb f f1_0 = true) \/
  (r = f1_0 /\ PyFloat.ltb f f1_0 = false).
Proof.
  unfold max2, min2. simpl.
  destruct (PyFloat.ltb f f1_0) eqn:E1.
  - destruct (PyFloat.ltb f0_0 f) eqn:E0; auto.
  - right; right. split; reflexivity.
Qed.

End FloatFacts.

(** ** The confidence of a result *)

Module SchemaFacts.
Import SentimentSchema FloatFacts.

Section Clamp.
Context `{StrToFloat} `{HS : SchemaFloat}.

Lemma clamp_in_range (v : pyval) :
  PyFloat.leb f0_0 (_clamp_confidence v) = true /\
  PyFloat.leb (_clamp_confidence v) f1_0 = true.
Proof.
  unfold _clamp_confidence. destruct (Py.to_float v) as [f|e].
  - destruct (clamp_cases f) as [(-> & H0 & H1)|[(-> & _)|(-> & _)]].
    + split; apply ltb_leb; assumption.
    + split; reflexivity.
    + split; reflexivity.
  - split; reflexivity.
Qed.



(** What a construction returns: the fields as given, and the confidence
    that the validator makes of the validated float. *)
Lemma init_returns
    (company code news : string) (label : sentiment_label)
    (people places others industries : list string)
    (implications : string) (confidence : option pyval) (r : SentimentResult) :
  SentimentResult_init company code news label people places
    others industries implications confidence = Ok r ->
  company_name r = company /\ stock_code r = code /\ newsdesc r = news /\
  sentiment r = label /\
  match confidence with
  | Some v => exists f, validate_float v = Ok f /\
                        confidence_score r = _clamp_confidence (VFloat f)
  | None => confidence_score r = f0_5
  end.
Proof.
  unfold SentimentResult_init. destruct confidence as [v|]; simpl.
  - destruct (validate_float v) as [f|e]; simpl; [|discriminate].
    intros [= <-]. simpl. repeat split. eauto.
  - intros [= <-]. repeat split.
Qed.

Lemma init_in_range
    (company code news : string) (label : sentiment_label)
    (people places others industries : list string)
    (implications : string) (confidence : option pyval) (r : SentimentResult) :
  SentimentResult_init company code news label people places
    others industries implications confidence = Ok r ->
  PyFloat.leb f0_0 (confidence_score r) = true /\
  PyFloat.leb (confidence_score r) f1_0 = true.
Proof.
  intros Hr. apply init_returns in Hr. destruct Hr as (_ & _ & _ & _ & Hc).
  destruct confidence as [v|].
  - destruct Hc as (f & _ & ->). apply clamp_in_range.
  - rewrite Hc. split; reflexivity.
Qed.

(** The validation refuses what is no number. *)
Lemma validate_float_refuses (v : pyval) (e : exn) :
  validate_float v = Err e -> e = ValidationError.
Proof.
  destruct v as [| b|z|f|s|l|d]; simpl; try congruence;
    try (destruct (schema_float _); congruence).
  destruct (PyFloat.of_Z z); try congruence.
  destruct (schema_float _); congruence.
Qed.

End Clamp.

End SchemaFacts.

(** ** ISO strings and the order of time *)

Module DatetimeFacts.

Lemma str_compare_refl (s : string) : String.compare s s = Eq.
Proof.
  induction s as [|c s IH]; simpl; [reflexivity|].
  unfold Ascii.compare. rewrite N.compare_refl. exact IH.
Qed.

(** Two strings that start with pieces of one length are ordered by the
    pieces first. *)
Lemma str_compare_app (a b x y : string) :
  String.length a = String.length b ->
  String.compare (a +:+ x) (b +:+ y) =
    match String.compare a b with
    | Eq => String.compare x y
    | c => c
    end.
Proof.
  revert b. induction a as [|c a IH]; intros [|c' b] Hlen; simpl in *;
    try discriminate; [reflexivity|].
  destruct (Ascii.compare c c'); try reflexivity.
  apply IH. congruence.
Qed.

Lemma sep_compare (c : ascii) (x y : string) :
  String.compare (String c EmptyString +:+ x) (String c EmptyString +:+ y)
  = String.compare x y.
Proof. simpl. unfold Ascii.compare. rewrite N.compare_refl. reflexivity. Qed.

Lemma sep_app_compare (c : ascii) (a b x y : string) :
  String.compare ((String c EmptyString +:+ a) +:+ x) ((String c EmptyString +:+ b) +:+ y)
  = String.compare (a +:+ x) (b +:+ y).
Proof. simpl. unfold Ascii.compare. rewrite N.compare_refl. reflexivity. Qed.

Lemma digit_compare (a b : Z) :
  0 <= a < 10 -> 0 <= b < 10 ->
  Ascii.compare (digit a) (digit b) = (a ?= b).
Proof.
  intros Ha Hb. unfold Ascii.compare, digit.
  rewrite !N_ascii_embedding by lia.
  rewrite <- N2Z.inj_compare, !N2Z.inj_add, !Z2N.id by lia.
  apply Z.add_compare_mono_l.
Qed.

Lemma digits_length (w : nat) (n : Z) : String.length (digits w n) = w.
Proof. induction w; simpl; congruence. Qed.

Lemma digits_compare (w : nat) (a b : Z) :
  String.compare (digits w a) (digits w b)
  = (a mod 10 ^ Z.of_nat w ?= b mod 10 ^ Z.of_nat w).
Proof.
  induction w as [|w IH].
  - simpl. rewrite !Z.mod_1_r. reflexivity.
  - cbn [digits String.compare].
    assert (Hp : 0 < 10 ^ Z.of_nat w) by (apply Z.pow_pos_nonneg; lia).
    rewrite digit_compare by (apply Z.mod_pos_bound; lia).
    rewrite IH.
    replace (10 ^ Z.of_nat (S w)) with (10 ^ Z.of_nat w * 10)
      by (rewrite Nat2Z.inj_succ, Z.pow_succ_r; lia).
    rewrite !Z.rem_mul_r by lia.
    set (p := 10 ^ Z.of_nat w) in *.
    pose proof (Z.mod_pos_bound a p Hp).
    pose proof (Z.mod_pos_bound b p Hp).
    set (ra := a mod p) in *. set (rb := b mod p) in *.
    set (qa := (a / p) mod 10). set (qb := (b / p) mod 10).
    destruct (Z.compare_spec qa qb) as [E|L|G].
    + rewrite E. destruct (Z.compare_spec ra rb);
        symmetry; [apply Z.compare_eq_iff | apply Z.compare_lt_iff | apply Z.compare_gt_iff]; lia.
    + symmetry. apply Z.compare_lt_iff. nia.
    + symmetry. apply Z.compare_gt_iff. nia.
Qed.

Lemma width_go_le (fuel w : nat) (n : Z) :
  (1 <= w)%nat -> 0 <= n < 10 ^ Z.of_nat w -> (width_go fuel n <= w)%nat.
Proof.
  revert w n. induction fuel as [|fuel IH]; intros w n Hw Hn; simpl; [lia|].
  destruct (Z.ltb_spec n 10); [lia|].
  destruct w as [|[|w]]; [lia | simpl in Hn; lia |].
  apply le_n_S, IH; [lia|].
  rewrite Nat2Z.inj_succ, Z.pow_succ_r in Hn by lia.
  split; [apply Z.div_pos; lia | apply Z.div_lt_upper_bound; lia].
Qed.

Lemma width_go_enough (fuel : nat) (n : Z) :
  0 <= n < 2 ^ Z.of_nat fuel -> n < 10 ^ Z.of_nat (width_go fuel n).
Proof.
  revert n. induction fuel as [|fuel IH]; intros n Hn; simpl width_go.
  - simpl in *. lia.
  - destruct (Z.ltb_spec n 10); [simpl; lia|].
    rewrite Nat2Z.inj_succ, Z.pow_succ_r in * by lia.
    assert (Hq : n / 10 < 10 ^ Z.of_nat (width_go fuel (n / 10))).
    { apply IH. split; [apply Z.div_pos; lia|].
      apply Z.div_lt_upper_bound; lia. }
    pose proof (Z.mul_div_le n 10 ltac:(lia)).
    pose proof (Z.mod_pos_bound n 10 ltac:(lia)).
    pose proof (Z.div_mod n 10 ltac:(lia)). lia.
Qed.

(** The fuel of [width] is enough: no digit of [n] is lost by [fmt_d]. *)
Lemma width_covers (n : Z) : 0 <= n -> n < 10 ^ Z.of_nat (width n).
Proof.
  intros Hn. unfold width. apply width_go_enough. split; [exact Hn|].
  destruct (Z.eq_dec n 0) as [->|Hz]; [simpl; lia|].
  rewrite Nat2Z.inj_succ, Z2Nat.id by apply Z.log2_nonneg.
  apply Z.log2_spec. lia.
Qed.

(** A field that fits its width is printed with exactly that width. *)
Lemma fmt_d_fits (w : nat) (n : Z) :
  (1 <= w)%nat -> 0 <= n < 10 ^ Z.of_nat w -> fmt_d w n = digits w n.
Proof.
  intros Hw Hn. unfold fmt_d, width.
  rewrite Nat.max_l; [reflexivity | apply width_go_le; assumption].
Qed.

Lemma days_in_month_le (y m : Z) : days_in_month y m <= 31.
Proof.
  unfold days_in_month. destruct ((m =? 2) && is_leap y); [lia|].
  destruct (Z.to_nat m) as [|[|[|[|[|[|[|[|[|[|[|[|[|[|k]]]]]]]]]]]]]];
    simpl; lia.
Qed.

Lemma isoformat_digits (d : datetime) :
  Datetime.wf d ->
  isoformat d =
    digits 4 (year d) +:+ "-" +:+ digits 2 (month d) +:+ "-" +:+ digits 2 (day d)
    +:+ "T" +:+ digits 2 (hour d) +:+ ":" +:+ digits 2 (minute d)
    +:+ ":" +:+ digits 2 (second d)
    +:+ (if microsecond d =? 0 then "" else "." +:+ digits 6 (microsecond d))
    +:+ "+00:00".
Proof.
  intros (Hy & Hm & Hd & Hh & Hmi & Hs & Hus).
  pose proof (days_in_month_le (year d) (month d)).
  unfold MINYEAR, MAXYEAR in Hy. unfold isoformat.
  rewrite (fmt_d_fits 4 (year d)), (fmt_d_fits 2 (month d)), (fmt_d_fits 2 (day d)),
    (fmt_d_fits 2 (hour d)), (fmt_d_fits 2 (minute d)), (fmt_d_fits 2 (second d)),
    (fmt_d_fits 6 (microsecond d)); simpl; try lia.
  reflexivity.
Qed.

(** The strings of two datetimes are ordered as the datetimes are. *)
Lemma isoformat_compare (d1 d2 : datetime) :
  Datetime.wf d1 -> Datetime.wf d2 ->
  String.compare (isoformat d1) (isoformat d2) = Datetime.compare d1 d2.
Proof.
  intros W1 W2.
  rewrite (isoformat_digits d1 W1), (isoformat_digits d2 W2).
  destruct W1 as (Hy1 & Hm1 & Hd1 & Hh1 & Hmi1 & Hs1 & Hus1).
  destruct W2 as (Hy2 & Hm2 & Hd2 & Hh2 & Hmi2 & Hs2 & Hus2).
  pose proof (days_in_month_le (year d1) (month d1)).
  pose proof (days_in_month_le (year d2) (month d2)).
  unfold MINYEAR, MAXYEAR in *.
  unfold Datetime.compare, fields. cbn [lex_compare].
  repeat (rewrite str_compare_app by (rewrite !digits_length; reflexivity);
          rewrite digits_compare, !Z.mod_small by (simpl; lia);
          match goal with
          | |- match ?c with Eq => _ | Lt => _ | Gt => _ end = _ =>
              destruct c; [|reflexivity|reflexivity]
          end;
          rewrite ?sep_compare).
  destruct (Z.eqb_spec (microsecond d1) 0) as [E1|N1],
           (Z.eqb_spec (microsecond d2) 0) as [E2|N2].
  - rewrite E1, E2. reflexivity.
  - rewrite E1. replace (0 ?= microsecond d2) with Lt
      by (symmetry; apply Z.compare_lt_iff; lia).
    reflexivity.
  - rewrite E2. replace (microsecond d1 ?= 0) with Gt
      by (symmetry; apply Z.compare_gt_iff; lia).
    reflexivity.
  - rewrite sep_app_compare.
    rewrite str_compare_app by (rewrite !digits_length; reflexivity).
    rewrite digits_compare, !Z.mod_small by (simpl; lia).
    destruct (microsecond d1 ?= microsecond d2); reflexivity.
Qed.

(** *** The calendar of [fromtimestamp] *)

Lemma is_leap_ord (n400 n100 n4 n1 : Z) :
  0 <= n400 -> 0 <= n100 < 4 -> 0 <= n4 < 25 -> 0 <= n1 < 4 ->
  is_leap (n400 * 400 + 1 + n100 * 100 + n4 * 4 + n1)
  = (n1 =? 3) && (negb (n4 =? 24) || (n100 =? 3)).
Proof.
  intros. unfold is_leap.
  set (y := n400 * 400 + 1 + n100 * 100 + n4 * 4 + n1).
  assert (E4 : y mod 4 = (n1 + 1) mod 4).
  { unfold y. replace (n400 * 400 + 1 + n100 * 100 + n4 * 4 + n1) with ((n1 + 1) + (n400 * 100 + n100 * 25 + n4) * 4) by lia.
    apply Z.mod_add. lia. }
  assert (E100 : y mod 100 = (n4 * 4 + n1 + 1) mod 100).
  { unfold y. replace (n400 * 400 + 1 + n100 * 100 + n4 * 4 + n1) with ((n4 * 4 + n1 + 1) + (n400 * 4 + n100) * 100) by lia.
    apply Z.mod_add. lia. }
  assert (E400 : y mod 400 = (n100 * 100 + n4 * 4 + n1 + 1) mod 400).
  { unfold y. replace (n400 * 400 + 1 + n100 * 100 + n4 * 4 + n1) with ((n100 * 100 + n4 * 4 + n1 + 1) + n400 * 400) by lia.
    apply Z.mod_add. lia. }
  rewrite E4, E100, E400.
  destruct (Z.eqb_spec n1 3), (Z.eqb_spec n4 24), (Z.eqb_spec n100 3); subst; simpl;
   repeat match goal with |- context [(?a mod ?b =? 0)] => destruct (Z.eqb_spec (a mod b) 0) end; simpl; try reflexivity;
   exfalso; Z.div_mod_to_equations; lia.
Qed.

Lemma ord2ymd_wf (o : Z) y m d :
  1 <= o <= MAXORDINAL -> ord2ymd o = (y, m, d) ->
  MINYEAR <= y <= MAXYEAR /\ 1 <= m <= 12 /\ 1 <= d <= days_in_month y m.
Proof.
  unfold MAXORDINAL, MINYEAR, MAXYEAR, ord2ymd. intros Ho.
  set (n0 := o - 1).
  set (n400 := n0 / 146097). set (r400 := n0 mod 146097).
  set (n100 := r400 / 36524). set (r100 := r400 mod 36524).
  set (n4 := r100 / 1461). set (r4 := r100 mod 1461).
  set (n1 := r4 / 365). set (n := r4 mod 365).
  assert (B : 0 <= n400 <= 24 /\ 0 <= n100 <= 4 /\ 0 <= n4 <= 24 /\ 0 <= n1 <= 4 /\ 0 <= n < 365
     /\ n0 = n400 * 146097 + n100 * 36524 + n4 * 1461 + n1 * 365 + n
     /\ 0 <= n4 * 1461 + n1 * 365 + n < 36524 /\ 0 <= n1 * 365 + n < 1461
     /\ 0 <= n100 * 36524 + n4 * 1461 + n1 * 365 + n < 146097).
  { unfold n400, n100, n4, n1, n, r4, r100, r400, n0. Z.div_mod_to_equations. lia. }
  clearbody n400 n100 n4 n1 n. clear r400 r100 r4.
  destruct B as (B400 & B100 & B4 & B1 & Bn & En & Br100 & Br4 & Br400).
  destruct (Z.eqb_spec n1 4) as [E1|N1]; simpl.
  { intros [= <- <- <-]. unfold days_in_month. simpl. lia. }
  destruct (Z.eqb_spec n100 4) as [E1|N100]; simpl.
  { intros [= <- <- <-]. unfold days_in_month. simpl. lia. }
  rewrite <- (is_leap_ord n400 n100 n4 n1) by lia.
  set (yy := n400 * 400 + 1 + n100 * 100 + n4 * 4 + n1).
  assert (Hy : 1 <= yy <= 9999) by (unfold yy; lia).
  clearbody yy.
  rewrite Z.shiftr_div_pow2 by lia. change (2 ^ 5) with 32.
  set (m0 := (n + 50) / 32).
  assert (Hm0 : 1 <= m0 <= 12 /\ 32 * m0 <= n + 50 < 32 * m0 + 32) by (unfold m0; Z.div_mod_to_equations; lia).
  clearbody m0. destruct Hm0 as [Hm0 Hq].
  unfold days_in_month.
  destruct (is_leap yy) eqn:EL;
  assert (Hc : m0 = 1 \/ m0 = 2 \/ m0 = 3 \/ m0 = 4 \/ m0 = 5 \/ m0 = 6 \/ m0 = 7 \/ m0 = 8 \/ m0 = 9 \/ m0 = 10 \/ m0 = 11 \/ m0 = 12) by lia;
  repeat (destruct Hc as [->|Hc]); try subst m0; simpl;
  match goal with |- context [?a <? ?b] => destruct (Z.ltb_spec a b) end; simpl;
  intros [= <- <- <-]; rewrite ?EL; simpl; lia.
Qed.

Lemma fromtimestamp_wf (secs : Z) (d : datetime) :
  fromtimestamp secs = Some d -> Datetime.wf d /\ microsecond d = 0.
Proof.
  unfold fromtimestamp.
  destruct ((1 <=? secs / 86400 + 719163) && (secs / 86400 + 719163 <=? MAXORDINAL)) eqn:E; [|discriminate].
  apply andb_true_iff in E. destruct E as [E1 E2].
  apply Z.leb_le in E1, E2.
  destruct (ord2ymd (secs / 86400 + 719163)) as [[y m] dd] eqn:Eo.
  apply ord2ymd_wf in Eo; [|lia].
  intros [= <-]. unfold Datetime.wf. simpl.
  pose proof (Z.mod_pos_bound secs 86400 ltac:(lia)).
  split; [|reflexivity].
  repeat split; try tauto; try lia; Z.div_mod_to_equations; lia.
Qed.

Lemma compare_refl (d : datetime) : Datetime.compare d d = Eq.
Proof.
  unfold Datetime.compare, fields. cbn [lex_compare].
  rewrite !Z.compare_refl. reflexivity.
Qed.

Lemma geb_refl (d : datetime) : Datetime.geb d d = true.
Proof. unfold Datetime.geb. rewrite compare_refl. reflexivity. Qed.

Lemma geb_ltb (d1 d2 : datetime) : Datetime.geb d1 d2 = negb (Datetime.ltb d1 d2).
Proof. unfold Datetime.geb, Datetime.ltb. destruct (Datetime.compare d1 d2); reflexivity. Qed.

End DatetimeFacts.

(** ** Sorting *)

Lemma firstn_incl {A : Type} (n : nat) (l : list A) (y : A) :
  In y (firstn n l) -> In y l.
Proof.
  revert l. induction n as [|n IH]; intros [|x l]; simpl; try tauto.
  intros [->|Hy]; [left; reflexivity | right; apply IH, Hy].
Qed.

Section SortFacts.
Context {A K : Type} (lt : K -> K -> bool) (key : A -> K).

Lemma insert_desc_In (x y : A) (l : list A) :
  In y (insert_desc lt key x l) <-> y = x \/ In y l.
Proof.
  induction l as [|z l IH]; simpl.
  - intuition congruence.
  - destruct (lt (key x) (key z)); simpl; rewrite ?IH; intuition congruence.
Qed.

Lemma sort_desc_In (y : A) (l : list A) : In y (sort_desc lt key l) <-> In y l.
Proof.
  induction l as [|x l IH]; simpl; [reflexivity|].
  rewrite insert_desc_In, IH. intuition congruence.
Qed.

Lemma insert_desc_length (x : A) (l : list A) :
  length (insert_desc lt key x l) = S (length l).
Proof.
  induction l as [|z l IH]; simpl; [reflexivity|].
  destruct (lt (key x) (key z)); simpl; congruence.
Qed.

Lemma sort_desc_length (l : list A) : length (sort_desc lt key l) = length l.
Proof.
  induction l as [|x l IH]; simpl; [reflexivity|].
  rewrite insert_desc_length. congruence.
Qed.

Hypothesis lt_asym : forall a b, lt a b = true -> lt b a = false.
Hypothesis ge_trans :
  forall a b c, lt a b = false -> lt b c = false -> lt a c = false.

Lemma insert_desc_sorted (x : A) (l : list A) :
  StronglySorted (not_before lt key) l -> StronglySorted (not_before lt key) (insert_desc lt key x l).
Proof.
  induction 1 as [|z l Hs IH Hz]; simpl.
  - repeat constructor.
  - destruct (lt (key x) (key z)) eqn:E.
    + constructor; [exact IH|].
      apply List.Forall_forall. intros y Hy. apply insert_desc_In in Hy.
      destruct Hy as [->|Hy].
      * apply lt_asym, E.
      * rewrite List.Forall_forall in Hz. apply Hz, Hy.
    + constructor; [constructor; assumption|].
      constructor; [exact E|].
      apply List.Forall_forall. intros y Hy. rewrite List.Forall_forall in Hz.
      apply (ge_trans _ (key z)); [exact E | apply Hz, Hy].
Qed.

Lemma sort_desc_sorted (l : list A) : StronglySorted (not_before lt key) (sort_desc lt key l).
Proof.
  induction l as [|x l IH]; simpl; [constructor | apply insert_desc_sorted, IH].
Qed.

Lemma firstn_sorted (n : nat) (l : list A) :
  StronglySorted (not_before lt key) l -> StronglySorted (not_before lt key) (firstn n l).
Proof.
  intros Hs. revert n. induction Hs as [|z l Hs IH Hz]; intros [|n]; simpl;
    try constructor.
  - apply IH.
  - rewrite List.Forall_forall in *. intros y Hy. apply Hz.
    eapply firstn_incl, Hy.
Qed.
End SortFacts.

Lemma insert_desc_ext {A K1 K2 : Type} (lt1 : K1 -> K1 -> bool) (key1 : A -> K1)
    (lt2 : K2 -> K2 -> bool) (key2 : A -> K2) (x : A) (s : list A) :
  (forall y, In y s -> lt1 (key1 x) (key1 y) = lt2 (key2 x) (key2 y)) ->
  insert_desc lt1 key1 x s = insert_desc lt2 key2 x s.
Proof.
  induction s as [|z s IH]; intros Hk; simpl; [reflexivity|].
  rewrite (Hk z) by (left; reflexivity).
  rewrite IH by (intros; apply Hk; right; assumption).
  reflexivity.
Qed.

(** Two keys that order the elements of a list alike sort it alike. *)
Lemma sort_desc_ext {A K1 K2 : Type} (lt1 : K1 -> K1 -> bool) (key1 : A -> K1)
    (lt2 : K2 -> K2 -> bool) (key2 : A -> K2) (l : list A) :
  (forall a b, In a l -> In b l -> lt1 (key1 a) (key1 b) = lt2 (key2 a) (key2 b)) ->
  sort_desc lt1 key1 l = sort_desc lt2 key2 l.
Proof.
  induction l as [|x l IH]; intros Hk; simpl; [reflexivity|].
  rewrite IH by (intros; apply Hk; right; assumption).
  apply insert_desc_ext. intros y Hy. apply sort_desc_In in Hy.
  apply Hk; [left; reflexivity | right; exact Hy].
Qed.

(** ** The order of strings *)

Module StrFacts.

Lemma ascii_compare_trans (a b c : ascii) :
  Ascii.compare a b = Lt -> Ascii.compare b c = Lt -> Ascii.compare a c = Lt.
Proof.
  unfold Ascii.compare. rewrite !N.compare_lt_iff. lia.
Qed.

Lemma str_compare_lt_trans (a b c : string) :
  String.compare a b = Lt -> String.compare b c = Lt -> String.compare a c = Lt.
Proof.
  revert b c. induction a as [|x a IH]; intros [|y b] [|z c]; simpl;
    try discriminate; try reflexivity.
  destruct (Ascii.compare x y) eqn:Exy; try discriminate;
    destruct (Ascii.compare y z) eqn:Eyz; try discriminate; intros Hab Hbc.
  - apply Ascii.compare_eq_iff in Exy, Eyz. subst.
    unfold Ascii.compare. rewrite N.compare_refl. eapply IH; eassumption.
  - apply Ascii.compare_eq_iff in Exy. subst. rewrite Eyz. reflexivity.
  - apply Ascii.compare_eq_iff in Eyz. subst. rewrite Exy. reflexivity.
  - rewrite (ascii_compare_trans x y z) by assumption. reflexivity.
Qed.

Lemma str_ltb_asym (a b : string) : PyStr.ltb a b = true -> PyStr.ltb b a = false.
Proof.
  unfold PyStr.ltb, String.ltb. rewrite (String.compare_antisym b a).
  destruct (String.compare a b); simpl; congruence.
Qed.

Lemma str_ge_trans (a b c : string) :
  PyStr.ltb a b = false -> PyStr.ltb b c = false -> PyStr.ltb a c = false.
Proof.
  unfold PyStr.ltb, String.ltb. intros Hab Hbc.
  destruct (String.compare a c) eqn:Eac; try reflexivity. exfalso.
  destruct (String.compare a b) eqn:Eab; try discriminate.
  - apply String.compare_eq_iff in Eab. subst. rewrite Eac in Hbc. discriminate.
  - destruct (String.compare b c) eqn:Ebc; try discriminate.
    + apply String.compare_eq_iff in Ebc. subst. congruence.
    + assert (Hcb : String.compare c b = Lt)
        by (rewrite String.compare_antisym, Ebc; reflexivity).
      assert (Hba : String.compare b a = Lt)
        by (rewrite String.compare_antisym, Eab; reflexivity).
      pose proof (str_compare_lt_trans _ _ _ Hcb Hba) as Hca.
      rewrite String.compare_antisym, Hca in Eac. discriminate.
Qed.

End StrFacts.

(** ** Runs *)

Section IoFacts.
Context {E : Type} {R : E -> Type} {W : Type}.
Variable handle : forall ev : E, W -> result (R ev) * W.

Lemma run_bind_res {A B} (p : io E R A) (f : A -> io E R B) (w : W) :
  res (run handle (bind p f) w) =
    match res (run handle p w) with
    | Ok a => res (run handle (f a) (final (run handle p w)))
    | Err e => Err e
    end.
Proof.
  revert w. induction p as [a|e|ev k IH]; intros w; simpl; try reflexivity.
  destruct (handle ev w) as [r w']. simpl. apply IH.
Qed.

Lemma bind_returns {A B} (p : io E R A) (f : A -> io E R B) (w : W) (b : B) :
  res (run handle (bind p f) w) = Ok b ->
  exists a, res (run handle p w) = Ok a /\
            res (run handle (f a) (final (run handle p w))) = Ok b.
Proof.
  rewrite run_bind_res. destruct (res (run handle p w)) as [a|e]; [eauto | discriminate].
Qed.

Lemma run_lift {A} (r : result A) (w : W) : res (run handle (lift r) w) = r.
Proof. destruct r; reflexivity. Qed.

Lemma run_lift_final {A} (r : result A) (w : W) : final (run handle (lift r) w) = w.
Proof. destruct r; reflexivity. Qed.

Lemma try_catch_returns {A} (p : io E R A) (h : exn -> io E R A) (w : W) (a : A) :
  res (run handle (try_catch p h) w) = Ok a ->
  res (run handle p w) = Ok a \/
  exists e, res (run handle p w) = Err e /\
            res (run handle (h e) (final (run handle p w))) = Ok a.
Proof.
  revert w. induction p as [x|e|ev k IH]; intros w; simpl.
  - auto.
  - eauto.
  - destruct (handle ev w) as [r w']. simpl. apply IH.
Qed.

(** A result of the retried computation is the result of one attempt. *)
Lemma retry_returns {A} (n : nat) (p : io E R A) (w : W) (a : A) :
  res (run handle (with_retry n p) w) = Ok a ->
  exists w', res (run handle p w') = Ok a.
Proof.
  revert w. induction n as [|n IH]; intros w; simpl; [eauto|].
  destruct n as [|n]; [eauto|].
  intros Hr. apply try_catch_returns in Hr.
  destruct Hr as [Hr|(e & _ & Hr)]; [eauto | eapply IH, Hr].
Qed.

(** The attempt that returns starts in some state; in the first one when
    the first attempt returns. *)
Lemma retry_attempt {A} (n : nat) (p : io E R A) (w : W) (a : A) :
  res (run handle (with_retry n p) w) = Ok a ->
  exists w', res (run handle p w') = Ok a /\
             (forall a1, res (run handle p w) = Ok a1 -> w' = w).
Proof.
  revert w. induction n as [|n IH]; intros w; simpl; [eauto|].
  destruct n as [|n]; [eauto|].
  intros Hr. apply try_catch_returns in Hr.
  destruct Hr as [Hr|(e & He & Hr)]; [eauto|].
  destruct (IH _ Hr) as (w' & Hw & _). exists w'. split; [exact Hw|].
  intros a1 Ha. congruence.
Qed.

End IoFacts.

(** ** The news fetcher *)

Module FetcherFacts.
Import NewsFetcher DatetimeFacts.

Section Facts.
Context `{StrToFloat} `{IsoParser}.

Lemma parse_epoch_wf (v : pyval) (d : datetime) :
  _parse_epoch_to_dt v = Some d -> Datetime.wf d.
Proof.
  unfold _parse_epoch_to_dt. intros Hd.
  assert (Hs : exists secs, fromtimestamp secs = Some d).
  { destruct v; try discriminate;
      destruct (rbind _ _) as [secs|e]; try discriminate; eauto. }
  destruct Hs as [secs Hs]. apply (fromtimestamp_wf secs d Hs).
Qed.

Lemma parse_iso_wf (v : pyval) (d : datetime) :
  _parse_iso_to_dt v = Some d -> Datetime.wf d.
Proof.
  unfold _parse_iso_to_dt. destruct (negb (Py.truthy v)); [discriminate|].
  destruct v; try discriminate. apply fromisoformat_utc_wf.
Qed.

(** Whatever the fetcher takes for the time of a record is a datetime. *)
Lemma extract_published_dt_wf (n : pyval) (d : datetime) :
  _extract_published_dt n = Ok (Some d) -> Datetime.wf d.
Proof.
  unfold _extract_published_dt.
  destruct (Py.get n "providerPublishTime") as [ppt|]; simpl; [|discriminate].
  destruct (_parse_epoch_to_dt ppt) as [d0|] eqn:E0.
  { intros [= <-]. eapply parse_epoch_wf, E0. }
  destruct (Py.get n "content") as [c|]; simpl; [|discriminate].
  destruct (Py.get (Py.or_ c (VDict ∅)) "pubDate") as [pd|]; simpl; [|discriminate].
  destruct (_parse_iso_to_dt pd) as [d1|] eqn:E1.
  { intros [= <-]. eapply parse_iso_wf, E1. }
  destruct (Py.get n "timePublished") as [tp|]; simpl; [|discriminate].
  intros [= E2]. eapply parse_epoch_wf, E2.
Qed.

Lemma ltb_isoformat (d1 d2 : datetime) :
  Datetime.wf d1 -> Datetime.wf d2 ->
  PyStr.ltb (isoformat d1) (isoformat d2) = Datetime.ltb d1 d2.
Proof.
  intros W1 W2. unfold PyStr.ltb, String.ltb, Datetime.ltb.
  rewrite isoformat_compare by assumption. reflexivity.
Qed.

(** C2. For the times that the fetcher reads from two raw records
    (epoch seconds or ISO text, brought to UTC), the [published_at]
    strings that [_to_iso] makes of them compare, character by character,
    as the times themselves compare; so the sort of the items by that
    string, greatest first, is the sort by time, newest first. *)
Theorem iso_order_is_chronological :
  (forall n1 n2 d1 d2 s1 s2,
     _extract_published_dt n1 = Ok (Some d1) ->
     _extract_published_dt n2 = Ok (Some d2) ->
     _to_iso (Some d1) = Some s1 -> _to_iso (Some d2) = Some s2 ->
     String.compare s1 s2 = Datetime.compare d1 d2) /\
  (forall ns ds,
     Forall2 (fun n d => _extract_published_dt n = Ok (Some d)) ns ds ->
     sort_desc PyStr.ltb isoformat ds = sort_desc Datetime.ltb (fun d => d) ds).
Proof.
  split.
  - intros n1 n2 d1 d2 s1 s2 H1 H2 [= <-] [= <-].
    apply isoformat_compare; eapply extract_published_dt_wf; eassumption.
  - intros ns ds Hf. apply sort_desc_ext. intros a b Ha Hb.
    assert (Hwf : forall d, In d ds -> Datetime.wf d).
    { clear a b Ha Hb. induction Hf as [|n d ns ds Hd _ IH]; simpl; [tauto|].
      intros d' [<-|Hd']; [eapply extract_published_dt_wf, Hd | apply IH, Hd']. }
    apply ltb_isoformat; apply Hwf; assumption.
Qed.

(** C8. The time of a record is the first of three readings that gives
    one: [providerPublishTime] as epoch seconds, then [content.pubDate]
    as ISO text, then [timePublished] as epoch seconds. The link is the
    first of three fields that is not empty: the top-level [link], then
    [content.canonicalUrl.url], then [content.clickThroughUrl.url]; a
    record with a top-level link yields it, whatever [content] holds. *)
Theorem extraction_priority (r : gmap string pyval) :
  let field (m : gmap string pyval) (k : string) := default VNone (m !! k) in
  let content_of c := Py.or_ (field r "content") (VDict ∅) = VDict c in
  (forall dt, _parse_epoch_to_dt (field r "providerPublishTime") = Some dt ->
     _extract_published_dt (VDict r) = Ok (Some dt)) /\
  (forall c dt, _parse_epoch_to_dt (field r "providerPublishTime") = None ->
     content_of c -> _parse_iso_to_dt (field c "pubDate") = Some dt ->
     _extract_published_dt (VDict r) = Ok (Some dt)) /\
  (forall c, _parse_epoch_to_dt (field r "providerPublishTime") = None ->
     content_of c -> _parse_iso_to_dt (field c "pubDate") = None ->
     _extract_published_dt (VDict r)
     = Ok (_parse_epoch_to_dt (field r "timePublished"))) /\
  (Py.truthy (field r "link") = true ->
     _extract_link (VDict r) = Ok (field r "link")) /\
  (forall c cu, Py.truthy (field r "link") = false -> content_of c ->
     Py.or_ (field c "canonicalUrl") (VDict ∅) = VDict cu ->
     Py.truthy (field cu "url") = true ->
     _extract_link (VDict r) = Ok (field cu "url")) /\
  (forall c cu ct, Py.truthy (field r "link") = false -> content_of c ->
     Py.or_ (field c "canonicalUrl") (VDict ∅) = VDict cu ->
     Py.truthy (field cu "url") = false ->
     Py.or_ (field c "clickThroughUrl") (VDict ∅) = VDict ct ->
     _extract_link (VDict r)
     = Ok (if Py.truthy (field ct "url") then field ct "url" else VStr "")).
Proof.
  cbv zeta. unfold _extract_published_dt, _extract_link. simpl.
  repeat split.
  - intros dt ->. reflexivity.
  - intros c dt -> -> . simpl. intros ->. reflexivity.
  - intros c -> ->. simpl. intros ->. reflexivity.
  - intros ->. reflexivity.
  - intros c cu -> ->. simpl. intros ->. simpl. intros ->. reflexivity.
  - intros c cu ct -> ->. simpl. intros ->. simpl. intros -> ->. simpl.
    destruct (Py.truthy (default VNone (ct !! "url"))); reflexivity.
Qed.

(** *** The loop *)

Context {W : Type}.
Variable handle : forall ev : event, W -> result (reply ev) * W.

Lemma run_process_discard (n : pyval) (lb : Z) (x : extracted) (w : W) :
  extract n = Ok x ->
  PyStr.is_empty (x_title x) || negb (Py.truthy (x_link x)) = true
  \/ x_dt x = None ->
  res (run handle (process n lb) w) = Ok None.
Proof.
  intros Hx Hd. unfold process. rewrite Hx. simpl.
  destruct (PyStr.is_empty (x_title x) || negb (Py.truthy (x_link x))) eqn:E;
    [reflexivity|].
  destruct Hd as [Hd|Hd]; [discriminate|]. rewrite Hd. reflexivity.
Qed.

Lemma run_process_recent (n : pyval) (lb : Z) (x : extracted) (w w' : W)
    (d now cutoff : datetime) :
  extract n = Ok x ->
  PyStr.is_empty (x_title x) || negb (Py.truthy (x_link x)) = false ->
  x_dt x = Some d ->
  handle Now w = (Ok now, w') -> sub_days now lb = Ok cutoff ->
  res (run handle (process n lb) w)
  = Ok (if Datetime.geb d cutoff then Some (item_of x) else None).
Proof.
  intros Hx E Hd Hnow Hcut. unfold process. rewrite Hx. simpl.
  rewrite E, Hd. simpl. rewrite Hnow. simpl. rewrite Hcut. simpl.
  destruct (Datetime.geb d cutoff); reflexivity.
Qed.

(** One turn of the loop on a raw record, whose fields it has read as
    [x], at a clock that shows [now]: the record is dropped exactly when
    its title is empty, or its link is empty, or it has no time, or its
    time is strictly before [now - timedelta(days=lookback_days)];
    otherwise its item is appended. A record whose time is that cutoff
    itself is kept. *)
Lemma turn_filter (n : pyval) (lookback_days : Z) (x : extracted)
    (w w' : W) (now cutoff : datetime) :
  extract n = Ok x ->
  handle Now w = (Ok now, w') ->
  sub_days now lookback_days = Ok cutoff ->
  let o := res (run handle (process n lookback_days) w) in
  (o = Ok None <->
     x_title x = "" \/ Py.truthy (x_link x) = false \/ x_dt x = None \/
     exists d, x_dt x = Some d /\ Datetime.ltb d cutoff = true) /\
  (o = Ok None \/ o = Ok (Some (item_of x))) /\
  (x_title x <> "" -> Py.truthy (x_link x) = true -> x_dt x = Some cutoff ->
     o = Ok (Some (item_of x))).
Proof.
  intros Hx Hnow Hcut. cbv zeta.
  destruct (PyStr.is_empty (x_title x) || negb (Py.truthy (x_link x))) eqn:E.
  { rewrite (run_process_discard n _ x w Hx) by (left; exact E).
    repeat split; auto.
    - intros _. apply orb_true_iff in E. destruct E as [E|E].
      + left. destruct (x_title x); [reflexivity | discriminate].
      + right; left. destruct (Py.truthy (x_link x)); [discriminate | reflexivity].
    - intros Ht Hl. exfalso. apply orb_true_iff in E. destruct E as [E|E].
      + destruct (x_title x); [congruence | discriminate].
      + rewrite Hl in E. discriminate. }
  apply orb_false_iff in E. destruct E as [Et El].
  assert (Ht : x_title x <> "") by (destruct (x_title x); [discriminate | congruence]).
  assert (Hl : Py.truthy (x_link x) = true) by (destruct (Py.truthy (x_link x)); [reflexivity | discriminate]).
  destruct (x_dt x) as [d|] eqn:Hd.
  2:{ rewrite (run_process_discard n _ x w Hx) by (right; exact Hd).
      repeat split; auto. discriminate. }
  rewrite (run_process_recent n _ x w w' d now cutoff Hx) by
    (try assumption; rewrite Et, Hl; reflexivity).
  rewrite geb_ltb. destruct (Datetime.ltb d cutoff) eqn:Elt; simpl.
  - repeat split; auto.
    + intros _. right; right; right. eauto.
    + intros _ _ [= ->].
      assert (Hrefl := geb_refl cutoff). rewrite geb_ltb, Elt in Hrefl. discriminate.
  - repeat split; auto.
    + discriminate.
    + intros [?|[?|[?|(d' & [= <-] & ?)]]]; congruence.
Qed.

Lemma process_some (n : pyval) (lb : Z) (w : W) (it : NewsItem) :
  res (run handle (process n lb) w) = Ok (Some it) ->
  exists x d, extract n = Ok x /\ x_dt x = Some d /\
              Datetime.wf d /\ it = item_of x.
Proof.
  unfold process. intros Hr. apply bind_returns in Hr.
  destruct Hr as (x & Hx & Hr). rewrite run_lift in Hx.
  destruct (PyStr.is_empty (x_title x) || negb (Py.truthy (x_link x)));
    [discriminate|].
  apply bind_returns in Hr. destruct Hr as (recent & Hrec & Hr).
  destruct recent; [|discriminate]. injection Hr as <-.
  destruct (x_dt x) as [d|] eqn:Hd; [|discriminate].
  exists x, d. split; [exact Hx|]. split; [exact Hd|]. split; [|reflexivity].
  unfold extract in Hx.
  destruct (extract_title n); simpl in Hx; [|discriminate].
  destruct (_extract_link n); simpl in Hx; [|discriminate].
  destruct (_extract_publisher n); simpl in Hx; [|discriminate].
  destruct (_extract_published_dt n) as [dt|] eqn:Edt; simpl in Hx; [|discriminate].
  destruct (Py.get n "relatedTickers"); simpl in Hx; [|discriminate].
  injection Hx as <-. simpl in Hd. subst dt.
  eapply extract_published_dt_wf, Edt.
Qed.

(** What holds of the items collected so far and of every item the loop
    appends holds of all the items collected. *)
Lemma collect_forall (P : NewsItem -> Prop) (raw : list pyval) (lb : Z)
    (items out : list NewsItem) (w : W) :
  (forall n w it, res (run handle (process n lb) w) = Ok (Some it) -> P it) ->
  Forall P items ->
  res (run handle (collect raw lb items) w) = Ok out -> Forall P out.
Proof.
  intros Hp. revert items w. induction raw as [|n raw IH]; intros items w Hi; simpl.
  - intros [= <-]. exact Hi.
  - intros Hr. apply bind_returns in Hr. destruct Hr as (o & Ho & Hr).
    eapply IH, Hr. destruct o as [it|]; [|exact Hi].
    apply Forall_app. split; [exact Hi|]. constructor; [|constructor].
    eapply Hp, Ho.
Qed.

(** A result of one attempt: the collected items, sorted and cut. *)
Lemma fetch_once_returns (ticker : string) (lb top_k : Z) (w : W)
    (out : list NewsItem) :
  res (run handle (fetch_once ticker lb top_k) w) = Ok out ->
  exists raw w1 items,
    res (run handle (collect raw lb []) w1) = Ok items /\
    out = slice_to (Z.max 0 top_k) (sort_desc PyStr.ltb published_at items).
Proof.
  unfold fetch_once. intros Hr. apply bind_returns in Hr.
  destruct Hr as (raw & _ & Hr).
  destruct (Py.or_ raw (VList [])) as [| | | | |l|]; try discriminate.
  apply bind_returns in Hr. destruct Hr as (items & Hi & Hr).
  injection Hr as <-. eauto.
Qed.




(** The attempt that returned: what the provider sent and what the loop
    made of it. *)
Lemma fetch_once_reply (ticker : string) (lb top_k : Z) (w : W)
    (out : list NewsItem) :
  res (run handle (fetch_once ticker lb top_k) w) = Ok out ->
  exists v w1 raw items,
    handle (TickerNews ticker) w = (Ok v, w1) /\
    Py.or_ v (VList []) = VList raw /\
    res (run handle (collect raw lb []) w1) = Ok items /\
    out = slice_to (Z.max 0 top_k) (sort_desc PyStr.ltb published_at items).
Proof.
  unfold fetch_once. intros Hr. apply bind_returns in Hr.
  destruct Hr as (v & Hv & Hr). simpl in Hv, Hr.
  destruct (handle (TickerNews ticker) w) as [[v'|e] w1] eqn:Eh; simpl in *;
    [|discriminate].
  injection Hv as ->.
  destruct (Py.or_ v (VList [])) as [| | | | |l|] eqn:Eor; try discriminate.
  apply bind_returns in Hr. destruct Hr as (items & Hi & Hr).
  injection Hr as <-. exists v, w1, l, items. auto.
Qed.

Lemma fetch_reply (ticker : string) (lb top_k : Z) (w : W) (out : list NewsItem) :
  res (run handle (fetch_recent_news ticker lb top_k) w) = Ok out ->
  exists w0 w1 v raw items,
    (forall o1, res (run handle (fetch_once ticker lb top_k) w) = Ok o1 -> w0 = w) /\
    handle (TickerNews ticker) w0 = (Ok v, w1) /\
    Py.or_ v (VList []) = VList raw /\
    res (run handle (collect raw lb []) w1) = Ok items /\
    out = slice_to (Z.max 0 top_k) (sort_desc PyStr.ltb published_at items).
Proof.
  intros Hr. apply retry_attempt in Hr. destruct Hr as (w0 & Hr & Hfirst).
  apply fetch_once_reply in Hr. destruct Hr as (v & w1 & raw & items & Hh & Hor & Hi & Ho).
  exists w0, w1, v, raw, items. auto.
Qed.


(** C7. Whatever [fetch_recent_news] returns is sorted by
    [published_at], greatest first, and has at most [max(0, top_k)]
    items; with [top_k] zero or negative it is empty. *)
Theorem fetch_sorted_and_truncated (ticker : string) (lookback_days top_k : Z)
    (w : W) (out : list NewsItem) :
  res (run handle (fetch_recent_news ticker lookback_days top_k) w) = Ok out ->
  StronglySorted (not_before PyStr.ltb published_at) out /\
  Z.of_nat (length out) <= Z.max 0 top_k /\
  (top_k <= 0 -> out = []).
Proof.
  intros Hr. apply retry_returns in Hr. destruct Hr as (w0 & Hr).
  apply fetch_once_returns in Hr. destruct Hr as (raw & w1 & items & _ & ->).
  unfold slice_to. repeat split.
  - apply firstn_sorted, sort_desc_sorted.
    + apply StrFacts.str_ltb_asym.
    + apply StrFacts.str_ge_trans.
  - pose proof (firstn_le_length (Z.to_nat (Z.max 0 top_k))
                  (sort_desc PyStr.ltb published_at items)). lia.
  - intros Hk. rewrite Z.max_l by lia. reflexivity.
Qed.

(** What holds of every item the loop appends holds of every item that is
    returned. *)
Lemma fetched_forall (P : NewsItem -> Prop) (ticker : string) (lb top_k : Z)
    (w : W) (out : list NewsItem) :
  (forall n w it, res (run handle (process n lb) w) = Ok (Some it) -> P it) ->
  res (run handle (fetch_recent_news ticker lb top_k) w) = Ok out ->
  forall it, In it out -> P it.
Proof.
  intros Hp Hr. apply retry_returns in Hr. destruct Hr as (w0 & Hr).
  apply fetch_once_returns in Hr. destruct Hr as (raw & w1 & items & Hi & ->).
  intros it Hit. apply firstn_incl, sort_desc_In in Hit.
  assert (Hall : Forall P items)
    by (eapply collect_forall; [exact Hp | constructor | exact Hi]).
  rewrite List.Forall_forall in Hall. apply Hall, Hit.
Qed.

(** An item is appended only for a record that passed every test. *)
Lemma process_some_passed (n : pyval) (lb : Z) (w : W) (it : NewsItem) :
  res (run handle (process n lb) w) = Ok (Some it) ->
  title it <> "" /\ Py.truthy (link it) = true /\
  exists d now cutoff,
    published_at it = isoformat d /\ sub_days now lb = Ok cutoff /\
    Datetime.geb d cutoff = true.
Proof.
  unfold process. intros Hr. apply bind_returns in Hr.
  destruct Hr as (x & Hx & Hr). rewrite run_lift in Hx.
  destruct (PyStr.is_empty (x_title x) || negb (Py.truthy (x_link x))) eqn:E;
    [discriminate|].
  apply orb_false_iff in E. destruct E as [Et El]. apply negb_false_iff in El.
  apply bind_returns in Hr. destruct Hr as (recent & Hrec & Hr).
  destruct recent; [|discriminate]. injection Hr as <-.
  destruct (x_dt x) as [d|] eqn:Hd; [|discriminate].
  unfold _within_lookback in Hrec.
  apply bind_returns in Hrec. destruct Hrec as (now & _ & Hrec).
  apply bind_returns in Hrec. destruct Hrec as (cutoff & Hcut & Hrec).
  rewrite run_lift in Hcut. injection Hrec as Hge.
  unfold item_of. simpl. rewrite Hd. simpl.
  split; [destruct (x_title x); [discriminate | congruence]|].
  split; [exact El|]. exists d, now, cutoff. auto.
Qed.

(** The items that are returned have passed the tests of the loop: a
    title, a link, and a time within the window of some reading of the
    clock. (Not every record that passes is returned: the list is cut to
    [top_k].) *)
Lemma fetched_items_passed_filter (ticker : string) (lookback_days top_k : Z)
    (w : W) (out : list NewsItem) :
  res (run handle (fetch_recent_news ticker lookback_days top_k) w) = Ok out ->
  forall it, In it out ->
    title it <> "" /\ Py.truthy (link it) = true /\
    exists d now cutoff,
      published_at it = isoformat d /\ sub_days now lookback_days = Ok cutoff /\
      Datetime.geb d cutoff = true.
Proof.
  intros Hr. eapply fetched_forall; [|exact Hr].
  intros n w' it. apply process_some_passed.
Qed.

(** C9. Every item that [fetch_recent_news] returns has a
    [published_at] that is not empty: it is the ISO string of the time
    of its record, since a record without a time does not pass the
    recency test and no item is made of it. *)
Theorem fetched_items_are_dated (ticker : string) (lookback_days top_k : Z)
    (w : W) (out : list NewsItem) :
  res (run handle (fetch_recent_news ticker lookback_days top_k) w) = Ok out ->
  forall it, In it out ->
    published_at it <> "" /\
    exists d, Datetime.wf d /\ published_at it = isoformat d.
Proof.
  intros Hr it Hit.
  assert (Hd : exists d, Datetime.wf d /\ published_at it = isoformat d).
  { revert it Hit. eapply fetched_forall; [|exact Hr].
    intros n w' it' Hp. apply process_some in Hp.
    destruct Hp as (x & d & _ & Hd & Hwf & ->).
    exists d. split; [exact Hwf|]. unfold item_of. simpl. rewrite Hd. reflexivity. }
  split; [|exact Hd]. destruct Hd as (d & Hwf & Hp).
  rewrite Hp, (isoformat_digits d Hwf). discriminate.
Qed.

End Facts.
End FetcherFacts.

(** ** White space and normal forms *)

Module TextFacts.
Import PyStr TickerResolver.

Lemma lstrip_blank (s : string) : all_chars is_space s = true -> lstrip s = "".
Proof.
  induction s as [|c s IH]; simpl; [reflexivity|].
  intros Hs. apply andb_true_iff in Hs. destruct Hs as [-> Hs]. apply IH, Hs.
Qed.

(** A text of white space only is empty once stripped. *)
Lemma strip_blank (s : string) : all_chars is_space s = true -> strip s = "".
Proof. intros Hs. unfold strip. rewrite lstrip_blank by exact Hs. reflexivity. Qed.

Lemma lstrip_head (s : string) :
  lstrip s = "" \/ exists c t, lstrip s = String c t /\ is_space c = false.
Proof.
  induction s as [|c s IH]; simpl; [left; reflexivity|].
  destruct (is_space c) eqn:E; [exact IH | right; eauto].
Qed.

Lemma lstrip_not_blank (s : string) :
  all_chars is_space s = false -> lstrip s <> "".
Proof.
  induction s as [|c s IH]; simpl; [discriminate|].
  destruct (is_space c); simpl; [exact IH | discriminate].
Qed.

Lemma strip_not_blank (s : string) :
  all_chars is_space s = false -> strip s <> "".
Proof.
  intros Hs. unfold strip. pose proof (lstrip_not_blank s Hs) as Hne.
  destruct (lstrip_head s) as [E|(c & t & -> & Hc)]; [contradiction|].
  simpl. rewrite Hc. discriminate.
Qed.

Lemma lower_char_norm (c : ascii) :
  is_norm_char (lower_char c) = is_alnum c.
Proof.
  destruct c as [[] [] [] [] [] [] [] []]; reflexivity.
Qed.

Lemma norm_char_not_space (c : ascii) : is_norm_char c = true -> is_space c = false.
Proof.
  destruct c as [[] [] [] [] [] [] [] []]; simpl; try reflexivity; discriminate.
Qed.

Lemma sub_runs_no_norm (s : string) :
  all_chars (fun c => negb (is_norm_char c)) s = true ->
  sub_runs true s = "" /\ all_chars is_space (sub_runs false s) = true.
Proof.
  induction s as [|c s IH]; simpl; [split; reflexivity|].
  intros Hs. apply andb_true_iff in Hs. destruct Hs as [Hc Hs].
  apply negb_true_iff in Hc. rewrite Hc. destruct (IH Hs) as [-> _].
  split; reflexivity.
Qed.

Lemma sub_runs_some_norm (s : string) (b : bool) :
  all_chars (fun c => negb (is_norm_char c)) s = false ->
  all_chars is_space (sub_runs b s) = false.
Proof.
  revert b. induction s as [|c s IH]; intros b; simpl; [discriminate|].
  destruct (is_norm_char c) eqn:Hc; simpl.
  - intros _. rewrite (norm_char_not_space c Hc). reflexivity.
  - intros Hs. destruct b; simpl; [apply IH, Hs|].
    rewrite (IH true Hs). reflexivity.
Qed.

Lemma all_chars_lower (s : string) :
  all_chars (fun c => negb (is_norm_char c)) (lower s)
  = all_chars (fun c => negb (is_alnum c)) s.
Proof.
  induction s as [|c s IH]; simpl; [reflexivity|].
  rewrite lower_char_norm. unfold lower in IH. rewrite IH. reflexivity.
Qed.

(** The normal form of a name is empty exactly when the name has no
    letter and no digit. *)
Lemma norm_empty_iff (s : string) : _norm s = "" <-> any_char is_alnum s = false.
Proof.
  unfold _norm, any_char. rewrite negb_false_iff, <- all_chars_lower.
  destruct (all_chars _ (lower s)) eqn:E.
  - split; [reflexivity|]. intros _.
    apply strip_blank, sub_runs_no_norm, E.
  - split; [|discriminate]. intros Hn. exfalso.
    eapply strip_not_blank; [|exact Hn]. apply sub_runs_some_norm, E.
Qed.

End TextFacts.

(** ** The ticker resolver *)

Module ResolverFacts.
Import TickerResolver FloatFacts.

Lemma max_from_spec {A} (key : A -> float) (best : A) (l : list A) :
  let r := max_from key best l in
  In r (best :: l) /\
  (r = best \/ PyFloat.ltb (key best) (key r) = true) /\
  (forall x, In x (best :: l) -> PyFloat.ltb (key r) (key x) = false).
Proof.
  revert best. induction l as [|x l IH]; intros best; cbn [max_from].
  - repeat split; [left; reflexivity | left; reflexivity |].
    intros x [<-|[]]. apply ltb_irrefl.
  - destruct (PyFloat.ltb (key best) (key x)) eqn:E.
    + destruct (IH x) as (Hin & Hge & Hmax). cbv zeta in *.
      set (r := max_from key x l) in *.
      assert (Hbr : PyFloat.ltb (key best) (key r) = true).
      { destruct Hge as [->|Hge]; [exact E | eapply ltb_trans; eassumption]. }
      repeat split.
      * right. exact Hin.
      * right. exact Hbr.
      * intros y [<-|Hy]; [apply ltb_asym, Hbr | apply Hmax, Hy].
    + destruct (IH best) as (Hin & Hge & Hmax). cbv zeta in *.
      set (r := max_from key best l) in *.
      repeat split.
      * destruct Hin as [Hin|Hin]; [left; exact Hin | right; right; exact Hin].
      * exact Hge.
      * intros y [<-|[<-|Hy]].
        -- apply Hmax. left; reflexivity.
        -- destruct Hge as [->|Hge]; [exact E|].
           destruct (PyFloat.ltb (key r) (key x)) eqn:Ery; [|reflexivity].
           rewrite (ltb_trans _ _ _ Hge Ery) in E. discriminate.
        -- apply Hmax. right; exact Hy.
Qed.

Section Runs.
Context `{StrUpper} {W : Type}.
Variable handle : forall ev : event, W -> result (reply ev) * W.

(** C5. A company name whose normal form is a key of the curated table
    resolves to the symbol of the table, with score 1.0 and type
    ["EQUITY"], and the search provider is not called. *)
Theorem curated_resolution (company_name region : string) (prefer_equity : bool)
    (sym nm exch : string) (w : W) :
  CURATED !! _norm company_name = Some (sym, nm, exch) ->
  let o := run handle (resolve_ticker company_name region prefer_equity) w in
  res o = Ok (Some {| symbol := sym; shortname := nm; longname := Some nm;
                      exchange := Some exch; score := f1_0;
                      typeDisp := Some "EQUITY"; exchDisp := Some exch |}) /\
  calls o = [] /\ final o = w.
Proof.
  intros Hk. unfold resolve_ticker. rewrite Hk. simpl. repeat split.
Qed.

(** C6. For a name that is not curated, with [candidates] what the
    search returns: the result is [None] exactly when there is no
    candidate; otherwise it is one of the candidates and no candidate
    has a strictly greater boosted score (so, when no boosted score is
    NaN, every boosted score is at most that of the result). The
    boosted score is the score of the provider (0.0 when that is
    zero), plus 1.5 exactly when the preference is on and the
    candidate has a type that, in upper case, is EQUITY, COMMON STOCK or
    ETF, plus 1.0 exactly when every token of the normal form of the
    name occurs as a part of the normal form of the short name, a blank
    and the long name (if there is one). *)
Theorem search_resolution (company_name region : string) (prefer_equity : bool)
    (candidates : list TickerCandidate) (w w' : W) :
  CURATED !! _norm company_name = None ->
  handle (YahooSuggest company_name 8 region) w = (Ok candidates, w') ->
  let o := res (run handle (resolve_ticker company_name region prefer_equity) w) in
  let boost c := _boost_score c (_norm company_name) prefer_equity in
  (o = Ok None <-> candidates = []) /\
  (candidates <> [] ->
     exists best, o = Ok (Some best) /\ In best candidates /\
       (forall c, In c candidates -> PyFloat.ltb (boost best) (boost c) = false) /\
       ((forall c, In c candidates -> PyFloat.is_nan (boost c) = false) ->
        forall c, In c candidates -> PyFloat.leb (boost c) (boost best) = true)) /\
  (forall c target,
     let s0 := if PyFloat.truthy (score c) then score c else f0_0 in
     let type_test :=
       prefer_equity &&
       match typeDisp c with
       | Some t =>
           String.eqb (PyStr.upper t) "EQUITY"
           || String.eqb (PyStr.upper t) "COMMON STOCK"
           || String.eqb (PyStr.upper t) "ETF"
       | None => false
       end in
     let s1 := if type_test then PyFloat.add s0 f1_5 else s0 in
     let combined :=
       _norm (shortname c +:+ " " +:+
              match longname c with Some l => l | None => "" end) in
     let token_test :=
       forallb (fun tok => PyStr.contains tok combined) (PyStr.split target) in
     _boost_score c target prefer_equity
     = (if token_test then PyFloat.add s1 f1_0 else s1) /\
     (type_test = true <->
        prefer_equity = true /\
        exists t, typeDisp c = Some t /\
                  In (PyStr.upper t) ["EQUITY"; "COMMON STOCK"; "ETF"]) /\
     (token_test = true <->
        forall tok, In tok (PyStr.split target) ->
                    PyStr.contains tok combined = true)).
Proof.
  intros Hk Hs. cbv zeta. unfold resolve_ticker. rewrite Hk. simpl.
  rewrite Hs. simpl. split; [|split].
  - destruct candidates as [|c rest]; simpl; split; congruence.
  - destruct candidates as [|c rest]; [congruence|]. intros _. simpl.
    set (boost := fun c => _boost_score c (_norm company_name) prefer_equity).
    destruct (max_from_spec boost c rest) as (Hin & _ & Hmax). cbv zeta in *.
    exists (max_from boost c rest). repeat split; try assumption.
    intros Hnan x Hx.
    apply not_ltb_leb; [apply Hnan, Hin | apply Hnan, Hx | apply Hmax, Hx].
  - intros c target. cbv zeta. split; [|split].
    + unfold _boost_score, tokens_contained, combined_name, type_boosted, equity_like.
      destruct (typeDisp c) as [t|]; [reflexivity|].
      simpl. rewrite andb_false_r. reflexivity.
    + rewrite andb_true_iff. split.
      * intros [Hp Ht]. split; [exact Hp|].
        destruct (typeDisp c) as [t|]; [|discriminate].
        exists t. split; [reflexivity|].
        apply orb_true_iff in Ht. destruct Ht as [Ht|Ht];
          [apply orb_true_iff in Ht; destruct Ht as [Ht|Ht]|];
          apply String.eqb_eq in Ht; rewrite Ht; simpl; auto.
      * intros [Hp (t & -> & Hin)]. split; [exact Hp|].
        destruct Hin as [<-|[<-|[<-|[]]]];
          rewrite ?String.eqb_refl, ?orb_true_r; reflexivity.
    + rewrite forallb_forall. reflexivity.
Qed.
End Runs.

(** C10. When the normal form of the name is empty (the name has no
    letter and no digit), the test of the tokens holds of every
    candidate: its boosted score is its score with the type boost, plus
    1.0, so two candidates of equal score and type boost have equal
    boosted scores. *)
Theorem empty_name_boost `{StrUpper} (company_name : string) :
  PyStr.any_char PyStr.is_alnum company_name = false ->
  _norm company_name = "" /\
  forall (c : TickerCandidate) (prefer_equity : bool),
    tokens_contained c (_norm company_name) = true /\
    _boost_score c (_norm company_name) prefer_equity
    = PyFloat.add (type_boosted c prefer_equity) f1_0 /\
    type_boosted c prefer_equity
    = (let s := if PyFloat.truthy (score c) then score c else f0_0 in
       if prefer_equity && equity_like c then PyFloat.add s f1_5 else s) /\
    forall c', type_boosted c' prefer_equity = type_boosted c prefer_equity ->
      _boost_score c' (_norm company_name) prefer_equity
      = _boost_score c (_norm company_name) prefer_equity.
Proof.
  intros Hn. apply TextFacts.norm_empty_iff in Hn. split; [exact Hn|].
  intros c pe. unfold _boost_score, tokens_contained. rewrite Hn. simpl.
  repeat split. intros c' ->. reflexivity.
Qed.

End ResolverFacts.

(** ** The sentiment chain *)

Module ChainFacts.
Import SentimentSchema SentimentChain.

Section Runs.
Context `{StrToFloat} `{SchemaFloat} {W : Type}.
Variable handle : forall ev : event, W -> result (reply ev) * W.

(** The construction of the fallback succeeds. *)
Lemma fallback_constructed (company code : string) :
  fallback_init company code = Ok (fallback company code).
Proof. reflexivity. Qed.

(** C4. When the digest is empty or white space only, whatever the
    company and the code, [analyze_sentiment] returns the fixed result:
    sentiment Neutral, confidence 0.2 and the canned implications; no
    provider is called, the language model least of all. *)
Theorem blank_digest_fallback (company code news : string) (w : W) :
  PyStr.all_chars PyStr.is_space news = true ->
  let o := run handle (analyze_sentiment company code news) w in
  res o = Ok (fallback company code) /\
  sentiment (fallback company code) = Neutral /\
  confidence_score (fallback company code) = f0_2 /\
  market_implications (fallback company code)
  = "Insufficient recent coverage; no clear directional signal." /\
  company_name (fallback company code) = company /\
  stock_code (fallback company code) = code /\
  calls o = [] /\ final o = w.
Proof.
  intros Hb. unfold analyze_sentiment.
  rewrite (TextFacts.strip_blank news Hb), fallback_constructed.
  simpl. repeat split.
Qed.

(** Otherwise the model is asked. *)
Lemma other_digest_calls_model (company code news : string) (w : W) :
  PyStr.all_chars PyStr.is_space news = false ->
  exists rest,
    calls (run handle (analyze_sentiment company code news) w)
    = GetChatModel "gemini-2.0-flash" :: rest.
Proof.
  intros Hb. unfold analyze_sentiment.
  pose proof (TextFacts.strip_not_blank news Hb) as Hne.
  destruct (PyStr.strip news); [contradiction|]. simpl.
  destruct (handle (GetChatModel "gemini-2.0-flash") w). simpl. eauto.
Qed.
End Runs.

End ChainFacts.

(** ** The theorems at the sample data *)

Module Instances.
Import Samples.



Lemma iso_order_is_chronological_witness :
  NewsFetcher._extract_published_dt (H := sample_float_of_str)
    (H0 := sample_iso_parser) (VDict flat_record) = Ok (Some dt_2023_11_14) /\
  NewsFetcher._extract_published_dt (H := sample_float_of_str)
    (H0 := sample_iso_parser) (VDict nested_record) = Ok (Some dt_2023_11_13) /\
  String.compare "2023-11-14T22:13:19+00:00" "2023-11-13T10:00:00+00:00"
  = Datetime.compare dt_2023_11_14 dt_2023_11_13.
Proof.
  split; [reflexivity|]. split; [reflexivity|].
  exact (proj1 (@FetcherFacts.iso_order_is_chronological
                  sample_float_of_str sample_iso_parser)
           (VDict flat_record) (VDict nested_record)
           dt_2023_11_14 dt_2023_11_13 _ _
           eq_refl eq_refl eq_refl eq_refl).
Defined.



Lemma blank_digest_fallback_witness :
  PyStr.all_chars PyStr.is_space "   " = true /\
  res (run no_model
         (SentimentChain.analyze_sentiment (H := sample_float_of_str)
            (H0 := sample_schema_float) "Apple Inc." "AAPL" "   ") tt)
  = Ok (SentimentChain.fallback "Apple Inc." "AAPL") /\
  calls (run no_model
           (SentimentChain.analyze_sentiment (H := sample_float_of_str)
              (H0 := sample_schema_float) "Apple Inc." "AAPL" "   ") tt) = [].
Proof.
  split; [reflexivity|].
  pose proof (@ChainFacts.blank_digest_fallback sample_float_of_str
                sample_schema_float unit no_model
                "Apple Inc." "AAPL" "   " tt eq_refl) as Hf.
  cbv zeta in Hf. split; [apply Hf | apply Hf].
Defined.

Lemma curated_resolution_witness :
  TickerResolver.CURATED !! TickerResolver._norm "  APPLE, inc."
  = Some ("AAPL", "Apple Inc.", "NASDAQ") /\
  calls (run search_provider
           (TickerResolver.resolve_ticker (H := sample_upper)
              "  APPLE, inc." "US" true) tt) = [].
Proof.
  assert (Hk : TickerResolver.CURATED !! TickerResolver._norm "  APPLE, inc."
               = Some ("AAPL", "Apple Inc.", "NASDAQ")) by (vm_compute; reflexivity).
  split; [exact Hk|].
  apply (@ResolverFacts.curated_resolution sample_upper unit search_provider
           "  APPLE, inc." "US" true "AAPL" "Apple Inc." "NASDAQ" tt Hk).
Defined.

Lemma search_resolution_witness :
  TickerResolver.CURATED !! TickerResolver._norm "Acme" = None /\
  search_provider (TickerResolver.YahooSuggest "Acme" 8 "US") tt
  = (Ok acme_candidates, tt) /\
  res (run search_provider
         (TickerResolver.resolve_ticker (H := sample_upper) "Acme" "US" true) tt)
  = Ok (Some (candidate "ACME" "Acme Corp" (PyFloat.of_Z 2) (Some "Equity"))) /\
  TickerResolver._boost_score (H := sample_upper)
    (candidate "ACME" "Acme Corp" (PyFloat.of_Z 2) (Some "Equity"))
    (TickerResolver._norm "Acme") true
  = PyFloat.add (PyFloat.add (PyFloat.of_Z 2) f1_5) f1_0 /\
  TickerResolver._boost_score (H := sample_upper)
    (candidate "ACME.F" "Acme Futures" (PyFloat.of_Z 3) (Some "Future"))
    (TickerResolver._norm "Acme") true
  = PyFloat.add (PyFloat.of_Z 3) f1_0 /\
  TickerResolver._boost_score (H := sample_upper)
    (candidate "ACM" "Other Holdings" (PyFloat.of_Z 2) (Some "ETF"))
    (TickerResolver._norm "Acme") true
  = PyFloat.add (PyFloat.of_Z 2) f1_5 /\
  TickerResolver._boost_score (H := sample_upper)
    (candidate "ACME" "Acme Corp" (PyFloat.of_Z 2) (Some "Equity"))
    (TickerResolver._norm "Acme") false
  = PyFloat.add (PyFloat.of_Z 2) f1_0.
Proof.
  assert (Hk : TickerResolver.CURATED !! TickerResolver._norm "Acme" = None)
    by (vm_compute; reflexivity).
  pose proof (fun pe =>
    proj2 (proj2 (@ResolverFacts.search_resolution sample_upper unit search_provider
                    "Acme" "US" pe acme_candidates tt tt Hk eq_refl))) as Hb.
  cbv zeta in Hb.
  split; [exact Hk|]. split; [reflexivity|]. split; [vm_compute; reflexivity|].
  split; [|split; [|split]].
  - rewrite (proj1 (Hb true _ _)). vm_compute. reflexivity.
  - rewrite (proj1 (Hb true _ _)). vm_compute. reflexivity.
  - rewrite (proj1 (Hb true _ _)). vm_compute. reflexivity.
  - rewrite (proj1 (Hb false _ _)). vm_compute. reflexivity.
Defined.

Lemma fetch_sorted_and_truncated_witness :
  res (run news_provider
         (NewsFetcher.fetch_recent_news (H := sample_float_of_str)
            (H0 := sample_iso_parser) "AAPL" 7 5) tt) = Ok fetched_sample /\
  Z.of_nat (length fetched_sample) <= Z.max 0 5.
Proof.
  assert (Hr : res (run news_provider
                 (NewsFetcher.fetch_recent_news (H := sample_float_of_str)
                    (H0 := sample_iso_parser) "AAPL" 7 5) tt) = Ok fetched_sample)
    by (vm_compute; reflexivity).
  split; [exact Hr|].
  apply (@FetcherFacts.fetch_sorted_and_truncated sample_float_of_str
           sample_iso_parser unit news_provider "AAPL" 7 5 tt fetched_sample Hr).
Defined.

Lemma extraction_priority_witness :
  Py.truthy (default VNone (flat_record !! "link")) = true /\
  NewsFetcher._extract_link (VDict flat_record) = Ok (VStr "https://example.com/a").
Proof.
  split; [reflexivity|].
  exact (proj1 (proj2 (proj2 (proj2
           (@FetcherFacts.extraction_priority sample_float_of_str
              sample_iso_parser flat_record)))) eq_refl).
Defined.

Lemma fetched_items_are_dated_witness :
  res (run news_provider
         (NewsFetcher.fetch_recent_news (H := sample_float_of_str)
            (H0 := sample_iso_parser) "AAPL" 7 1) tt)
  = Ok (firstn 1 fetched_sample) /\
  forall it, In it (firstn 1 fetched_sample) -> NewsFetcher.published_at it <> "".
Proof.
  assert (Hr : res (run news_provider
                 (NewsFetcher.fetch_recent_news (H := sample_float_of_str)
                    (H0 := sample_iso_parser) "AAPL" 7 1) tt)
               = Ok (firstn 1 fetched_sample)) by (vm_compute; reflexivity).
  split; [exact Hr|]. intros it Hit.
  apply (@FetcherFacts.fetched_items_are_dated sample_float_of_str
           sample_iso_parser unit news_provider "AAPL" 7 1 tt
           (firstn 1 fetched_sample) Hr it Hit).
Defined.

Lemma empty_name_boost_witness :
  PyStr.any_char PyStr.is_alnum "?! -- !?" = false /\
  TickerResolver._norm "?! -- !?" = "" /\
  TickerResolver._boost_score (H := sample_upper)
    (candidate "ACME" "Acme Corp" (PyFloat.of_Z 2) None)
    (TickerResolver._norm "?! -- !?") true
  = PyFloat.add
      (TickerResolver.type_boosted (H := sample_upper)
         (candidate "ACME" "Acme Corp" (PyFloat.of_Z 2) None) true) f1_0.
Proof.
  split; [reflexivity|].
  pose proof (@ResolverFacts.empty_name_boost sample_upper "?! -- !?" eq_refl)
    as [Hn Hb].
  split; [exact Hn|].
  exact (proj1 (proj2 (Hb (candidate "ACME" "Acme Corp" (PyFloat.of_Z 2) None) true))).
Defined.

End Instances.

(** * Further properties *)

(** ** The normal form of a name *)

Module NormalForm.
Import PyStr TickerResolver Shapes.

Lemma blank_is_space (c : ascii) : is_blank_char c = true -> c = " "%char.
Proof. apply Ascii.eqb_eq. Qed.

Lemma spaced_sub_runs (b : bool) (u : string) : spaced b (sub_runs b u) = true.
Proof.
  revert b. induction u as [|c u IH]; intros b; simpl; [reflexivity|].
  destruct (is_norm_char c) eqn:Hc; simpl.
  - rewrite Hc. apply IH.
  - destruct b; simpl; [apply IH|]. apply IH.
Qed.

Lemma spaced_true_lstrip (s : string) : spaced true s = true -> lstrip s = s.
Proof.
  destruct s as [|c s]; simpl; [reflexivity|].
  destruct (is_norm_char c) eqn:Hc.
  - rewrite (TextFacts.norm_char_not_space c Hc). reflexivity.
  - rewrite andb_false_r. discriminate.
Qed.

Lemma spaced_lstrip (s : string) : spaced false s = true -> spaced true (lstrip s) = true.
Proof.
  destruct s as [|c s]; simpl; [reflexivity|].
  destruct (is_norm_char c) eqn:Hc.
  - rewrite (TextFacts.norm_char_not_space c Hc). simpl. rewrite Hc. auto.
  - intros Hs. apply andb_true_iff in Hs. destruct Hs as [Hb Hs].
    apply andb_true_iff in Hb. destruct Hb as [Hb _].
    apply blank_is_space in Hb. subst c. simpl.
    rewrite (spaced_true_lstrip s Hs). exact Hs.
Qed.

Lemma canon_rstrip (p : bool) (s : string) :
  spaced p s = true -> rstrip s = "" \/ canon_tail p (rstrip s) = true.
Proof.
  revert p. induction s as [|c s IH]; intros p; simpl; [auto|].
  destruct (is_norm_char c) eqn:Hc.
  - intros Hs. rewrite (TextFacts.norm_char_not_space c Hc). simpl. rewrite Hc.
    right. destruct (IH false Hs) as [->|H]; [reflexivity | exact H].
  - intros Hs. apply andb_true_iff in Hs. destruct Hs as [Hb Hs].
    apply andb_true_iff in Hb. destruct Hb as [Hb Hp].
    pose proof (blank_is_space c Hb). subst c. simpl.
    destruct (IH true Hs) as [->|H]; [left; reflexivity|].
    destruct (rstrip s) eqn:Er; simpl; [left; reflexivity|].
    right. rewrite Hp. simpl in *. exact H.
Qed.

Lemma norm_canon (s : string) : canonical (_norm s) = true.
Proof.
  unfold _norm, strip, canonical.
  pose proof (spaced_lstrip _ (spaced_sub_runs false (lower s))) as Hs.
  destruct (canon_rstrip true _ Hs) as [->|H]; [reflexivity|].
  rewrite H. apply orb_true_r.
Qed.

Lemma canon_tail_spaced (p : bool) (s : string) : canon_tail p s = true -> spaced p s = true.
Proof.
  revert p. induction s as [|c s IH]; intros p; simpl; [reflexivity|].
  destruct (is_norm_char c); [apply IH|].
  intros H. apply andb_true_iff in H. destruct H as [-> H]. simpl. apply IH, H.
Qed.

Lemma norm_char_lower (c : ascii) : is_norm_char c = true -> lower_char c = c.
Proof. destruct c as [[] [] [] [] [] [] [] []]; simpl; try reflexivity; discriminate. Qed.

Lemma spaced_lower (p : bool) (s : string) : spaced p s = true -> lower s = s.
Proof.
  revert p. unfold lower. induction s as [|c s IH]; intros p; simpl; [reflexivity|].
  destruct (is_norm_char c) eqn:Hc.
  - intros H. rewrite (norm_char_lower c Hc), (IH _ H). reflexivity.
  - intros H. apply andb_true_iff in H. destruct H as [Hb H].
    apply andb_true_iff in Hb. destruct Hb as [Hb _]. apply blank_is_space in Hb. subst c.
    rewrite (IH _ H). reflexivity.
Qed.

Lemma spaced_sub_runs_id (p b : bool) (s : string) :
  spaced p s = true -> (b = true -> p = true) -> sub_runs b s = s.
Proof.
  revert p b. induction s as [|c s IH]; intros p b; simpl; [reflexivity|].
  destruct (is_norm_char c) eqn:Hc.
  - intros H _. rewrite (IH false false H); [reflexivity | discriminate].
  - intros H Hb. apply andb_true_iff in H. destruct H as [H1 H].
    apply andb_true_iff in H1. destruct H1 as [Hbl Hp]. apply negb_true_iff in Hp. subst p.
    destruct b; [specialize (Hb eq_refl); discriminate|].
    apply blank_is_space in Hbl. subst c.
    rewrite (IH true true H); [reflexivity | reflexivity].
Qed.

Lemma canon_tail_rstrip (p : bool) (s : string) : canon_tail p s = true -> rstrip s = s.
Proof.
  revert p. induction s as [|c s IH]; intros p; simpl; [reflexivity|].
  destruct (is_norm_char c) eqn:Hc.
  - intros H. rewrite (TextFacts.norm_char_not_space c Hc), (IH _ H). reflexivity.
  - intros H. apply andb_true_iff in H. destruct H as [_ H].
    rewrite (IH _ H). destruct s; [discriminate|]. simpl. rewrite andb_false_r. reflexivity.
Qed.

Lemma canon_fixed (s : string) : canonical s = true -> _norm s = s.
Proof.
  unfold canonical. destruct s as [|c s]; [reflexivity|]. intros H.
  change (canon_tail true (String c s) = true) in H.
  pose proof (canon_tail_spaced _ _ H) as Hs.
  unfold _norm, strip. rewrite (spaced_lower _ _ Hs).
  rewrite (spaced_sub_runs_id true false _ Hs) by discriminate.
  rewrite (spaced_true_lstrip _ Hs). apply (canon_tail_rstrip _ _ H).
Qed.

Lemma lower_upper_char (c : ascii) : lower_char (upper_char c) = lower_char c.
Proof. destruct c as [[] [] [] [] [] [] [] []]; reflexivity. Qed.

Lemma lower_lower_char (c : ascii) : lower_char (lower_char c) = lower_char c.
Proof. destruct c as [[] [] [] [] [] [] [] []]; reflexivity. Qed.

Lemma norm_lower (s : string) : _norm (lower s) = _norm s.
Proof.
  unfold _norm, lower. f_equal. f_equal.
  induction s as [|c s IH]; simpl; [reflexivity|].
  rewrite IH, lower_lower_char. reflexivity.
Qed.

Lemma norm_upper `{StrUpper} (s : string) :
  ascii_only s = true -> _norm (upper s) = _norm s.
Proof.
  intros Ha. unfold upper. rewrite Ha. clear Ha.
  unfold _norm, lower. f_equal. f_equal.
  induction s as [|c s IH]; simpl; [reflexivity|].
  rewrite IH, lower_upper_char. reflexivity.
Qed.

(** X1. The texts that [_norm] leaves as they are are
    exactly the texts in normal form: words of [a-z0-9] with one blank
    between two words, no blank in front and none behind (the empty text
    among them). *)
Theorem norm_fixed_points (s : string) : _norm s = s <-> canonical s = true.
Proof.
  split; [|apply canon_fixed]. intros <-. apply norm_canon.
Qed.

(** X2. [_norm] gives a text in normal form, and a second
    [_norm] changes nothing. *)
Theorem norm_idempotent (s : string) :
  canonical (_norm s) = true /\ _norm (_norm s) = _norm s.
Proof. split; [apply norm_canon | apply canon_fixed, norm_canon]. Qed.

(** X3. The normal form of a name of ASCII characters does not depend on
    the case of its letters. (Beyond ASCII it can: the upper case of a
    sharp s is two letters S, which the normal form keeps, while it
    drops the sharp s.) *)
Theorem norm_ignores_case `{StrUpper} (s : string) :
  ascii_only s = true ->
  _norm (upper s) = _norm s /\ _norm (lower s) = _norm s.
Proof. intros Ha. split; [apply norm_upper, Ha | apply norm_lower]. Qed.

(** X4. Two spellings with the same normal form, a
    key of the curated table, resolve alike: the same candidate, without
    a search. So does, in upper case, a curated name of ASCII
    characters. *)
Theorem curated_by_normal_form `{StrUpper} (a b region : string)
    (prefer_equity : bool) :
  _norm a = _norm b -> CURATED !! _norm a <> None ->
  resolve_ticker a region prefer_equity = resolve_ticker b region prefer_equity /\
  (ascii_only a = true ->
   resolve_ticker (upper a) region prefer_equity
   = resolve_ticker b region prefer_equity) /\
  exists c, resolve_ticker a region prefer_equity = Ret (Some c).
Proof.
  intros Hab Hk. unfold resolve_ticker. rewrite <- Hab.
  destruct (CURATED !! _norm a) as [[[sym nm] exch]|] eqn:Ek; [|congruence].
  split; [reflexivity|]. split; [|eauto].
  intros Ha. rewrite (norm_upper a Ha), Ek. reflexivity.
Qed.

End NormalForm.

(** ** Runs, call by call *)

Section RunFacts.
Context {E : Type} {R : E -> Type} {W : Type}.
Variable handle : forall ev : E, W -> result (R ev) * W.

Lemma run_bind_calls {A B} (p : io E R A) (f : A -> io E R B) (w : W) :
  calls (run handle (bind p f) w) =
    match res (run handle p w) with
    | Ok a => calls (run handle p w) ++ calls (run handle (f a) (final (run handle p w)))
    | Err _ => calls (run handle p w)
    end.
Proof.
  revert w. induction p as [a|e|ev k IH]; intros w; simpl; try reflexivity.
  destruct (handle ev w) as [r w']. simpl. rewrite IH.
  destruct (res (run handle (k r) w')); reflexivity.
Qed.

Lemma run_bind_final {A B} (p : io E R A) (f : A -> io E R B) (w : W) :
  final (run handle (bind p f) w) =
    match res (run handle p w) with
    | Ok a => final (run handle (f a) (final (run handle p w)))
    | Err _ => final (run handle p w)
    end.
Proof.
  revert w. induction p as [a|e|ev k IH]; intros w; simpl; try reflexivity.
  destruct (handle ev w) as [r w']. simpl. apply IH.
Qed.

Lemma run_try_catch_res {A} (p : io E R A) (h : exn -> io E R A) (w : W) :
  res (run handle (try_catch p h) w) =
    match res (run handle p w) with
    | Ok a => Ok a
    | Err e => res (run handle (h e) (final (run handle p w)))
    end.
Proof.
  revert w. induction p as [a|e|ev k IH]; intros w; simpl; try reflexivity.
  destruct (handle ev w) as [r w']. simpl. apply IH.
Qed.

Lemma run_try_catch_calls {A} (p : io E R A) (h : exn -> io E R A) (w : W) :
  calls (run handle (try_catch p h) w) =
    match res (run handle p w) with
    | Ok _ => calls (run handle p w)
    | Err e => calls (run handle p w) ++ calls (run handle (h e) (final (run handle p w)))
    end.
Proof.
  revert w. induction p as [a|e|ev k IH]; intros w; simpl; try reflexivity.
  destruct (handle ev w) as [r w']. simpl. rewrite IH.
  destruct (res (run handle (k r) w')); reflexivity.
Qed.

Lemma run_try_catch_final {A} (p : io E R A) (h : exn -> io E R A) (w : W) :
  final (run handle (try_catch p h) w) =
    match res (run handle p w) with
    | Ok _ => final (run handle p w)
    | Err e => final (run handle (h e) (final (run handle p w)))
    end.
Proof.
  revert w. induction p as [a|e|ev k IH]; intros w; simpl; try reflexivity.
  destruct (handle ev w) as [r w']. simpl. apply IH.
Qed.

(** Three attempts, one after the other. *)
Lemma retry3_res {A} (p : io E R A) (w : W) :
  let o1 := run handle p w in
  let o2 := run handle p (final o1) in
  let o3 := run handle p (final o2) in
  res (run handle (with_retry 3 p) w) =
    match res o1 with
    | Ok a => Ok a
    | Err _ => match res o2 with Ok a => Ok a | Err _ => res o3 end
    end.
Proof.
  cbv zeta. simpl with_retry. rewrite run_try_catch_res.
  destruct (res (run handle p w)); [reflexivity|].
  rewrite run_try_catch_res. reflexivity.
Qed.

Lemma retry3_calls {A} (p : io E R A) (w : W) :
  let o1 := run handle p w in
  let o2 := run handle p (final o1) in
  let o3 := run handle p (final o2) in
  calls (run handle (with_retry 3 p) w) =
    match res o1 with
    | Ok _ => calls o1
    | Err _ => calls o1 ++
               match res o2 with
               | Ok _ => calls o2
               | Err _ => calls o2 ++ calls o3
               end
    end.
Proof.
  cbv zeta. simpl with_retry. rewrite run_try_catch_calls.
  destruct (res (run handle p w)); [reflexivity|].
  rewrite run_try_catch_calls. reflexivity.
Qed.
End RunFacts.

(** ** The calls of the news fetcher *)

Module FetchCalls.
Import NewsFetcher Shapes.

Section Facts.
Context `{StrToFloat} `{IsoParser} {W : Type}.
Variable handle : forall ev : event, W -> result (reply ev) * W.

Lemma within_lookback_calls (dt : option datetime) (lb : Z) (w : W) :
  calls (run handle (_within_lookback dt lb) w) = match dt with Some _ => [Now] | None => [] end.
Proof.
  destruct dt as [d|]; simpl; [|reflexivity].
  destruct (handle Now w) as [[now|e] w']; simpl; [|reflexivity].
  destruct (sub_days now lb); reflexivity.
Qed.

Lemma process_calls (n : pyval) (lb : Z) (w : W) :
  calls (run handle (process n lb) w) = [] \/ calls (run handle (process n lb) w) = [Now].
Proof.
  unfold process. rewrite run_bind_calls, run_lift.
  destruct (extract n) as [x|e]; simpl; [|auto].
  destruct (PyStr.is_empty (x_title x) || negb (Py.truthy (x_link x))); simpl; [auto|].
  rewrite run_bind_calls, within_lookback_calls.
  destruct (x_dt x); simpl.
  - right. destruct (res _) as [[]|]; reflexivity.
  - left. reflexivity.
Qed.

Lemma collect_calls (raw : list pyval) (lb : Z) (items : list NewsItem) (w : W) :
  let cs := calls (run handle (collect raw lb items) w) in
  Forall (fun ev => ev = Now) cs /\ (length cs <= length raw)%nat.
Proof.
  revert items w. induction raw as [|n raw IH]; intros items w; simpl.
  - split; [constructor | lia].
  - rewrite run_bind_calls.
    destruct (process_calls n lb w) as [Hc|Hc]; rewrite Hc;
      destruct (res (run handle (process n lb) w)) as [o|e]; simpl;
      try (split; [repeat constructor | lia]).
    + destruct (IH (match o with Some it => items ++ [it] | None => items end)
                   (final (run handle (process n lb) w))) as [Hf Hl].
      split; [exact Hf | lia].
    + destruct (IH (match o with Some it => items ++ [it] | None => items end)
                   (final (run handle (process n lb) w))) as [Hf Hl].
      split; [constructor; [reflexivity | exact Hf] | lia].
Qed.

Lemma fetch_once_calls (ticker : string) (lb top_k : Z) (w : W) :
  exists rest,
    calls (run handle (fetch_once ticker lb top_k) w) = TickerNews ticker :: rest /\
    Forall (fun ev => ev = Now) rest /\
    forall raw, fst (handle (TickerNews ticker) w) = Ok (VList raw) ->
      (length rest <= length raw)%nat.
Proof.
  unfold fetch_once. simpl.
  destruct (handle (TickerNews ticker) w) as [[raw|e] w']; simpl.
  2:{ exists []. split; [reflexivity|]. split; [constructor | discriminate]. }
  assert (Hor : forall l, Py.or_ (VList l) (VList []) = VList l)
    by (intros l; destruct l; reflexivity).
  destruct (Py.or_ raw (VList [])) as [| | | | |l|] eqn:Eor;
    try (exists []; split; [reflexivity|]; split; [constructor|];
         intros raw' [= ->]; rewrite Hor in Eor; discriminate).
  rewrite run_bind_calls.
  destruct (collect_calls l lb [] w') as [Hf Hl]. cbv zeta in Hf, Hl.
  exists (calls (run handle (collect l lb []) w')).
  split; [|split; [exact Hf|]].
  - destruct (res (run handle (collect l lb []) w')) as [items|e]; simpl;
      rewrite ?app_nil_r; reflexivity.
  - intros raw' [= ->]. rewrite Hor in Eor. injection Eor as <-. exact Hl.
Qed.

Lemma count_news_once (ticker : string) (lb top_k : Z) (w : W) :
  length (List.filter is_news_call (calls (run handle (fetch_once ticker lb top_k) w))) = 1%nat.
Proof.
  destruct (fetch_once_calls ticker lb top_k w) as (rest & -> & Hf & _). simpl.
  f_equal. induction Hf as [|ev rest -> _ IH]; simpl; [reflexivity | exact IH].
Qed.

Lemma fetch_attempts_count (ticker : string) (lb top_k : Z) (w : W) :
  let o := run handle (fetch_recent_news ticker lb top_k) w in
  let n := length (List.filter is_news_call (calls o)) in
  (1 <= n <= 3)%nat /\
  (forall out, res (run handle (fetch_once ticker lb top_k) w) = Ok out ->
     res o = Ok out /\ n = 1%nat) /\
  (forall e, res o = Err e -> n = 3%nat).
Proof.
  cbv zeta. unfold fetch_recent_news.
  rewrite retry3_calls, retry3_res. cbv zeta.
  set (p := fetch_once ticker lb top_k).
  pose proof (count_news_once ticker lb top_k w) as C1.
  pose proof (count_news_once ticker lb top_k (final (run handle p w))) as C2.
  pose proof (count_news_once ticker lb top_k (final (run handle p (final (run handle p w))))) as C3.
  fold p in C1, C2, C3.
  destruct (res (run handle p w)) as [a1|e1].
  { rewrite C1. repeat split; try lia; congruence. }
  destruct (res (run handle p (final (run handle p w)))) as [a2|e2].
  { rewrite List.filter_app, List.length_app, C1, C2. repeat split; try lia; discriminate. }
  rewrite !List.filter_app, !List.length_app, C1, C2, C3. repeat split; try lia; discriminate.
Qed.

(** Every call of a fetch is for the news of its ticker, or reads the
    clock. *)
Lemma fetch_calls_of_ticker (ticker : string) (lb top_k : Z) (w : W) :
  Forall (fun ev => ev = TickerNews ticker \/ ev = Now)
         (calls (run handle (fetch_recent_news ticker lb top_k) w)).
Proof.
  assert (Honce : forall w, Forall (fun ev => ev = TickerNews ticker \/ ev = Now)
                              (calls (run handle (fetch_once ticker lb top_k) w))).
  { intros w0. destruct (fetch_once_calls ticker lb top_k w0) as (rest & -> & Hf & _).
    constructor; [left; reflexivity|].
    eapply List.Forall_impl; [|exact Hf]. intros ev ->. right; reflexivity. }
  unfold fetch_recent_news. rewrite retry3_calls. cbv zeta.
  destruct (res _); [apply Honce|]. apply List.Forall_app. split; [apply Honce|].
  destruct (res _); [apply Honce|]. apply List.Forall_app. split; apply Honce.
Qed.

(** X5. A fetch asks the provider for the news at least once
    and at most three times; once when the first attempt succeeds, whose
    result it then returns; and when it raises, it has asked three
    times. *)
Theorem fetch_attempts (ticker : string) (lb top_k : Z) (w : W) :
  let o := run handle (fetch_recent_news ticker lb top_k) w in
  let n := length (List.filter is_news_call (calls o)) in
  (1 <= n <= 3)%nat /\
  (forall out, res (run handle (fetch_once ticker lb top_k) w) = Ok out ->
     res o = Ok out /\ n = 1%nat) /\
  (forall e, res o = Err e -> n = 3%nat).
Proof. apply fetch_attempts_count. Qed.

(** X6. One attempt first asks the provider for the news of
    the ticker, and after that only reads the clock: at most once for
    each raw record of the reply. *)
Theorem attempt_trace (ticker : string) (lb top_k : Z) (w : W) :
  exists rest,
    calls (run handle (fetch_once ticker lb top_k) w) = TickerNews ticker :: rest /\
    Forall (fun ev => ev = Now) rest /\
    forall raw, fst (handle (TickerNews ticker) w) = Ok (VList raw) ->
      (length rest <= length raw)%nat.
Proof. apply fetch_once_calls. Qed.
End Facts.
End FetchCalls.

(** ** The shape of the raw records *)

Module RecordShape.
Import NewsFetcher Shapes.

Section Facts.
Context `{StrToFloat} `{IsoParser}.

Lemma or_dict (v : pyval) : dict_or_falsy v = true -> Py.or_ v (VDict ∅) = VDict (as_dict v).
Proof.
  unfold Py.or_, as_dict. destruct v; simpl; try discriminate;
    try (intros Hv; apply negb_true_iff in Hv; simpl in Hv; rewrite ?Hv; reflexivity).
  - intros _. reflexivity.
  - intros _. destruct (negb _); reflexivity.
Qed.

Lemma get_or_dict (v : pyval) (k : string) :
  dict_or_falsy v = true -> Py.get (Py.or_ v (VDict ∅)) k = Ok (field_of (as_dict v) k).
Proof. intros Hv. rewrite (or_dict v Hv). reflexivity. Qed.

Lemma strip_or_str (v : pyval) : str_or_falsy v = true ->
  exists s, Py.or_ v (VStr "") = VStr s.
Proof.
  unfold Py.or_. destruct v; simpl; try (intros Hv; apply negb_true_iff in Hv; simpl in Hv; rewrite ?Hv; eauto; fail).
  - eauto.
  - intros _. destruct (negb _); eauto.
Qed.

Lemma str_truthy (v : pyval) : str_or_falsy v = true -> Py.truthy v = true -> exists s, v = VStr s.
Proof.
  destruct v; simpl; intros Hv Ht; try (rewrite Ht in Hv; discriminate); eauto.
  discriminate.
Qed.

Lemma extract_well_shaped (n : pyval) :
  well_shaped n = true -> exists x, extract n = Ok x.
Proof.
  destruct n as [| | | | | |r]; try discriminate. simpl.
  intros Hw.
  apply andb_true_iff in Hw. destruct Hw as [Hw Hp].
  apply andb_true_iff in Hw. destruct Hw as [Hw Hck].
  apply andb_true_iff in Hw. destruct Hw as [Hw Hcu].
  apply andb_true_iff in Hw. destruct Hw as [Hw Hct].
  apply andb_true_iff in Hw. destruct Hw as [Ht Hc].
  fold (field_of r "content") in *. fold (field_of r "title") in *.
  set (c := as_dict (field_of r "content")) in *.
  assert (Et : exists t, extract_title (VDict r) = Ok t).
  { unfold extract_title. simpl. fold (field_of r "title") (field_of r "content").
    destruct (Py.truthy (field_of r "title")) eqn:Tt; simpl.
    - destruct (str_truthy _ Ht Tt) as [s ->]. eauto.
    - rewrite (get_or_dict _ "title" Hc). simpl. fold c.
      destruct (strip_or_str _ Hct) as [s ->]. eauto. }
  assert (El : exists l, _extract_link (VDict r) = Ok l).
  { unfold _extract_link. simpl. fold (field_of r "link") (field_of r "content").
    destruct (Py.truthy (field_of r "link")); simpl; [eauto|].
    rewrite (or_dict _ Hc). fold c. simpl.
    fold (field_of c "canonicalUrl") (field_of c "clickThroughUrl").
    rewrite (get_or_dict _ "url" Hcu). simpl.
    destruct (Py.truthy (field_of (as_dict (field_of c "canonicalUrl")) "url")); simpl; [eauto|].
    rewrite (get_or_dict _ "url" Hck). simpl.
    destruct (Py.truthy _); eauto. }
  assert (Ep : exists p, _extract_publisher (VDict r) = Ok p).
  { unfold _extract_publisher. simpl. fold (field_of r "publisher") (field_of r "content").
    destruct (Py.truthy (field_of r "publisher")); simpl; [eauto|].
    rewrite (or_dict _ Hc). fold c. simpl. fold (field_of c "provider").
    rewrite (get_or_dict _ "displayName" Hp). eauto. }
  assert (Ed : exists d, _extract_published_dt (VDict r) = Ok d).
  { unfold _extract_published_dt. simpl.
    destruct (_parse_epoch_to_dt _); simpl; [eauto|].
    fold (field_of r "content"). rewrite (get_or_dict _ "pubDate" Hc). simpl.
    destruct (_parse_iso_to_dt _); simpl; eauto. }
  destruct Et as [t Et], El as [l El], Ep as [p Ep], Ed as [d Ed].
  unfold extract. rewrite Et, El, Ep, Ed. simpl. eauto.
Qed.

Lemma extract_not_dict (n : pyval) : is_dict n = false -> extract n = Err AttributeError.
Proof. destruct n; try reflexivity. discriminate. Qed.

(** X7. The loop reads every record of the documented
    shape without an exception, whatever the values of its other fields
    (the times, the links, the publisher, the tickers). *)
Theorem well_shaped_extract (n : pyval) :
  well_shaped n = true -> exists x, extract n = Ok x.
Proof. apply extract_well_shaped. Qed.

Context {W : Type}.
Variable handle : forall ev : event, W -> result (reply ev) * W.

Lemma process_total (n : pyval) (lb : Z) (w : W) :
  well_shaped n = true ->
  (forall w, exists now w' c, handle Now w = (Ok now, w') /\ sub_days now lb = Ok c) ->
  exists o, res (run handle (process n lb) w) = Ok o.
Proof.
  intros Hw Hclock. destruct (extract_well_shaped n Hw) as [x Hx].
  unfold process. rewrite Hx. simpl.
  destruct (PyStr.is_empty (x_title x) || negb (Py.truthy (x_link x))); simpl; [eauto|].
  destruct (x_dt x) as [d|]; simpl; [|eauto].
  destruct (Hclock w) as (now & w' & c & -> & Hc). simpl. rewrite Hc. simpl.
  destruct (Datetime.geb d c); simpl; eauto.
Qed.

Lemma collect_total (raw : list pyval) (lb : Z) (items : list NewsItem) (w : W) :
  Forall (fun n => well_shaped n = true) raw ->
  (forall w, exists now w' c, handle Now w = (Ok now, w') /\ sub_days now lb = Ok c) ->
  exists out, res (run handle (collect raw lb items) w) = Ok out.
Proof.
  intros Hraw Hclock. revert items w.
  induction Hraw as [|n raw Hn _ IH]; intros items w; simpl; [eauto|].
  rewrite run_bind_res. destruct (process_total n lb w Hn Hclock) as [o ->]. apply IH.
Qed.

Lemma collect_malformed (raw : list pyval) (lb : Z) (items : list NewsItem) (w : W) :
  Exists (fun n => is_dict n = false) raw ->
  exists e, res (run handle (collect raw lb items) w) = Err e.
Proof.
  intros Hex. revert items w.
  induction Hex as [n raw Hn|n raw _ IH]; intros items w; simpl; rewrite run_bind_res.
  - unfold process. rewrite run_bind_res, run_lift, (extract_not_dict n Hn). eauto.
  - destruct (res (run handle (process n lb) w)) as [o|e]; [apply IH | eauto].
Qed.

Lemma fetch_once_malformed (ticker : string) (lb top_k : Z) (w : W) :
  (forall w, exists raw, fst (handle (TickerNews ticker) w) = Ok (VList raw) /\
                         Exists (fun n => is_dict n = false) raw) ->
  exists e, res (run handle (fetch_once ticker lb top_k) w) = Err e.
Proof.
  intros Hp. destruct (Hp w) as (raw & Hn & Hex).
  unfold fetch_once. rewrite run_bind_res.
  assert (Hc : res (run handle (call (TickerNews ticker)) w) = Ok (VList raw)).
  { simpl. destruct (handle (TickerNews ticker) w) as [r w1]. simpl in *. subst r. reflexivity. }
  rewrite Hc.
  assert (Hor : Py.or_ (VList raw) (VList []) = VList raw)
    by (destruct raw; reflexivity).
  rewrite Hor, run_bind_res.
  destruct (collect_malformed raw lb [] (final (run handle (call (TickerNews ticker)) w)) Hex)
    as [e ->]. eauto.
Qed.

(** X8. When the provider answers with a list of records of the
    documented shape, and the clock with a time from which the cutoff can
    be computed, the fetch returns a list at its first attempt: the
    provider is asked once. *)
Theorem fetch_total (ticker : string) (lb top_k : Z) (raw : list pyval) (w w1 : W) :
  handle (TickerNews ticker) w = (Ok (VList raw), w1) ->
  Forall (fun n => well_shaped n = true) raw ->
  (forall w, exists now w' c, handle Now w = (Ok now, w') /\ sub_days now lb = Ok c) ->
  exists out,
    res (run handle (fetch_recent_news ticker lb top_k) w) = Ok out /\
    length (List.filter is_news_call
              (calls (run handle (fetch_recent_news ticker lb top_k) w))) = 1%nat.
Proof.
  intros Hn Hraw Hclock.
  assert (Ho : exists out, res (run handle (fetch_once ticker lb top_k) w) = Ok out).
  { unfold fetch_once. rewrite run_bind_res.
    assert (Hc : run handle (call (TickerNews ticker)) w
                 = Outcome (Ok (VList raw)) w1 [TickerNews ticker])
      by (simpl; rewrite Hn; reflexivity).
    rewrite Hc. cbn [res final].
    assert (Hor : Py.or_ (VList raw) (VList []) = VList raw)
      by (destruct raw; reflexivity).
    rewrite Hor, run_bind_res.
    destruct (collect_total raw lb [] w1 Hraw Hclock) as [items ->]. simpl. eauto. }
  destruct Ho as [out Ho]. exists out.
  destruct (FetchCalls.fetch_attempts_count handle ticker lb top_k w) as (_ & Hfirst & _).
  apply (Hfirst out Ho).
Qed.

(** X9. One record that is not a dict fails the
    whole fetch: when every reply of the provider holds one, the fetch
    raises, after three attempts. *)
Theorem malformed_record_fails (ticker : string) (lb top_k : Z) (w : W) :
  (forall w, exists raw, fst (handle (TickerNews ticker) w) = Ok (VList raw) /\
                         Exists (fun n => is_dict n = false) raw) ->
  exists e,
    res (run handle (fetch_recent_news ticker lb top_k) w) = Err e /\
    length (List.filter is_news_call
              (calls (run handle (fetch_recent_news ticker lb top_k) w))) = 3%nat.
Proof.
  intros Hp.
  assert (He : exists e, res (run handle (fetch_recent_news ticker lb top_k) w) = Err e).
  { unfold fetch_recent_news. rewrite retry3_res. cbv zeta.
    destruct (fetch_once_malformed ticker lb top_k w Hp) as [e1 ->].
    destruct (fetch_once_malformed ticker lb top_k
                (final (run handle (fetch_once ticker lb top_k) w)) Hp) as [e2 ->].
    apply fetch_once_malformed, Hp. }
  destruct He as [e He]. exists e. split; [exact He|].
  destruct (FetchCalls.fetch_attempts_count handle ticker lb top_k w) as (_ & _ & Hfail).
  apply (Hfail e He).
Qed.
End Facts.
End RecordShape.

(** ** The calendar *)

Module CalendarFacts.
Import Shapes.

Lemma days_before_year_succ (y : Z) :
  days_before_year (y + 1) = days_before_year y + (if is_leap y then 366 else 365).
Proof.
  unfold days_before_year, is_leap. replace (y + 1 - 1) with y by lia.
  destruct (Z.eqb_spec (y mod 4) 0), (Z.eqb_spec (y mod 100) 0), (Z.eqb_spec (y mod 400) 0);
    simpl; Z.div_mod_to_equations; lia.
Qed.

Lemma days_before_year_mono (y1 y2 : Z) :
  y1 <= y2 -> days_before_year y1 <= days_before_year y2.
Proof. unfold days_before_year. intros. Z.div_mod_to_equations. lia. Qed.

Lemma month_cases (m : Z) : 1 <= m <= 12 ->
  m = 1 \/ m = 2 \/ m = 3 \/ m = 4 \/ m = 5 \/ m = 6 \/ m = 7 \/ m = 8 \/ m = 9 \/
  m = 10 \/ m = 11 \/ m = 12.
Proof. lia. Qed.

Ltac each_month H :=
  apply month_cases in H;
  repeat (destruct H as [H|H]); subst.

Lemma day_of_year_bound (y m d : Z) :
  1 <= m <= 12 -> 1 <= d <= days_in_month y m ->
  1 <= days_before_month y m + d <= (if is_leap y then 366 else 365).
Proof.
  intros Hm. unfold days_before_month, days_in_month.
  each_month Hm; destruct (is_leap y); simpl; lia.
Qed.

Lemma month_order (y m1 d1 m2 d2 : Z) :
  1 <= m1 <= 12 -> 1 <= m2 <= 12 -> m1 < m2 ->
  1 <= d1 <= days_in_month y m1 -> 1 <= d2 ->
  days_before_month y m1 + d1 < days_before_month y m2 + d2.
Proof.
  intros H1 H2. unfold days_before_month, days_in_month.
  each_month H1; each_month H2; destruct (is_leap y); simpl; lia.
Qed.

Lemma ymd_ordinal_compare (y1 m1 d1 y2 m2 d2 : Z) :
  valid_date y1 m1 d1 -> valid_date y2 m2 d2 ->
  lex_compare [y1; m1; d1] [y2; m2; d2] = (ymd_ordinal y1 m1 d1 ?= ymd_ordinal y2 m2 d2).
Proof.
  intros (Hy1 & Hm1 & Hd1) (Hy2 & Hm2 & Hd2). unfold ymd_ordinal. cbn [lex_compare].
  pose proof (day_of_year_bound y1 m1 d1 Hm1 Hd1) as B1.
  pose proof (day_of_year_bound y2 m2 d2 Hm2 Hd2) as B2.
  destruct (Z.compare_spec y1 y2) as [->|Hy|Hy].
  - destruct (Z.compare_spec m1 m2) as [->|Hm|Hm].
    + destruct (Z.compare_spec d1 d2); symmetry;
        [apply Z.compare_eq_iff | apply Z.compare_lt_iff | apply Z.compare_gt_iff]; lia.
    + symmetry. apply Z.compare_lt_iff.
      pose proof (month_order y2 m1 d1 m2 d2 Hm1 Hm2 Hm Hd1 ltac:(lia)). lia.
    + symmetry. apply Z.compare_gt_iff.
      pose proof (month_order y2 m2 d2 m1 d1 Hm2 Hm1 Hm Hd2 ltac:(lia)). lia.
  - symmetry. apply Z.compare_lt_iff.
    pose proof (days_before_year_succ y1). pose proof (days_before_year_mono (y1 + 1) y2 ltac:(lia)).
    lia.
  - symmetry. apply Z.compare_gt_iff.
    pose proof (days_before_year_succ y2). pose proof (days_before_year_mono (y2 + 1) y1 ltac:(lia)).
    lia.
Qed.

Lemma ymd_ordinal_range (y m d : Z) :
  valid_date y m d -> 1 <= ymd_ordinal y m d <= MAXORDINAL.
Proof.
  intros (Hy & Hm & Hd). unfold ymd_ordinal, MINYEAR, MAXYEAR, MAXORDINAL in *.
  pose proof (day_of_year_bound y m d Hm Hd) as B.
  pose proof (days_before_year_succ y) as S.
  pose proof (days_before_year_mono 1 y ltac:(lia)) as M1.
  pose proof (days_before_year_mono (y + 1) 10000 ltac:(lia)) as M2.
  change (days_before_year 1) with 0 in M1.
  change (days_before_year 10000) with 3652059 in M2. lia.
Qed.

Lemma days_before_year_split (n400 n100 n4 n1 : Z) :
  0 <= n400 -> 0 <= n100 < 4 -> 0 <= n4 < 25 -> 0 <= n1 < 4 ->
  days_before_year (n400 * 400 + 1 + n100 * 100 + n4 * 4 + n1)
  = n400 * 146097 + n100 * 36524 + n4 * 1461 + n1 * 365.
Proof.
  intros. unfold days_before_year. Z.div_mod_to_equations. lia.
Qed.

Lemma ord2ymd_ordinal (o y m d : Z) :
  1 <= o <= MAXORDINAL -> ord2ymd o = (y, m, d) -> ymd_ordinal y m d = o.
Proof.
  unfold MAXORDINAL, ymd_ordinal, ord2ymd. intros Ho.
  set (n0 := o - 1).
  set (n400 := n0 / 146097). set (r400 := n0 mod 146097).
  set (n100 := r400 / 36524). set (r100 := r400 mod 36524).
  set (n4 := r100 / 1461). set (r4 := r100 mod 1461).
  set (n1 := r4 / 365). set (n := r4 mod 365).
  assert (B : 0 <= n400 <= 24 /\ 0 <= n100 <= 4 /\ 0 <= n4 <= 24 /\ 0 <= n1 <= 4 /\ 0 <= n < 365
     /\ n0 = n400 * 146097 + n100 * 36524 + n4 * 1461 + n1 * 365 + n
     /\ 0 <= n4 * 1461 + n1 * 365 + n < 36524 /\ 0 <= n1 * 365 + n < 1461
     /\ 0 <= n100 * 36524 + n4 * 1461 + n1 * 365 + n < 146097).
  { unfold n400, n100, n4, n1, n, r4, r100, r400, n0. Z.div_mod_to_equations. lia. }
  assert (Eo : o = n0 + 1) by (unfold n0; lia).
  clearbody n400 n100 n4 n1 n n0. clear r400 r100 r4. subst o.
  destruct B as (B400 & B100 & B4 & B1 & Bn & En & Br100 & Br4 & Br400).
  destruct (Z.eqb_spec n1 4) as [E1|N1]; simpl.
  { intros [= <- <- <-].
    replace (n400 * 400 + 1 + n100 * 100 + n4 * 4 + n1 - 1)
      with (n400 * 400 + 1 + n100 * 100 + n4 * 4 + 3) by lia.
    rewrite days_before_year_split by lia.
    unfold days_before_month. rewrite (DatetimeFacts.is_leap_ord n400 n100 n4 3) by lia.
    destruct (Z.eqb_spec n4 24); [lia|]. simpl. lia. }
  destruct (Z.eqb_spec n100 4) as [E1|N100]; simpl.
  { intros [= <- <- <-].
    assert (n4 = 0 /\ n1 = 0 /\ n = 0) as (-> & -> & ->) by lia.
    replace (n400 * 400 + 1 + n100 * 100 + 0 * 4 + 0 - 1)
      with (n400 * 400 + 1 + 3 * 100 + 24 * 4 + 3) by lia.
    rewrite days_before_year_split by lia.
    unfold days_before_month. rewrite (DatetimeFacts.is_leap_ord n400 3 24 3) by lia.
    simpl. lia. }
  rewrite <- (DatetimeFacts.is_leap_ord n400 n100 n4 n1) by lia.
  pose proof (days_before_year_split n400 n100 n4 n1 ltac:(lia) ltac:(lia) ltac:(lia) ltac:(lia)) as Hdby.
  set (yy := n400 * 400 + 1 + n100 * 100 + n4 * 4 + n1) in *.
  clearbody yy.
  rewrite Z.shiftr_div_pow2 by lia. change (2 ^ 5) with 32.
  set (m0 := (n + 50) / 32).
  assert (Hm0 : 1 <= m0 <= 12 /\ 32 * m0 <= n + 50 < 32 * m0 + 32) by (unfold m0; Z.div_mod_to_equations; lia).
  clearbody m0. destruct Hm0 as [Hm0 Hq].
  unfold days_before_month.
  destruct (is_leap yy) eqn:EL;
  assert (Hc : m0 = 1 \/ m0 = 2 \/ m0 = 3 \/ m0 = 4 \/ m0 = 5 \/ m0 = 6 \/ m0 = 7 \/ m0 = 8 \/ m0 = 9 \/ m0 = 10 \/ m0 = 11 \/ m0 = 12) by lia;
  repeat (destruct Hc as [->|Hc]); try subst m0; simpl;
  match goal with |- context [?a <? ?b] => destruct (Z.ltb_spec a b) end; simpl;
  intros [= <- <- <-]; rewrite ?EL; simpl; lia.
Qed.

Lemma ord2ymd_valid (o y m d : Z) :
  1 <= o <= MAXORDINAL -> ord2ymd o = (y, m, d) -> valid_date y m d.
Proof. apply DatetimeFacts.ord2ymd_wf. Qed.

(** The civil dates of two day numbers are ordered as the day numbers. *)
Lemma ord2ymd_compare (o1 o2 y1 m1 d1 y2 m2 d2 : Z) :
  1 <= o1 <= MAXORDINAL -> 1 <= o2 <= MAXORDINAL ->
  ord2ymd o1 = (y1, m1, d1) -> ord2ymd o2 = (y2, m2, d2) ->
  lex_compare [y1; m1; d1] [y2; m2; d2] = (o1 ?= o2).
Proof.
  intros H1 H2 E1 E2.
  rewrite (ymd_ordinal_compare y1 m1 d1 y2 m2 d2)
    by (eapply ord2ymd_valid; [|eassumption]; assumption).
  rewrite (ord2ymd_ordinal o1 y1 m1 d1 H1 E1), (ord2ymd_ordinal o2 y2 m2 d2 H2 E2).
  reflexivity.
Qed.

Lemma lex_compare_app3 (a1 b1 c1 a2 b2 c2 : Z) (t1 t2 : list Z) :
  lex_compare (a1 :: b1 :: c1 :: t1) (a2 :: b2 :: c2 :: t2) =
  match lex_compare [a1; b1; c1] [a2; b2; c2] with
  | Eq => lex_compare t1 t2
  | c => c
  end.
Proof.
  cbn [lex_compare]. destruct (a1 ?= a2), (b1 ?= b2), (c1 ?= c2); reflexivity.
Qed.

Lemma fromtimestamp_order (s1 s2 : Z) (d1 d2 : datetime) :
  fromtimestamp s1 = Some d1 -> fromtimestamp s2 = Some d2 ->
  Datetime.compare d1 d2 = (s1 ?= s2).
Proof.
  unfold fromtimestamp.
  destruct ((1 <=? s1 / 86400 + 719163) && (s1 / 86400 + 719163 <=? MAXORDINAL)) eqn:R1; [|discriminate].
  destruct ((1 <=? s2 / 86400 + 719163) && (s2 / 86400 + 719163 <=? MAXORDINAL)) eqn:R2; [|discriminate].
  apply andb_true_iff in R1, R2. destruct R1 as [A1 B1], R2 as [A2 B2].
  apply Z.leb_le in A1, B1, A2, B2.
  destruct (ord2ymd (s1 / 86400 + 719163)) as [[y1 m1] dd1] eqn:E1.
  destruct (ord2ymd (s2 / 86400 + 719163)) as [[y2 m2] dd2] eqn:E2.
  intros [= <-] [= <-]. unfold Datetime.compare, fields. cbn [year month day hour minute second microsecond].
  rewrite lex_compare_app3.
  rewrite (ord2ymd_compare _ _ _ _ _ _ _ _ (conj A1 B1) (conj A2 B2) E1 E2).
  cbn [lex_compare].
  pose proof (Z.mod_pos_bound s1 86400 ltac:(lia)).
  pose proof (Z.mod_pos_bound s2 86400 ltac:(lia)).
  pose proof (Z.div_mod s1 86400 ltac:(lia)).
  pose proof (Z.div_mod s2 86400 ltac:(lia)).
  set (q1 := s1 / 86400) in *. set (q2 := s2 / 86400) in *.
  set (r1 := s1 mod 86400) in *. set (r2 := s2 mod 86400) in *.
  clearbody q1 q2 r1 r2.
  destruct (Z.compare_spec (q1 + 719163) (q2 + 719163)) as [Eq|Lt|Gt].
  2:{ symmetry. apply Z.compare_lt_iff. lia. }
  2:{ symmetry. apply Z.compare_gt_iff. lia. }
  assert (q1 = q2) by lia. subst q2.
  pose proof (Z.div_mod r1 3600 ltac:(lia)). pose proof (Z.div_mod r2 3600 ltac:(lia)).
  pose proof (Z.mod_pos_bound r1 3600 ltac:(lia)). pose proof (Z.mod_pos_bound r2 3600 ltac:(lia)).
  set (h1 := r1 / 3600) in *. set (h2 := r2 / 3600) in *.
  set (t1 := r1 mod 3600) in *. set (t2 := r2 mod 3600) in *.
  assert (Hs1 : r1 mod 60 = t1 mod 60)
    by (unfold t1; clear; Z.div_mod_to_equations; lia).
  assert (Hs2 : r2 mod 60 = t2 mod 60)
    by (unfold t2; clear; Z.div_mod_to_equations; lia).
  rewrite Hs1, Hs2. clearbody h1 h2 t1 t2.
  pose proof (Z.div_mod t1 60 ltac:(lia)). pose proof (Z.div_mod t2 60 ltac:(lia)).
  pose proof (Z.mod_pos_bound t1 60 ltac:(lia)). pose proof (Z.mod_pos_bound t2 60 ltac:(lia)).
  set (mi1 := t1 / 60) in *. set (mi2 := t2 / 60) in *.
  set (se1 := t1 mod 60) in *. set (se2 := t2 mod 60) in *.
  clearbody mi1 mi2 se1 se2.
  destruct (Z.compare_spec h1 h2); [|symmetry; apply Z.compare_lt_iff; lia | symmetry; apply Z.compare_gt_iff; lia].
  destruct (Z.compare_spec mi1 mi2); [|symmetry; apply Z.compare_lt_iff; lia | symmetry; apply Z.compare_gt_iff; lia].
  destruct (Z.compare_spec se1 se2); symmetry;
    [apply Z.compare_eq_iff | apply Z.compare_lt_iff | apply Z.compare_gt_iff]; lia.
Qed.

Lemma lex_compare_refl (l : list Z) : lex_compare l l = Eq.
Proof. induction l as [|x l IH]; simpl; [reflexivity|]. rewrite Z.compare_refl. exact IH. Qed.

Lemma lex_compare_eq (a b : list Z) : lex_compare a b = Eq -> a = b.
Proof.
  revert b. induction a as [|x a IH]; intros [|y b]; simpl; try discriminate; [reflexivity|].
  destruct (Z.compare_spec x y); try discriminate. intros Hc. subst. f_equal. apply IH, Hc.
Qed.

Lemma lex_compare_ge_trans (a b c : list Z) :
  lex_compare a b <> Lt -> lex_compare b c <> Lt -> lex_compare a c <> Lt.
Proof.
  revert b c. induction a as [|x a IH]; intros [|y b] [|z c]; simpl; try congruence.
  destruct (Z.compare_spec x y), (Z.compare_spec y z), (Z.compare_spec x z);
    subst; try lia; try congruence. apply IH.
Qed.

Lemma geb_trans (a b c : datetime) :
  Datetime.geb a b = true -> Datetime.geb b c = true -> Datetime.geb a c = true.
Proof.
  unfold Datetime.geb, Datetime.compare. intros Hab Hbc.
  pose proof (lex_compare_ge_trans (fields a) (fields b) (fields c)) as Ht.
  destruct (lex_compare (fields a) (fields b)); try discriminate;
    destruct (lex_compare (fields b) (fields c)); try discriminate;
    destruct (lex_compare (fields a) (fields c)); try reflexivity;
    exfalso; apply Ht; congruence.
Qed.

(** The cutoffs of one clock reading are ordered against the numbers of
    days. *)
Lemma sub_days_compare (d c1 c2 : datetime) (n1 n2 : Z) :
  sub_days d n1 = Ok c1 -> sub_days d n2 = Ok c2 ->
  Datetime.compare c1 c2 = (n2 ?= n1).
Proof.
  unfold sub_days.
  destruct (999999999 <? Z.abs n1); [discriminate|].
  destruct (999999999 <? Z.abs n2); [discriminate|].
  destruct ((0 <? toordinal d - n1) && (toordinal d - n1 <=? MAXORDINAL)) eqn:R1; [|discriminate].
  destruct ((0 <? toordinal d - n2) && (toordinal d - n2 <=? MAXORDINAL)) eqn:R2; [|discriminate].
  apply andb_true_iff in R1, R2. destruct R1 as [A1 B1], R2 as [A2 B2].
  apply Z.ltb_lt in A1, A2. apply Z.leb_le in B1, B2.
  destruct (ord2ymd (toordinal d - n1)) as [[y1 m1] dd1] eqn:E1.
  destruct (ord2ymd (toordinal d - n2)) as [[y2 m2] dd2] eqn:E2.
  intros [= <-] [= <-]. unfold Datetime.compare, fields.
  cbn [year month day hour minute second microsecond].
  rewrite lex_compare_app3.
  assert (R1 : 1 <= toordinal d - n1 <= MAXORDINAL) by lia.
  assert (R2 : 1 <= toordinal d - n2 <= MAXORDINAL) by lia.
  rewrite (ord2ymd_compare _ _ _ _ _ _ _ _ R1 R2 E1 E2).
  rewrite lex_compare_refl.
  destruct (Z.compare_spec (toordinal d - n1) (toordinal d - n2)); symmetry;
    [apply Z.compare_eq_iff | apply Z.compare_lt_iff | apply Z.compare_gt_iff]; lia.
Qed.

Lemma toordinal_range (d : datetime) : Datetime.wf d -> 1 <= toordinal d <= MAXORDINAL.
Proof.
  intros (Hy & Hm & Hd & _). apply (ymd_ordinal_range (year d) (month d) (day d)).
  repeat split; lia.
Qed.

Lemma ord2ymd_toordinal (d : datetime) :
  Datetime.wf d -> ord2ymd (toordinal d) = (year d, month d, day d).
Proof.
  intros Hwf. pose proof (toordinal_range d Hwf) as Hr.
  destruct (ord2ymd (toordinal d)) as [[y m] dd] eqn:E.
  pose proof (ord2ymd_valid _ _ _ _ Hr E) as Hv.
  pose proof (ord2ymd_ordinal _ _ _ _ Hr E) as Ho.
  assert (Hv' : valid_date (year d) (month d) (day d))
    by (destruct Hwf as (? & ? & ? & _); repeat split; lia).
  pose proof (ymd_ordinal_compare y m dd (year d) (month d) (day d) Hv Hv') as Hc.
  unfold toordinal in Ho. unfold ymd_ordinal in Hc at 2. rewrite Ho, Z.compare_refl in Hc.
  apply lex_compare_eq in Hc. congruence.
Qed.

(** A window of no days: the cutoff is the clock reading itself. *)
Lemma sub_days_zero (d : datetime) : Datetime.wf d -> sub_days d 0 = Ok d.
Proof.
  intros Hwf. unfold sub_days. simpl Z.abs. cbn [Z.ltb Z.compare].
  rewrite Z.sub_0_r. pose proof (toordinal_range d Hwf) as Hr.
  destruct (Z.ltb_spec 0 (toordinal d)); [|lia].
  destruct (Z.leb_spec (toordinal d) MAXORDINAL); [|lia]. simpl.
  rewrite (ord2ymd_toordinal d Hwf). destruct d; reflexivity.
Qed.

End CalendarFacts.

(** ** Whole numbers as binary64 *)

Module FloatExact.

Lemma digits2_iter_xO (m k : positive) :
  Z.pos (digits2_pos (Pos.iter xO m k)) = Z.pos (digits2_pos m) + Z.pos k.
Proof.
  induction k as [|k IH] using Pos.peano_ind.
  - simpl. lia.
  - rewrite Pos.iter_succ. simpl digits2_pos. lia.
Qed.

Lemma iter_xO_pow (m k : positive) :
  Z.pos (Pos.iter xO m k) = Z.pos m * 2 ^ Z.pos k.
Proof.
  induction k as [|k IH] using Pos.peano_ind.
  - simpl. lia.
  - rewrite Pos.iter_succ, Pos2Z.inj_xO, IH, Pos2Z.inj_succ, Z.pow_succ_r by lia. lia.
Qed.

Lemma digits2_bound (m : positive) : Z.pos m < 2 ^ Z.pos (digits2_pos m).
Proof.
  induction m as [m IH|m IH|]; simpl digits2_pos.
  - rewrite Pos2Z.inj_succ, Z.pow_succ_r by lia. lia.
  - rewrite Pos2Z.inj_succ, Z.pow_succ_r by lia. lia.
  - simpl. lia.
Qed.

Lemma digits2_le (m : positive) (n : Z) :
  0 <= n -> Z.pos m < 2 ^ n -> Z.pos (digits2_pos m) <= n.
Proof.
  revert n. induction m as [m IH|m IH|]; intros n Hn Hm; simpl digits2_pos.
  - destruct (Z.eq_dec n 0) as [->|]; [simpl in Hm; lia|].
    replace n with (Z.succ (n - 1)) in Hm by lia. rewrite Z.pow_succ_r in Hm by lia.
    specialize (IH (n - 1) ltac:(lia) ltac:(lia)). lia.
  - destruct (Z.eq_dec n 0) as [->|]; [simpl in Hm; lia|].
    replace n with (Z.succ (n - 1)) in Hm by lia. rewrite Z.pow_succ_r in Hm by lia.
    specialize (IH (n - 1) ltac:(lia) ltac:(lia)). lia.
  - destruct (Z.eq_dec n 0) as [->|]; [simpl in Hm; lia|]. simpl. lia.
Qed.

Lemma binary_round_small (s : bool) (m : positive) :
  Z.pos m < 2 ^ 53 ->
  exists m' e, binary_round prec emax s m 0 = S754_finite s m' e /\
               e <= 0 /\ Z.pos m' = Z.pos m * 2 ^ (- e).
Proof.
  intros Hm. pose proof (digits2_le m 53 ltac:(lia) Hm) as Hd.
  unfold binary_round, shl_align, fexp, emin, prec, emax.
  rewrite Z.add_0_r. rewrite Z.max_l by lia. rewrite Z.sub_0_r.
  destruct (Z.pos (digits2_pos m) - 53) as [|p|k] eqn:Ek; [| lia |].
  - (* exactly 53 digits *)
    unfold binary_round_aux, shr_fexp, fexp, emin. cbn [Zdigits2].
    replace (Z.max (Z.pos (digits2_pos m) + 0 - 53) (3 - 1024 - 53) - 0) with 0 by lia.
    cbn [shr shr_record_of_loc shr_m loc_of_shr_record round_nearest_even Zdigits2].
    replace (Z.max (Z.pos (digits2_pos m) + 0 - 53) (3 - 1024 - 53) - 0) with 0 by lia.
    cbn [shr shr_record_of_loc shr_m].
    exists m, 0. repeat split; simpl; lia.
  - unfold binary_round_aux, shr_fexp, fexp, emin. cbn [Zdigits2].
    pose proof (digits2_iter_xO m k) as Hk.
    replace (Z.max (Z.pos (digits2_pos (Pos.iter xO m k)) + Z.neg k - 53) (3 - 1024 - 53) - Z.neg k) with 0 by lia.
    cbn [shr shr_record_of_loc shr_m loc_of_shr_record round_nearest_even Zdigits2].
    replace (Z.max (Z.pos (digits2_pos (Pos.iter xO m k)) + Z.neg k - 53) (3 - 1024 - 53) - Z.neg k) with 0 by lia.
    cbn [shr shr_record_of_loc shr_m].
    destruct (Z.leb_spec (Z.neg k) (1024 - 53)); [|lia].
    exists (Pos.iter xO m k), (Z.neg k). repeat split; [lia|].
    rewrite iter_xO_pow. reflexivity.
Qed.

Lemma shiftl_back (m : positive) (e : Z) (a : Z) :
  e <= 0 -> a = Z.pos m * 2 ^ (- e) -> Z.shiftl a e = Z.pos m.
Proof.
  intros He ->. rewrite <- (Z.opp_involutive e) at 2.
  rewrite Z.shiftl_opp_r, Z.shiftr_div_pow2 by lia.
  apply Z.div_mul. apply Z.pow_nonzero; lia.
Qed.

Lemma int_of_float_of_Z (z : Z) :
  Z.abs z < 2 ^ 53 ->
  Py.int_of_float (PyFloat.of_Z z) = Ok z /\
  PyFloat.is_nan (PyFloat.of_Z z) = false /\
  (forall s, PyFloat.of_Z z <> S754_infinity s).
Proof.
  intros Hz. unfold PyFloat.of_Z, binary_normalize. destruct z as [|m|m].
  - repeat split; discriminate.
  - destruct (binary_round_small false m ltac:(lia)) as (m' & e & -> & He & Hm').
    repeat split; try discriminate. simpl. f_equal. apply shiftl_back; assumption.
  - destruct (binary_round_small true m ltac:(lia)) as (m' & e & -> & He & Hm').
    repeat split; try discriminate. simpl. f_equal.
    rewrite (shiftl_back m e (Z.pos m') He Hm'). reflexivity.
Qed.

End FloatExact.

(** ** The window of the news fetcher *)

Module Lookback.
Import NewsFetcher CalendarFacts.

Section Facts.
Context `{StrToFloat} `{IsoParser} {W : Type}.
Variable handle : forall ev : event, W -> result (reply ev) * W.

Lemma process_kept (n : pyval) (lb : Z) (w w' : W) (now : datetime) (it : NewsItem) :
  handle Now w = (Ok now, w') ->
  res (run handle (process n lb) w) = Ok (Some it) ->
  exists x d cutoff,
    extract n = Ok x /\
    PyStr.is_empty (x_title x) || negb (Py.truthy (x_link x)) = false /\
    x_dt x = Some d /\ sub_days now lb = Ok cutoff /\
    Datetime.geb d cutoff = true /\ it = item_of x.
Proof.
  intros Hnow. unfold process. intros Hr. apply bind_returns in Hr.
  destruct Hr as (x & Hx & Hr). rewrite run_lift in Hx. rewrite run_lift_final in Hr.
  destruct (PyStr.is_empty (x_title x) || negb (Py.truthy (x_link x))) eqn:E;
    [discriminate|].
  destruct (x_dt x) as [d|] eqn:Hd; [|discriminate].
  simpl in Hr. rewrite Hnow in Hr. simpl in Hr.
  destruct (sub_days now lb) as [cutoff|e] eqn:Hc; [|discriminate]. simpl in Hr.
  destruct (Datetime.geb d cutoff) eqn:Hg; [|discriminate]. injection Hr as <-.
  exists x, d, cutoff. repeat split; assumption || reflexivity.
Qed.

Lemma parse_epoch_exact (z : Z) :
  Z.abs z < 2 ^ 53 -> _parse_epoch_to_dt (VInt z) = fromtimestamp z.
Proof.
  intros Hz. destruct (FloatExact.int_of_float_of_Z z Hz) as (Hi & _ & Hinf).
  unfold _parse_epoch_to_dt, Py.to_float.
  destruct (PyFloat.of_Z z) eqn:Ef; unfold rbind; cbv iota beta;
    try (rewrite Hi; reflexivity).
  exfalso. eapply Hinf. reflexivity.
Qed.

(** X10. A record that a window of [lb1] days keeps is
    kept, as the same item, by every wider window whose cutoff the
    calendar still holds. *)
Theorem wider_window_keeps (n : pyval) (lb1 lb2 : Z) (w w' : W)
    (now c2 : datetime) (it : NewsItem) :
  handle Now w = (Ok now, w') ->
  lb1 <= lb2 -> sub_days now lb2 = Ok c2 ->
  res (run handle (process n lb1) w) = Ok (Some it) ->
  res (run handle (process n lb2) w) = Ok (Some it).
Proof.
  intros Hnow Hle Hc2 Hr.
  destruct (process_kept n lb1 w w' now it Hnow Hr) as (x & d & c1 & Hx & E & Hd & Hc1 & Hg & ->).
  rewrite (FetcherFacts.run_process_recent handle n lb2 x w w' d now c2 Hx E Hd Hnow Hc2).
  assert (Hcc : Datetime.geb c1 c2 = true).
  { unfold Datetime.geb. rewrite (sub_days_compare now c1 c2 lb1 lb2 Hc1 Hc2).
    destruct (Z.compare_spec lb2 lb1); try reflexivity. lia. }
  rewrite (geb_trans d c1 c2 Hg Hcc). reflexivity.
Qed.

(** X11. With a window of no days the cutoff is the reading of
    the clock: a record with a title, a link and a time is kept exactly
    when its time is not before the clock. *)
Theorem zero_window (n : pyval) (x : extracted) (d now : datetime) (w w' : W) :
  Datetime.wf now -> handle Now w = (Ok now, w') ->
  extract n = Ok x -> x_title x <> "" -> Py.truthy (x_link x) = true ->
  x_dt x = Some d ->
  res (run handle (process n 0) w)
  = Ok (if Datetime.geb d now then Some (item_of x) else None).
Proof.
  intros Hwf Hnow Hx Ht Hl Hd.
  apply (FetcherFacts.run_process_recent handle n 0 x w w' d now now Hx); try assumption.
  - rewrite Hl. destruct (x_title x); [congruence | reflexivity].
  - apply sub_days_zero, Hwf.
Qed.

(** X12. Of a whole number of seconds below 2^53 in size,
    [_parse_epoch_to_dt] gives the time of the calendar that many seconds
    from the epoch, exactly; it gives [None] exactly when that time is
    before the year 1 or after the year 9999. *)
Theorem parse_epoch_int (z : Z) :
  Z.abs z < 2 ^ 53 ->
  _parse_epoch_to_dt (VInt z) = fromtimestamp z /\
  (_parse_epoch_to_dt (VInt z) <> None <-> -62135596800 <= z <= 253402300799).
Proof.
  intros Hz. pose proof (parse_epoch_exact z Hz) as E.
  split; [exact E|]. rewrite E. unfold fromtimestamp, MAXORDINAL.
  destruct (Z.leb_spec 1 (z / 86400 + 719163)), (Z.leb_spec (z / 86400 + 719163) 3652059); simpl.
  - destruct (ord2ymd _) as [[? ?] ?]. split; [intros _|discriminate].
    Z.div_mod_to_equations. lia.
  - split; [congruence|]. intros. exfalso. Z.div_mod_to_equations. lia.
  - split; [congruence|]. intros. exfalso. Z.div_mod_to_equations. lia.
  - split; [congruence|]. intros. exfalso. Z.div_mod_to_equations. lia.
Qed.

(** X13. Two times read from whole numbers of
    seconds are ordered as the numbers are, and so are their ISO texts,
    which is the key of the sort. *)
Theorem epoch_order_is_string_order (z1 z2 : Z) (d1 d2 : datetime) :
  Z.abs z1 < 2 ^ 53 -> Z.abs z2 < 2 ^ 53 ->
  _parse_epoch_to_dt (VInt z1) = Some d1 -> _parse_epoch_to_dt (VInt z2) = Some d2 ->
  Datetime.compare d1 d2 = (z1 ?= z2) /\
  String.compare (isoformat d1) (isoformat d2) = (z1 ?= z2).
Proof.
  intros H1 H2 E1 E2.
  pose proof (FetcherFacts.parse_epoch_wf _ _ E1) as W1.
  pose proof (FetcherFacts.parse_epoch_wf _ _ E2) as W2.
  rewrite (parse_epoch_exact z1 H1) in E1.
  rewrite (parse_epoch_exact z2 H2) in E2.
  rewrite (DatetimeFacts.isoformat_compare d1 d2 W1 W2).
  split; apply (fromtimestamp_order z1 z2 d1 d2 E1 E2).
Qed.
End Facts.
End Lookback.

(** ** The order of the fetched items *)

Section SortMore.
Context {A K : Type} (lt : K -> K -> bool) (key : A -> K).

Lemma insert_desc_perm (x : A) (l : list A) : Permutation (x :: l) (insert_desc lt key x l).
Proof.
  induction l as [|y l IH]; simpl; [reflexivity|].
  destruct (lt (key x) (key y)); [|reflexivity].
  rewrite perm_swap. apply perm_skip, IH.
Qed.

Lemma sort_desc_perm (l : list A) : Permutation l (sort_desc lt key l).
Proof.
  induction l as [|x l IH]; simpl; [reflexivity|].
  rewrite <- insert_desc_perm. apply perm_skip, IH.
Qed.

Lemma sorted_cut (k : nat) (l : list A) :
  StronglySorted (not_before lt key) l ->
  forall a b, In a (firstn k l) -> In b (skipn k l) -> not_before lt key a b.
Proof.
  intros Hs. revert k. induction Hs as [|z l Hs IH Hz]; intros [|k] a b; simpl; try tauto.
  intros [<-|Ha] Hb.
  - rewrite List.Forall_forall in Hz. apply Hz.
    clear -Hb. revert l Hb. induction k as [|k IHk]; intros [|y l]; simpl; try tauto.
    intros Hb. right. apply IHk, Hb.
  - eapply IH; eassumption.
Qed.

Variable same : K -> K -> bool.
Hypothesis same_spec : forall a b, same a b = true <-> a = b.
Hypothesis lt_irrefl : forall a, lt a a = false.

Lemma insert_desc_filter (v : K) (x : A) (l : list A) :
  List.filter (fun y => same (key y) v) (insert_desc lt key x l)
  = List.filter (fun y => same (key y) v) (x :: l).
Proof.
  induction l as [|y l IH]; [reflexivity|].
  cbn [insert_desc]. destruct (lt (key x) (key y)) eqn:E; [|reflexivity].
  cbn [List.filter] in *. rewrite IH.
  destruct (same (key x) v) eqn:Ex, (same (key y) v) eqn:Ey; try reflexivity.
  apply same_spec in Ex, Ey. rewrite Ex, Ey, lt_irrefl in E. discriminate.
Qed.

Lemma sort_desc_stable (v : K) (l : list A) :
  List.filter (fun y => same (key y) v) (sort_desc lt key l)
  = List.filter (fun y => same (key y) v) l.
Proof.
  induction l as [|x l IH]; [reflexivity|].
  cbn [sort_desc fold_right]. fold (sort_desc lt key l).
  rewrite insert_desc_filter. cbn [List.filter]. rewrite IH. reflexivity.
Qed.
End SortMore.

Lemma str_ltb_irrefl (s : string) : PyStr.ltb s s = false.
Proof. unfold PyStr.ltb, String.ltb. rewrite DatetimeFacts.str_compare_refl. reflexivity. Qed.

Module FetchOrder.
Import NewsFetcher.

Section Facts.
Context `{StrToFloat} `{IsoParser} {W : Type}.
Variable handle : forall ev : event, W -> result (reply ev) * W.

(** X14. A list that a fetch returns is made of the reply of the provider
    to the attempt that returned (the first attempt, when that one
    returns) and of the items that the loop collected from it: with what
    the truncation cuts off, it is a rearrangement of these items,
    sorted by time, the newest first, in which items of equal time keep
    the order in which the provider sent them; the list returned is the
    first [max(0, top_k)] of them, or all when they are fewer. So no
    item cut off is newer than one returned, and nothing is cut off when
    the items are at most [top_k]. *)
Theorem fetch_keeps_newest (ticker : string) (lb top_k : Z) (w : W) (out : list NewsItem) :
  res (run handle (fetch_recent_news ticker lb top_k) w) = Ok out ->
  exists w0 w1 v raw items dropped,
    (forall o1, res (run handle (fetch_once ticker lb top_k) w) = Ok o1 -> w0 = w) /\
    handle (TickerNews ticker) w0 = (Ok v, w1) /\
    Py.or_ v (VList []) = VList raw /\
    res (run handle (collect raw lb []) w1) = Ok items /\
    Permutation items (out ++ dropped) /\
    StronglySorted (not_before PyStr.ltb published_at) (out ++ dropped) /\
    (forall t, List.filter (fun it => String.eqb (published_at it) t) (out ++ dropped)
               = List.filter (fun it => String.eqb (published_at it) t) items) /\
    length out = Nat.min (Z.to_nat (Z.max 0 top_k)) (length items) /\
    (forall a b, In a out -> In b dropped ->
       PyStr.ltb (published_at a) (published_at b) = false) /\
    (Z.of_nat (length items) <= top_k -> dropped = []).
Proof.
  intros Hr. apply FetcherFacts.fetch_reply in Hr.
  destruct Hr as (w0 & w1 & v & raw & items & Hfirst & Hh & Hor & Hi & ->).
  unfold slice_to. set (s := sort_desc PyStr.ltb published_at items).
  set (k := Z.to_nat (Z.max 0 top_k)).
  assert (Hs : StronglySorted (not_before PyStr.ltb published_at) s)
    by (apply sort_desc_sorted;
        [apply StrFacts.str_ltb_asym | apply StrFacts.str_ge_trans]).
  exists w0, w1, v, raw, items, (skipn k s).
  split; [exact Hfirst|]. split; [exact Hh|]. split; [exact Hor|]. split; [exact Hi|].
  rewrite firstn_skipn. split; [apply sort_desc_perm|]. split; [exact Hs|].
  split; [intros t; apply sort_desc_stable; [apply String.eqb_eq | apply str_ltb_irrefl]|].
  split; [rewrite length_firstn; unfold s; rewrite sort_desc_length; reflexivity|].
  split; [apply sorted_cut, Hs|].
  intros Hl. apply skipn_all2. unfold s. rewrite sort_desc_length. lia.
Qed.
End Facts.
End FetchOrder.

(** ** The sentiment chain, with a model *)

Module ChainMore.
Import SentimentSchema SentimentChain.

Section Facts.
Context `{StrToFloat} `{SchemaFloat} {W : Type}.
Variable handle : forall ev : event, W -> result (reply ev) * W.

(** What the schema returns of an answer. *)
Lemma validate_returns (o : llm_output) (r : SentimentResult) :
  validate o = Ok r ->
  company_name r = o_company_name o /\ stock_code r = o_stock_code o /\
  newsdesc r = o_newsdesc o /\ label_of (o_sentiment o) = Some (sentiment r) /\
  match o_confidence_score o with
  | Some v => exists f, validate_float v = Ok f /\
                        confidence_score r = max2 f0_0 (min2 f1_0 f)
  | None => confidence_score r = f0_5
  end.
Proof.
  unfold validate. destruct (label_of (o_sentiment o)) as [l|]; [|discriminate].
  intros Hr. apply SchemaFacts.init_returns in Hr.
  destruct Hr as (Hc & Hs & Hn & Hl & Hf). rewrite Hl. repeat split; assumption.
Qed.

Lemma validate_refuses (o : llm_output) :
  label_of (o_sentiment o) = None \/
  (exists v e, o_confidence_score o = Some v /\ validate_float v = Err e) ->
  validate o = Err ValidationError.
Proof.
  unfold validate. intros [->|(v & e & Hv & He)]; [reflexivity|].
  destruct (label_of (o_sentiment o)); [|reflexivity].
  unfold SentimentResult_init. rewrite Hv, He. simpl.
  f_equal. eapply SchemaFacts.validate_float_refuses, He.
Qed.

Lemma analyze_confidence_bounds (company code news : string) (w : W) (r : SentimentResult) :
  res (run handle (analyze_sentiment company code news) w) = Ok r ->
  PyFloat.leb f0_0 (confidence_score r) = true /\ PyFloat.leb (confidence_score r) f1_0 = true.
Proof.
  unfold analyze_sentiment. destruct (PyStr.is_empty (PyStr.strip news)).
  - rewrite run_lift, ChainFacts.fallback_constructed.
    intros [= <-]. split; reflexivity.
  - intros Hr. apply bind_returns in Hr. destruct Hr as (_ & _ & Hr).
    apply bind_returns in Hr. destruct Hr as (o & _ & Hr).
    rewrite run_lift in Hr. unfold validate in Hr.
    destruct (label_of (o_sentiment o)); [|discriminate].
    eapply SchemaFacts.init_in_range, Hr.
Qed.

(** X15. Whatever the model answers, the confidence
    of a result that [analyze_sentiment] returns lies between 0.0 and
    1.0. *)
Theorem analyze_confidence_range (company code news : string) (w : W) (r : SentimentResult) :
  res (run handle (analyze_sentiment company code news) w) = Ok r ->
  PyFloat.leb f0_0 (confidence_score r) = true /\ PyFloat.leb (confidence_score r) f1_0 = true.
Proof. apply analyze_confidence_bounds. Qed.

(** X16. For a digest that is not blank the chain gets the
    model and invokes it once, with the system prompt and the human
    message that holds the digest itself; the answer goes through the
    schema: a label other than Positive, Negative and Neutral is an
    error, and so is a confidence that is no number; a result returned
    has the company, the code, the digest and the label of the answer,
    and its confidence clamped (0.5 when the answer has none). *)
Theorem analyze_asks_model (company code news : string) (w w1 w2 : W) (o : llm_output) :
  PyStr.all_chars PyStr.is_space news = false ->
  handle (GetChatModel "gemini-2.0-flash") w = (Ok tt, w1) ->
  handle (Invoke "gemini-2.0-flash"
            [SystemMessage SYSTEM_PROMPT; HumanMessage (human_message company code news)]) w1
  = (Ok o, w2) ->
  let out := run handle (analyze_sentiment company code news) w in
  calls out = [GetChatModel "gemini-2.0-flash";
               Invoke "gemini-2.0-flash"
                 [SystemMessage SYSTEM_PROMPT; HumanMessage (human_message company code news)]] /\
  res out = validate o /\
  (label_of (o_sentiment o) = None -> res out = Err ValidationError) /\
  (forall v e, o_confidence_score o = Some v -> validate_float v = Err e ->
     res out = Err ValidationError) /\
  (forall r, res out = Ok r ->
     company_name r = o_company_name o /\ stock_code r = o_stock_code o /\
     newsdesc r = o_newsdesc o /\ label_of (o_sentiment o) = Some (sentiment r) /\
     match o_confidence_score o with
     | Some v => exists f, validate_float v = Ok f /\
                           confidence_score r = max2 f0_0 (min2 f1_0 f)
     | None => confidence_score r = f0_5
     end).
Proof.
  intros Hb Hm Hi. cbv zeta.
  assert (Hrun : calls (run handle (analyze_sentiment company code news) w)
                 = [GetChatModel "gemini-2.0-flash";
                    Invoke "gemini-2.0-flash"
                      [SystemMessage SYSTEM_PROMPT;
                       HumanMessage (human_message company code news)]] /\
                 res (run handle (analyze_sentiment company code news) w) = validate o).
  { unfold analyze_sentiment, build_prompt.
    pose proof (TextFacts.strip_not_blank news Hb) as Hne.
    destruct (PyStr.strip news) eqn:Es; [contradiction|]. cbn [PyStr.is_empty].
    simpl. rewrite Hm. simpl. rewrite Hi. simpl. rewrite run_lift.
    split; [|reflexivity]. destruct (validate o); reflexivity. }
  destruct Hrun as [Hc Hr]. rewrite Hr. split; [exact Hc|]. split; [reflexivity|].
  split; [|split].
  - intros Hl. apply validate_refuses. left; exact Hl.
  - intros v e Hv He. apply validate_refuses. right; eauto.
  - intros r. apply validate_returns.
Qed.

(** X17. When the model cannot be had, the chain raises
    the exception of the provider and invokes nothing: there is no
    fallback on this path. *)
Theorem analyze_model_failure (company code news : string) (w w1 : W) (e : exn) :
  PyStr.all_chars PyStr.is_space news = false ->
  handle (GetChatModel "gemini-2.0-flash") w = (Err e, w1) ->
  let out := run handle (analyze_sentiment company code news) w in
  res out = Err e /\ calls out = [GetChatModel "gemini-2.0-flash"].
Proof.
  intros Hb Hm. cbv zeta. unfold analyze_sentiment.
  pose proof (TextFacts.strip_not_blank news Hb) as Hne.
  destruct (PyStr.strip news) eqn:Es; [contradiction|]. simpl. rewrite Hm. split; reflexivity.
Qed.
End Facts.
End ChainMore.

(** ** Runs among other providers, and what every run ensures *)

Section EmbedFacts.
Context {E1 : Type} {R1 : E1 -> Type} {E2 : Type} {R2 : E2 -> Type}.
Context `{Embeds E1 R1 E2 R2} {W : Type}.
Variable handle : forall ev : E2, W -> result (R2 ev) * W.

Lemma run_translate {A} (p : io E1 R1 A) (w : W) :
  res (run handle (translate p) w) = res (run (restrict handle) p w) /\
  final (run handle (translate p) w) = final (run (restrict handle) p w) /\
  calls (run handle (translate p) w) = map inj (calls (run (restrict handle) p w)).
Proof.
  revert w. induction p as [a|e|ev k IH]; intros w;
    try (repeat split; reflexivity).
  cbn [run translate].
  destruct (handle (inj ev) w) as [r w'] eqn:Eh.
  assert (Er : restrict handle ev w = (back ev r, w'))
    by (unfold restrict; rewrite Eh; reflexivity).
  rewrite Er. cbn [res final calls].
  destruct (IH (back ev r) w') as (-> & -> & ->). repeat split; reflexivity.
Qed.

Lemma run_translate_res {A} (p : io E1 R1 A) (w : W) :
  res (run handle (translate p) w) = res (run (restrict handle) p w).
Proof. apply run_translate. Qed.

Lemma run_translate_calls {A} (p : io E1 R1 A) (w : W) :
  calls (run handle (translate p) w) = map inj (calls (run (restrict handle) p w)).
Proof. apply run_translate. Qed.
End EmbedFacts.

Section HoldsFacts.
Context {E : Type} {R : E -> Type} {W : Type}.
Variable handle : forall ev : E, W -> result (R ev) * W.

Lemma holds_bind {A B} (p : io E R A) (f : A -> io E R B)
    (P : result A -> list E -> Prop) (Pf : A -> result B -> list E -> Prop)
    (post : result B -> list E -> Prop) :
  holds handle p P ->
  (forall a, holds handle (f a) (Pf a)) ->
  (forall e t, P (Err e) t -> post (Err e) t) ->
  (forall a t1 r t2, P (Ok a) t1 -> Pf a r t2 -> post r (t1 ++ t2)) ->
  holds handle (bind p f) post.
Proof.
  intros Hp Hf He Hok w. rewrite run_bind_res, run_bind_calls.
  specialize (Hp w). destruct (res (run handle p w)) as [a|e]; [|apply He, Hp].
  eapply Hok; [exact Hp | apply Hf].
Qed.

Lemma ensures_ret {A} (a : A) (Q : A -> Prop) (T : E -> Prop) :
  Q a -> ensures handle (Ret a) Q T.
Proof. intros Hq w. simpl. split; [constructor|]. intros a' [= <-]. exact Hq. Qed.

Lemma ensures_raise {A} (e : exn) (Q : A -> Prop) (T : E -> Prop) :
  ensures handle (Raise e) Q T.
Proof. intros w. simpl. split; [constructor | discriminate]. Qed.

Lemma ensures_lift {A} (r : result A) (Q : A -> Prop) (T : E -> Prop) :
  (forall a, r = Ok a -> Q a) -> ensures handle (lift r) Q T.
Proof. destruct r; intros Hq; [apply ensures_ret; auto | apply ensures_raise]. Qed.

Lemma ensures_bind {A B} (p : io E R A) (f : A -> io E R B)
    (Q : A -> Prop) (Q' : B -> Prop) (T : E -> Prop) :
  ensures handle p Q T ->
  (forall a, Q a -> ensures handle (f a) Q' T) ->
  ensures handle (bind p f) Q' T.
Proof.
  intros Hp Hf w. rewrite run_bind_res, run_bind_calls.
  destruct (Hp w) as [Ht Hq]. destruct (res (run handle p w)) as [a|e].
  - destruct (Hf a (Hq a eq_refl) (final (run handle p w))) as [Ht' Hq'].
    split; [apply List.Forall_app; split; assumption | exact Hq'].
  - split; [exact Ht | discriminate].
Qed.

Lemma ensures_try_catch {A} (p : io E R A) (h : exn -> io E R A)
    (Q : A -> Prop) (T : E -> Prop) :
  ensures handle p Q T -> (forall e, ensures handle (h e) Q T) ->
  ensures handle (try_catch p h) Q T.
Proof.
  intros Hp Hh w. rewrite run_try_catch_res, run_try_catch_calls.
  destruct (Hp w) as [Ht Hq]. destruct (res (run handle p w)) as [a|e].
  - split; assumption.
  - destruct (Hh e (final (run handle p w))) as [Ht' Hq'].
    split; [apply List.Forall_app; split; assumption | exact Hq'].
Qed.

Lemma ensures_weaken {A} (p : io E R A) (Q Q' : A -> Prop) (T T' : E -> Prop) :
  ensures handle p Q T -> (forall a, Q a -> Q' a) -> (forall ev, T ev -> T' ev) ->
  ensures handle p Q' T'.
Proof.
  intros Hp Hq Ht w. destruct (Hp w) as [H1 H2]. split.
  - eapply List.Forall_impl; [exact Ht | exact H1].
  - intros a Ha. apply Hq, H2, Ha.
Qed.

Lemma ensures_attempt {A} (p : io E R A) (Q : A -> Prop) (T : E -> Prop) :
  ensures handle p Q T ->
  ensures handle (attempt p) (fun r => forall a, r = Ok a -> Q a) T.
Proof.
  intros Hp. unfold attempt. apply ensures_try_catch.
  - eapply ensures_bind; [exact Hp|]. intros a Ha. apply ensures_ret. congruence.
  - intros e. apply ensures_ret. discriminate.
Qed.

Lemma ensures_try_finally {A} (p : io E R A) (c : io E R unit)
    (Q : A -> Prop) (T : E -> Prop) :
  ensures handle p Q T -> ensures handle c (fun _ => True) T ->
  ensures handle (try_finally p c) Q T.
Proof.
  intros Hp Hc. unfold try_finally.
  eapply ensures_bind; [apply ensures_attempt, Hp|]. intros r Hr.
  eapply ensures_bind; [exact Hc|]. intros _ _. apply ensures_lift, Hr.
Qed.

Lemma ensures_swallow (p : io E R unit) (T : E -> Prop) :
  ensures handle p (fun _ => True) T -> ensures handle (swallow p) (fun _ => True) T.
Proof.
  intros Hp. unfold swallow. apply ensures_try_catch; [exact Hp|].
  intros e. apply ensures_ret. exact I.
Qed.

Lemma ensures_vis {A} (ev : E) (k : result (R ev) -> io E R A)
    (Q : A -> Prop) (T : E -> Prop) :
  T ev -> (forall r w, fst (handle ev w) = r -> ensures handle (k r) Q T) ->
  ensures handle (Vis ev k) Q T.
Proof.
  intros Hev Hk w. simpl. destruct (handle ev w) as [r w'] eqn:Eh. simpl.
  destruct (Hk r w ltac:(rewrite Eh; reflexivity) w') as [Ht Hq].
  split; [constructor; assumption | exact Hq].
Qed.

Lemma ensures_call (ev : E) (Q : R ev -> Prop) (T : E -> Prop) :
  T ev -> (forall w v, fst (handle ev w) = Ok v -> Q v) ->
  ensures handle (call ev) Q T.
Proof.
  intros Hev Hq. apply ensures_vis; [exact Hev|]. intros [v|e] w Hr.
  - apply ensures_ret. eapply Hq, Hr.
  - apply ensures_raise.
Qed.
End HoldsFacts.

Section EnsuresTranslate.
Context {E1 : Type} {R1 : E1 -> Type} {E2 : Type} {R2 : E2 -> Type}.
Context `{Embeds E1 R1 E2 R2} {W : Type}.
Variable handle : forall ev : E2, W -> result (R2 ev) * W.

Lemma ensures_translate {A} (p : io E1 R1 A) (Q : A -> Prop)
    (T1 : E1 -> Prop) (T : E2 -> Prop) :
  ensures (restrict handle) p Q T1 -> (forall ev, T1 ev -> T (inj ev)) ->
  ensures handle (translate p) Q T.
Proof.
  intros Hp Ht w. rewrite run_translate_res, run_translate_calls.
  destruct (Hp w) as [H1 H2]. split; [|exact H2].
  apply List.Forall_forall. intros ev Hev. apply in_map_iff in Hev.
  destruct Hev as (ev1 & <- & Hin). rewrite List.Forall_forall in H1. apply Ht, H1, Hin.
Qed.

Lemma ensures_any {A} (p : io E1 R1 A) :
  ensures (restrict handle) p (fun _ => True) (fun _ => True).
Proof.
  intros w. split; [|auto]. apply List.Forall_forall. auto.
Qed.

Lemma ensures_translate_any {A} (p : io E1 R1 A) (T : E2 -> Prop) :
  (forall ev, T (inj ev)) -> ensures handle (translate p) (fun _ => True) T.
Proof.
  intros Ht. eapply ensures_translate; [apply ensures_any|]. auto.
Qed.
End EnsuresTranslate.

(** ** The settings *)

Module ConfigFacts.
Import Config.

Section Facts.
Context `{StrToInt} {W : Type}.
Variable handle : forall ev : event, W -> result (reply ev) * W.

Lemma get_settings_returns (s : Settings) (w : W) :
  res (run handle get_settings w) = Ok s ->
  google_api_key s <> "" /\ use_vertex s = false /\
  (exists v, fst (handle (GetEnv "GOOGLE_API_KEY") w) = Ok v /\
             google_api_key s = default "" v) /\
  calls (run handle get_settings w)
  = [GetEnv "GOOGLE_API_KEY"; GetEnv "GOOGLE_GENAI_USE_VERTEXAI";
     GetEnv "NEWS_LOOKBACK_DAYS"; GetEnv "NEWS_TOP_K"].
Proof.
  unfold get_settings, load. cbn [run bind call].
  destruct (handle (GetEnv "GOOGLE_API_KEY") w) as [[k|e] w1]; cbn; [|discriminate].
  destruct (handle (GetEnv "GOOGLE_GENAI_USE_VERTEXAI") w1) as [[v|e] w2]; cbn; [|discriminate].
  destruct (handle (GetEnv "NEWS_LOOKBACK_DAYS") w2) as [[d|e] w3]; cbn; [|discriminate].
  destruct (handle (GetEnv "NEWS_TOP_K") w3) as [[t|e] w4]; cbn; [|discriminate].
  destruct (PyStr.is_empty (default "" k)) eqn:Ek; cbn; [discriminate|].
  destruct (_as_bool v false) eqn:Ev; cbn; [discriminate|].
  intros [= <-]. cbn. repeat split; try assumption.
  - intros Hk. rewrite Hk in Ek. discriminate.
  - exists k. split; reflexivity.
Qed.

(** X18. Settings that [get_settings] returns have a key
    that is not empty and the Vertex switch off, and were read from the
    four variables of the environment, in the order of the fields. *)
Theorem settings_checked (s : Settings) (w : W) :
  res (run handle get_settings w) = Ok s ->
  google_api_key s <> "" /\ use_vertex s = false /\
  calls (run handle get_settings w)
  = [GetEnv "GOOGLE_API_KEY"; GetEnv "GOOGLE_GENAI_USE_VERTEXAI";
     GetEnv "NEWS_LOOKBACK_DAYS"; GetEnv "NEWS_TOP_K"].
Proof.
  intros Hr. destruct (get_settings_returns s w Hr) as (Hk & Hv & _ & Hc). auto.
Qed.

(** X19. In an environment that sets the key and leaves
    the Vertex switch unset, a number that is unset or that [int] does
    not read gives the default: a window of 7 days, 5 items. *)
Theorem settings_defaults (env : string -> option string) (key : string) (w : W) :
  (forall name w, handle (GetEnv name) w = (Ok (env name), w)) ->
  env "GOOGLE_API_KEY" = Some key -> key <> "" ->
  env "GOOGLE_GENAI_USE_VERTEXAI" = None ->
  (forall d, env "NEWS_LOOKBACK_DAYS" = Some d -> int_of_str d = None) ->
  (forall t, env "NEWS_TOP_K" = Some t -> int_of_str t = None) ->
  res (run handle get_settings w)
  = Ok {| google_api_key := key; use_vertex := false;
          news_lookback_days := 7; news_top_k := 5 |}.
Proof.
  intros Hh Hk Hne Hv Hd Ht. unfold get_settings, load. cbn [run bind call].
  rewrite !Hh. cbn. rewrite !Hh. cbn. rewrite !Hh. cbn. rewrite !Hh. cbn.
  rewrite Hk, Hv. cbn.
  assert (Ed : _as_int (env "NEWS_LOOKBACK_DAYS") 7 = 7).
  { unfold _as_int. destruct (env "NEWS_LOOKBACK_DAYS") as [d|]; [|reflexivity].
    rewrite (Hd d eq_refl). reflexivity. }
  assert (Et : _as_int (env "NEWS_TOP_K") 5 = 5).
  { unfold _as_int. destruct (env "NEWS_TOP_K") as [t|]; [|reflexivity].
    rewrite (Ht t eq_refl). reflexivity. }
  rewrite Ed, Et. destruct key; [congruence|]. reflexivity.
Qed.
End Facts.
End ConfigFacts.

(** ** The digest *)

Module DigestFacts.
Import NewsFetcher Digest.

Section Facts.
Context `{ObjToStr}.

Lemma bullet_head (it : NewsItem) :
  exists t, bullet it = String "-" (String " " t).
Proof. unfold bullet. cbn. eauto. Qed.

Lemma digest_head (it : NewsItem) (items : list NewsItem) :
  exists t, to_bulleted_newsdesc (it :: items) = String "-" t.
Proof.
  unfold to_bulleted_newsdesc. cbn [map join_lines].
  destruct (bullet_head it) as [t ->].
  destruct (map bullet items); cbn; eauto.
Qed.

Lemma digest_not_blank (it : NewsItem) (items : list NewsItem) :
  PyStr.is_empty (PyStr.strip (to_bulleted_newsdesc (it :: items))) = false.
Proof.
  destruct (digest_head it items) as [t Ht].
  pose proof (TextFacts.strip_not_blank (to_bulleted_newsdesc (it :: items))) as Hs.
  rewrite Ht in *. specialize (Hs eq_refl).
  destruct (PyStr.strip (String "-" t)); [congruence | reflexivity].
Qed.

(** X20. The digest is empty exactly when there is no item,
    and then only is it blank: a digest of items starts with the dash of
    its first bullet. *)
Theorem digest_blank_iff (items : list NewsItem) :
  (to_bulleted_newsdesc items = "" <-> items = []) /\
  (PyStr.strip (to_bulleted_newsdesc items) = "" <-> items = []).
Proof.
  destruct items as [|it items].
  - repeat split; reflexivity.
  - pose proof (digest_not_blank it items) as Hn.
    destruct (digest_head it items) as [t Ht].
    repeat split; try discriminate.
    + rewrite Ht. discriminate.
    + intros Hs. rewrite Hs in Hn. discriminate.
Qed.

(** X21. The bullet of an item whose time is the ISO text of a
    date of the calendar starts with a dash, a blank and the day of that
    date as [YYYY-MM-DD]. *)
Theorem bullet_date (it : NewsItem) (d : datetime) :
  Datetime.wf d -> published_at it = isoformat d ->
  exists t, bullet it
            = "- " +:+ digits 4 (year d) +:+ "-" +:+ digits 2 (month d)
              +:+ "-" +:+ digits 2 (day d) +:+ t.
Proof.
  intros Hwf Hp. unfold bullet. rewrite Hp, (DatetimeFacts.isoformat_digits d Hwf).
  cbn. eauto.
Qed.

Context `{StrToFloat} `{SchemaFloat} {W : Type}.
Variable handle : forall ev : SentimentChain.event, W -> result (SentimentChain.reply ev) * W.

(** X22. The chain, given the digest of the items,
    calls the language model exactly when there is an item; with none it
    returns the Neutral fallback. *)
Theorem digest_decides_fallback (company code : string) (items : list NewsItem) (w : W) :
  let o := run handle
             (SentimentChain.analyze_sentiment company code (to_bulleted_newsdesc items)) w in
  (calls o = [] <-> items = []) /\
  (items = [] -> res o = Ok (SentimentChain.fallback company code)) /\
  (items <> [] -> exists rest, calls o = SentimentChain.GetChatModel "gemini-2.0-flash" :: rest).
Proof.
  cbv zeta. unfold SentimentChain.analyze_sentiment. destruct items as [|it items].
  - cbn. repeat split; congruence.
  - rewrite (digest_not_blank it items). cbn [run bind call].
    destruct (handle _ w) as [[[]|e] w1]; cbn [calls];
      (split; [split; discriminate|]); (split; [discriminate|]); eauto.
Qed.
End Facts.

Section Snapshot.
Context {W : Type}.
Variable handle : forall ev : tool_event, W -> result (tool_reply ev) * W.

(** X23. The snapshot never raises: it is the answer of
    the tool, or [None] when the tool fails or was not imported; the tool
    is run at most once, and not at all when it was not imported. *)
Theorem snapshot_never_raises (has_tool : bool) (ticker : string) (w : W) :
  let o := run handle (optional_tool_snapshot has_tool ticker) w in
  (exists s, res o = Ok s) /\
  calls o = (if has_tool then [ToolRun ticker] else []) /\
  (has_tool = false -> res o = Ok None) /\
  (forall e, fst (handle (ToolRun ticker) w) = Err e -> res o = Ok None) /\
  (forall s, has_tool = true -> fst (handle (ToolRun ticker) w) = Ok s -> res o = Ok (Some s)).
Proof.
  cbv zeta. unfold optional_tool_snapshot. destruct has_tool; cbn.
  - destruct (handle (ToolRun ticker) w) as [[s|e] w1]; cbn;
      repeat split; intros; eauto; try discriminate;
      match goal with Hs : Ok _ = Ok _ |- _ => injection Hs as ->; reflexivity end.
  - repeat split; intros; eauto; discriminate.
Qed.
End Snapshot.
End DigestFacts.

(** ** The tracking utilities *)

Module MlflowFacts.
Import Mlflow.

Section Facts.
Context {E : Type} {R : E -> Type} `{Embeds event reply E R} {W : Type}.
Variable handle : forall ev : E, W -> result (R ev) * W.
Variable T : E -> Prop.
Hypothesis T_ml : forall ev : event, T (inj ev).

Lemma ensures_ml (ev : event) : ensures handle (ml ev) (fun _ => True) T.
Proof. apply ensures_translate_any, T_ml. Qed.

Lemma ensures_init_mlflow (experiment : string) (uri : option string) :
  ensures handle (init_mlflow experiment uri) (fun _ => True) T.
Proof.
  unfold init_mlflow.
  eapply ensures_bind with (Q := fun _ => True).
  - destruct uri as [u|]; [destruct (PyStr.is_empty u)|];
      try (apply ensures_ret; exact I). apply (ensures_ml (SetTrackingUri u)).
  - intros _ _. eapply ensures_bind; [apply (ensures_ml (SetExperiment experiment))|].
    intros _ _. apply ensures_swallow, (ensures_ml Autolog).
Qed.

Lemma ensures_log_text (path text : string) :
  ensures handle (log_text path text) (fun _ => True) T.
Proof. apply (ensures_ml (LogText text path)). Qed.

Lemma ensures_log_dict (path : string) (obj : pyval) :
  ensures handle (log_dict path obj) (fun _ => True) T.
Proof. apply (ensures_ml (LogDict obj path)). Qed.

Lemma ensures_with_run {A} (nested : bool) (name : string) (body : io E R A)
    (Q : A -> Prop) :
  ensures handle body Q T -> ensures handle (with_run nested name body) Q T.
Proof.
  intros Hb. unfold with_run.
  eapply ensures_bind; [apply (ensures_ml (StartRun nested name))|]. intros _ _.
  eapply ensures_bind; [apply ensures_attempt, Hb|]. intros [a|e] Hr.
  - eapply ensures_bind; [apply (ensures_ml (EndRun false))|].
    intros _ _. apply ensures_ret. auto.
  - eapply ensures_bind; [apply (ensures_ml (EndRun true))|].
    intros _ _. apply ensures_raise.
Qed.

Lemma ensures_span {A} (name : string) (params : list (string * pyval))
    (body : io E R A) (Q : A -> Prop) :
  ensures handle body Q T -> ensures handle (span name params body) Q T.
Proof.
  intros Hb. unfold span.
  eapply ensures_bind; [apply (ensures_ml Clock)|]. intros start _.
  apply ensures_with_run.
  eapply ensures_bind with (Q := fun _ => True).
  - destruct params; [apply ensures_ret; exact I | apply (ensures_ml (LogParams _))].
  - intros _ _. apply ensures_try_finally; [exact Hb|].
    eapply ensures_bind; [apply (ensures_ml Clock)|]. intros now _.
    eapply ensures_bind with (Q := fun _ => True); [apply ensures_lift; auto|].
    intros d _. apply (ensures_ml (LogMetric _ _)).
Qed.
End Facts.
End MlflowFacts.

Module PipelineFacts.
Import Pipeline SentimentSchema.

Section Facts.
Context `{StrToFloat} `{IsoParser} `{StrToInt} `{ObjToStr}.
Context `{SchemaFloat} `{StrUpper} {W : Type}.
Variable has_tool : bool.
Variable handle : forall ev : event, W -> result (reply ev) * W.

Lemma ensures_of_calls {E R A} (h : forall ev : E, W -> result (R ev) * W)
    (p : io E R A) (T : E -> Prop) :
  (forall w, Forall T (calls (run h p w))) -> ensures h p (fun _ => True) T.
Proof. intros Hc w. split; [apply Hc | auto]. Qed.

Section Stages.
Variable T : event -> Prop.
Hypothesis T_env : forall ev, T (Env ev).
Hypothesis T_ml : forall ev, T (Ml ev).
Hypothesis T_tool : forall ev, T (Tool ev).
Variable company : string.
Variable Qt : string -> Prop.
Variable Qn : string -> Prop.
Variable Qs : SentimentResult -> Prop.

Hypothesis resolved :
  ensures handle (translate (TickerResolver.resolve_ticker company "US" true))
    (fun cand => Qt (match cand with
                     | Some c => TickerResolver.symbol c
                     | None => company
                     end)) T.
Hypothesis fetched : forall ticker lb top_k,
  Qt ticker ->
  ensures handle (translate (NewsFetcher.fetch_recent_news ticker lb top_k))
    (fun items => Qn (Digest.to_bulleted_newsdesc items)) T.
Hypothesis analyzed : forall ticker news,
  Qt ticker -> Qn news ->
  ensures handle (translate (SentimentChain.analyze_sentiment company ticker news)) Qs T.

Lemma ensures_ml_call (ev : Mlflow.event) :
  ensures handle (Mlflow.ml ev) (fun _ => True) T.
Proof. exact (MlflowFacts.ensures_ml (H := embeds_ml) handle T T_ml ev). Qed.

Lemma ensures_ticker_stage : ensures handle (ticker_stage company) Qt T.
Proof.
  unfold ticker_stage. apply MlflowFacts.ensures_span; [exact T_ml|].
  eapply ensures_bind; [exact resolved|]. intros [c|] Hc.
  - eapply ensures_bind;
      [apply (ensures_ml_call (Mlflow.LogParams _))|].
    intros _ _. apply ensures_ret, Hc.
  - eapply ensures_bind;
      [apply (ensures_ml_call (Mlflow.LogParams _))|].
    intros _ _. apply ensures_ret, Hc.
Qed.

Lemma ensures_news_stage (ticker : string) (s : Config.Settings) :
  Qt ticker -> ensures handle (news_stage has_tool ticker s) Qn T.
Proof.
  intros Ht. unfold news_stage. apply MlflowFacts.ensures_span; [exact T_ml|].
  eapply ensures_bind; [apply fetched, Ht|]. intros items Hi.
  eapply ensures_bind; [apply MlflowFacts.ensures_log_text, T_ml|]. intros _ _.
  eapply ensures_bind; [apply MlflowFacts.ensures_log_dict, T_ml|]. intros _ _.
  eapply ensures_bind; [apply ensures_translate_any, T_tool|]. intros snapshot _.
  eapply ensures_bind with (Q := fun _ => True).
  - destruct snapshot as [t|]; [destruct (PyStr.is_empty t)|];
      try (apply ensures_ret; exact I).
    apply MlflowFacts.ensures_log_text, T_ml.
  - intros _ _. apply ensures_ret, Hi.
Qed.

Lemma ensures_sentiment_stage (ticker news : string) :
  Qt ticker -> Qn news -> ensures handle (sentiment_stage company ticker news) Qs T.
Proof.
  intros Ht Hn. unfold sentiment_stage. apply MlflowFacts.ensures_span; [exact T_ml|].
  eapply ensures_bind; [apply MlflowFacts.ensures_log_text, T_ml|]. intros _ _.
  eapply ensures_bind; [apply analyzed; assumption|]. intros r Hr.
  eapply ensures_bind; [apply MlflowFacts.ensures_log_dict, T_ml|]. intros _ _.
  eapply ensures_bind;
    [apply ensures_swallow, (ensures_ml_call (Mlflow.LogMetric _ _))|].
  intros _ _.
  apply ensures_ret, Hr.
Qed.

Lemma ensures_run_pipeline : ensures handle (run_pipeline has_tool company) Qs T.
Proof.
  unfold run_pipeline.
  eapply ensures_bind; [apply ensures_translate_any, T_env|]. intros s _.
  eapply ensures_bind; [apply MlflowFacts.ensures_init_mlflow, T_ml|]. intros _ _.
  apply MlflowFacts.ensures_with_run; [exact T_ml|].
  eapply ensures_bind; [apply ensures_ticker_stage|]. intros ticker Ht.
  eapply ensures_bind; [apply ensures_news_stage, Ht|]. intros news Hn.
  apply ensures_sentiment_stage; assumption.
Qed.
End Stages.
Lemma restrict_fst {E1 : Type} {R1 : E1 -> Type} `{Embeds E1 R1 event reply}
    (ev : E1) (w : W) :
  fst (restrict handle ev w) = back ev (fst (handle (inj ev) w)).
Proof. unfold restrict. destruct (handle (inj ev) w). reflexivity. Qed.

Lemma fetch_nothing (ticker : string) (lb top_k : Z) (w : W)
    (h : forall ev : NewsFetcher.event, W -> result (NewsFetcher.reply ev) * W)
    (out : list NewsFetcher.NewsItem) :
  (forall w v, fst (h (NewsFetcher.TickerNews ticker) w) = Ok v -> Py.truthy v = false) ->
  res (run h (NewsFetcher.fetch_recent_news ticker lb top_k) w) = Ok out -> out = [].
Proof.
  intros Hn Hr. apply retry_returns in Hr. destruct Hr as (w0 & Hr).
  unfold NewsFetcher.fetch_once in Hr. apply bind_returns in Hr.
  destruct Hr as (v & Hv & Hr).
  assert (Hf : fst (h (NewsFetcher.TickerNews ticker) w0) = Ok v).
  { simpl in Hv. destruct (h (NewsFetcher.TickerNews ticker) w0) as [[v'|e] w1];
      simpl in *; congruence. }
  apply Hn in Hf. unfold Py.or_ in Hr. rewrite Hf in Hr. simpl in Hr.
  injection Hr as <-. unfold slice_to. destruct (Z.to_nat _); reflexivity.
Qed.

(** X24. Without an API key in the environment (unset or
    empty) the pipeline raises before it does anything else: every call
    it has made reads the environment. *)
Theorem pipeline_needs_key (company : string) (w : W) :
  (forall w v, fst (handle (Env (Config.GetEnv "GOOGLE_API_KEY")) w) = Ok v ->
               default "" v = "") ->
  let o := run handle (run_pipeline has_tool company) w in
  (exists e, res o = Err e) /\ Forall (fun ev => is_env_read ev = true) (calls o).
Proof.
  intros Hk. cbv zeta. unfold run_pipeline. rewrite run_bind_res, run_bind_calls.
  rewrite run_translate_res, run_translate_calls.
  destruct (res (run (restrict handle) Config.get_settings w)) as [s|e] eqn:Hs.
  - exfalso. destruct (ConfigFacts.get_settings_returns _ s w Hs) as (Hne & _ & (v & Hv & Hd) & _).
    rewrite restrict_fst in Hv. apply Hk in Hv. congruence.
  - split; [eauto|]. apply List.Forall_forall. intros ev Hev.
    apply in_map_iff in Hev. destruct Hev as (ev1 & <- & _). reflexivity.
Qed.

(** X25. For a company of the curated table the
    pipeline never searches, and every request for news it makes is for
    the symbol of the table. *)
Theorem pipeline_curated_ticker (company sym nm exch : string) (w : W) :
  TickerResolver.CURATED !! TickerResolver._norm company = Some (sym, nm, exch) ->
  Forall (fun ev => looks_up (eq sym) ev /\ is_search ev = false)
         (calls (run handle (run_pipeline has_tool company) w)).
Proof.
  intros Hk.
  refine (proj1 (ensures_run_pipeline
                   (fun ev => looks_up (eq sym) ev /\ is_search ev = false)
                   _ _ _ company (eq sym) (fun _ => True) (fun _ => True) _ _ _ w));
    try (intros ev; split; [exact I | reflexivity]).
  - unfold TickerResolver.resolve_ticker. rewrite Hk. apply ensures_ret. reflexivity.
  - intros ticker lb top_k <-.
    eapply ensures_translate.
    + apply ensures_of_calls. intros w0. apply FetchCalls.fetch_calls_of_ticker.
    + intros ev [->| ->]; simpl; auto.
  - intros ticker news _ _. apply ensures_translate_any.
    intros ev; split; [exact I | reflexivity].
Qed.

(** X26. For a company that is not curated and for
    which the search finds nothing, every request for news is made under
    the name of the company as it was given. *)
Theorem pipeline_unknown_ticker (company : string) (w : W) :
  TickerResolver.CURATED !! TickerResolver._norm company = None ->
  (forall w v, fst (handle (Resolve (TickerResolver.YahooSuggest company 8 "US")) w) = Ok v ->
               v = []) ->
  Forall (looks_up (eq company)) (calls (run handle (run_pipeline has_tool company) w)).
Proof.
  intros Hk Hs.
  refine (proj1 (ensures_run_pipeline (looks_up (eq company))
                   _ _ _ company (eq company) (fun _ => True) (fun _ => True) _ _ _ w));
    try (intros ev; exact I).
  - eapply ensures_translate with (T1 := fun _ => True); [|intros ev _; exact I].
    unfold TickerResolver.resolve_ticker. rewrite Hk.
    eapply ensures_bind
      with (Q := fun v : TickerResolver.reply (TickerResolver.YahooSuggest company 8 "US") =>
                   v = (@nil TickerResolver.TickerCandidate)).
    + apply ensures_call; [exact I|]. intros w0 v Hv. rewrite restrict_fst in Hv.
      apply (Hs w0 v Hv).
    + intros v ->. apply ensures_ret. reflexivity.
  - intros ticker lb top_k <-.
    eapply ensures_translate.
    + apply ensures_of_calls. intros w0. apply FetchCalls.fetch_calls_of_ticker.
    + intros ev [->| ->]; simpl; auto.
  - intros ticker news _ _. apply ensures_translate_any. intros ev; exact I.
Qed.

(** X27. When the news provider has nothing (its replies
    are [None] or empty), the pipeline never calls the language model,
    and what it returns is the Neutral fallback for the company. *)
Theorem pipeline_no_news (company : string) (w : W) :
  (forall w t v, fst (handle (News (NewsFetcher.TickerNews t)) w) = Ok v ->
                 Py.truthy v = false) ->
  let o := run handle (run_pipeline has_tool company) w in
  Forall (fun ev => is_model_call ev = false) (calls o) /\
  forall r, res o = Ok r ->
    exists ticker, r = SentimentChain.fallback company ticker.
Proof.
  intros Hn. cbv zeta.
  refine (ensures_run_pipeline (fun ev => is_model_call ev = false)
            _ _ _ company (fun _ => True) (fun news => news = "")
            (fun r => exists ticker, r = SentimentChain.fallback company ticker) _ _ _ w);
    try (intros ev; reflexivity).
  - apply ensures_translate_any. intros ev; reflexivity.
  - intros ticker lb top_k _.
    eapply ensures_translate with (T1 := fun _ => True); [|intros [t|] _; reflexivity].
    intros w0. split; [apply List.Forall_forall; auto|].
    intros items Hi. apply fetch_nothing in Hi; [subst items; reflexivity|].
    intros w1 v Hv. rewrite restrict_fst in Hv. apply (Hn w1 ticker v Hv).
  - intros ticker news _ ->. apply ensures_ret. eauto.
Qed.

(** X28. Whatever the providers answer, the
    confidence of a result that the pipeline returns lies between 0.0
    and 1.0. *)
Theorem pipeline_confidence_range (company : string) (w : W) (r : SentimentResult) :
  res (run handle (run_pipeline has_tool company) w) = Ok r ->
  PyFloat.leb f0_0 (confidence_score r) = true /\ PyFloat.leb (confidence_score r) f1_0 = true.
Proof.
  refine (proj2 (ensures_run_pipeline (fun _ => True)
                   _ _ _ company (fun _ => True) (fun _ => True)
                   (fun r => PyFloat.leb f0_0 (confidence_score r) = true /\
                             PyFloat.leb (confidence_score r) f1_0 = true) _ _ _ w) r);
    try (intros ev; exact I).
  - apply ensures_translate_any. intros ev; exact I.
  - intros ticker lb top_k _. apply ensures_translate_any. intros ev; exact I.
  - intros ticker news _ _.
    eapply ensures_translate with (T1 := fun _ => True); [|intros ev _; exact I].
    intros w0. split; [apply List.Forall_forall; auto|].
    intros r0. apply ChainMore.analyze_confidence_bounds.
Qed.

(** *** The runs of the tracking library *)

Lemma run_depth_app (d : nat) (a b : list event) :
  run_depth d (a ++ b)
  = match run_depth d a with Some d' => run_depth d' b | None => None end.
Proof.
  revert d. induction a as [|ev a IH]; intros d; [reflexivity|].
  destruct ev as [e|e|e|e|e|e]; try apply IH.
  destruct e; try apply IH. simpl. destruct d; [reflexivity | apply IH].
Qed.

Lemma balanced_nil : balanced [].
Proof. intros d. reflexivity. Qed.

Lemma balanced_app (a b : list event) : balanced a -> balanced b -> balanced (a ++ b).
Proof. intros Ha Hb d. rewrite run_depth_app, Ha. apply Hb. Qed.

Lemma balanced_quiet (tr : list event) :
  Forall (fun ev => is_run_call ev = false) tr -> balanced tr.
Proof.
  intros Hq d. induction Hq as [|ev tr Hev _ IH]; [reflexivity|].
  destruct ev as [e|e|e|e|e|e]; try exact IH. destruct e; try exact IH; discriminate.
Qed.

Lemma balanced_bind {A B} (p : io event reply A) (f : A -> io event reply B) :
  holds handle p (fun _ tr => balanced tr) ->
  (forall a, holds handle (f a) (fun _ tr => balanced tr)) ->
  holds handle (bind p f) (fun _ tr => balanced tr).
Proof.
  intros Hp Hf. eapply holds_bind; [exact Hp | exact Hf | auto |].
  intros a t1 r t2. apply balanced_app.
Qed.

Lemma balanced_try_catch {A} (p : io event reply A) (h : exn -> io event reply A) :
  holds handle p (fun _ tr => balanced tr) ->
  (forall e, holds handle (h e) (fun _ tr => balanced tr)) ->
  holds handle (try_catch p h) (fun _ tr => balanced tr).
Proof.
  intros Hp Hh w. rewrite run_try_catch_calls.
  destruct (res (run handle p w)); [apply Hp|]. apply balanced_app; [apply Hp | apply Hh].
Qed.

Lemma balanced_ret {A} (a : A) : holds handle (Ret a) (fun _ tr => balanced tr).
Proof. intros w. apply balanced_nil. Qed.

Lemma balanced_raise {A} (e : exn) :
  holds handle (Raise e : io event reply A) (fun _ tr => balanced tr).
Proof. intros w. apply balanced_nil. Qed.

Lemma balanced_attempt {A} (p : io event reply A) :
  holds handle p (fun _ tr => balanced tr) ->
  holds handle (attempt p) (fun _ tr => balanced tr).
Proof.
  intros Hp. unfold attempt. apply balanced_try_catch.
  - apply balanced_bind; [exact Hp|]. intros a. apply balanced_ret.
  - intros e. apply balanced_ret.
Qed.

Lemma balanced_of_quiet {A} (p : io event reply A) (Q : A -> Prop) :
  ensures handle p Q (fun ev => is_run_call ev = false) ->
  holds handle p (fun _ tr => balanced tr).
Proof. intros Hp w. apply balanced_quiet, (Hp w). Qed.

Lemma quiet_ml (ev : Mlflow.event) :
  is_run_call (Ml ev) = false ->
  ensures handle (Mlflow.ml ev) (fun _ => True) (fun ev => is_run_call ev = false).
Proof.
  intros Hq. unfold Mlflow.ml.
  eapply ensures_translate with (T1 := fun e => e = ev).
  - apply ensures_call; [reflexivity | auto].
  - intros e ->. exact Hq.
Qed.

Lemma quiet_other {E1 : Type} {R1 : E1 -> Type} `{Embeds E1 R1 event reply} {A}
    (p : io E1 R1 A) :
  (forall ev : E1, is_run_call (inj ev) = false) ->
  holds handle (translate p) (fun _ tr => balanced tr).
Proof.
  intros Hq. eapply balanced_of_quiet. apply ensures_translate_any. exact Hq.
Qed.

Lemma attempt_result {A} (p : io event reply A) (w : W) :
  exists r, res (run handle (attempt p) w) = Ok r.
Proof.
  unfold attempt. rewrite run_try_catch_res, run_bind_res.
  destruct (res (run handle p w)); simpl; eauto.
Qed.

Lemma run_ml (ev : Mlflow.event) (w : W) :
  run handle (Mlflow.ml ev) w
  = Outcome (fst (handle (Ml ev) w)) (snd (handle (Ml ev) w)) [Ml ev].
Proof.
  unfold Mlflow.ml. cbn [translate call run]. change (inj ev) with (Ml ev).
  destruct (handle (Ml ev) w) as [[v|e] w1]; reflexivity.
Qed.

Section Started.
Hypothesis start_ok : forall nested name w,
  fst (handle (Ml (Mlflow.StartRun nested name)) w) = Ok tt.

Lemma balanced_with_run {A} (nested : bool) (name : string) (body : io event reply A) :
  holds handle body (fun _ tr => balanced tr) ->
  holds handle (Mlflow.with_run nested name body) (fun _ tr => balanced tr).
Proof.
  intros Hb w d. unfold Mlflow.with_run.
  rewrite run_bind_calls, run_ml. cbn [res calls final].
  rewrite (start_ok nested name w). cbn [app run_depth].
  rewrite run_bind_calls.
  set (w1 := snd (handle (Ml (Mlflow.StartRun nested name)) w)).
  destruct (attempt_result body w1) as [r Hr]. rewrite Hr.
  rewrite run_depth_app, (balanced_attempt body Hb w1 (S d)).
  destruct r as [a|e]; rewrite run_bind_calls, run_ml; cbn [res calls final];
    destruct (fst (handle (Ml (Mlflow.EndRun _)) _)) as [[]|e']; reflexivity.
Qed.

Lemma balanced_span {A} (name : string) (params : list (string * pyval))
    (body : io event reply A) :
  holds handle body (fun _ tr => balanced tr) ->
  holds handle (Mlflow.span name params body) (fun _ tr => balanced tr).
Proof.
  intros Hb. unfold Mlflow.span.
  apply balanced_bind; [eapply balanced_of_quiet, (quiet_ml Mlflow.Clock); reflexivity|].
  intros start. apply balanced_with_run.
  apply balanced_bind.
  - destruct params; [apply balanced_ret|].
    eapply balanced_of_quiet, (quiet_ml (Mlflow.LogParams _)). reflexivity.
  - intros _. unfold try_finally.
    apply balanced_bind; [apply balanced_attempt, Hb|]. intros r.
    apply balanced_bind.
    + apply balanced_bind;
        [eapply balanced_of_quiet, (quiet_ml Mlflow.Clock); reflexivity|].
      intros now. apply balanced_bind.
      * destruct (Mlflow.duration_ms start now); [apply balanced_ret | apply balanced_raise].
      * intros ms. eapply balanced_of_quiet, (quiet_ml (Mlflow.LogMetric _ _)). reflexivity.
    + intros _. destruct r; [apply balanced_ret | apply balanced_raise].
Qed.

End Started.

(** X29. When the tracking library starts the runs it
    is asked for, the pipeline ends every run it has started, the run of
    the analysis and the nested run of each stage, whether it returns or
    raises; and it ends none that is not open. *)
Theorem pipeline_runs_balanced (company : string) (w : W) :
  (forall nested name w, fst (handle (Ml (Mlflow.StartRun nested name)) w) = Ok tt) ->
  run_depth 0 (calls (run handle (run_pipeline has_tool company) w)) = Some 0%nat.
Proof.
  intros Hs. revert w.
  assert (Hp : holds handle (run_pipeline has_tool company) (fun _ tr => balanced tr)).
  2:{ intros w. apply (Hp w 0%nat). }
  unfold run_pipeline.
  apply balanced_bind; [apply quiet_other; reflexivity|]. intros s.
  apply balanced_bind.
  { unfold Mlflow.init_mlflow. apply balanced_bind; [apply balanced_ret|]. intros _.
    apply balanced_bind;
      [eapply balanced_of_quiet, (quiet_ml (Mlflow.SetExperiment _)); reflexivity|].
    intros _. unfold swallow. apply balanced_try_catch;
      [eapply balanced_of_quiet, (quiet_ml Mlflow.Autolog); reflexivity|].
    intros e. apply balanced_ret. }
  intros _. apply (balanced_with_run Hs).
  apply balanced_bind.
  { unfold ticker_stage. apply (balanced_span Hs).
    apply balanced_bind; [apply quiet_other; reflexivity|].
    intros [c|]; (apply balanced_bind;
      [eapply balanced_of_quiet, (quiet_ml (Mlflow.LogParams _)); reflexivity|]);
      intros _; apply balanced_ret. }
  intros ticker. apply balanced_bind.
  { unfold news_stage. apply (balanced_span Hs).
    apply balanced_bind; [apply quiet_other; reflexivity|]. intros items.
    apply balanced_bind;
      [eapply balanced_of_quiet, (quiet_ml (Mlflow.LogText _ _)); reflexivity|].
    intros _. apply balanced_bind;
      [eapply balanced_of_quiet, (quiet_ml (Mlflow.LogDict _ _)); reflexivity|].
    intros _. apply balanced_bind; [apply quiet_other; reflexivity|].
    intros snapshot. apply balanced_bind; [|intros _; apply balanced_ret].
    destruct snapshot as [t|]; [destruct (PyStr.is_empty t)|]; try apply balanced_ret.
    eapply balanced_of_quiet, (quiet_ml (Mlflow.LogText _ _)). reflexivity. }
  intros news. unfold sentiment_stage. apply (balanced_span Hs).
  apply balanced_bind;
    [eapply balanced_of_quiet, (quiet_ml (Mlflow.LogText _ _)); reflexivity|].
  intros _. apply balanced_bind; [apply quiet_other; reflexivity|]. intros r.
  apply balanced_bind;
    [eapply balanced_of_quiet, (quiet_ml (Mlflow.LogDict _ _)); reflexivity|].
  intros _. apply balanced_bind; [|intros _; apply balanced_ret].
  unfold swallow. apply balanced_try_catch;
    [eapply balanced_of_quiet, (quiet_ml (Mlflow.LogMetric _ _)); reflexivity|].
  intros e. apply balanced_ret.
Qed.
End Facts.
End PipelineFacts.

(** ** The further theorems at the sample data *)

Module MoreInstances.
Import Samples MoreSamples.

Lemma norm_ignores_case_witness :
  PyStr.ascii_only "Apple, Inc." = true /\
  TickerResolver._norm (PyStr.upper (H := sample_upper) "Apple, Inc.")
  = TickerResolver._norm "Apple, Inc.".
Proof.
  split; [reflexivity|].
  exact (proj1 (@NormalForm.norm_ignores_case sample_upper "Apple, Inc." eq_refl)).
Defined.

Lemma curated_by_normal_form_witness :
  TickerResolver._norm "  APPLE, inc." = TickerResolver._norm "Apple Inc" /\
  TickerResolver.CURATED !! TickerResolver._norm "  APPLE, inc." <> None /\
  TickerResolver.resolve_ticker (H := sample_upper) "  APPLE, inc." "US" true
  = TickerResolver.resolve_ticker (H := sample_upper) "Apple Inc" "US" true.
Proof.
  assert (Hn : TickerResolver._norm "  APPLE, inc." = TickerResolver._norm "Apple Inc")
    by (vm_compute; reflexivity).
  assert (Hk : TickerResolver.CURATED !! TickerResolver._norm "  APPLE, inc." <> None)
    by (vm_compute; discriminate).
  split; [exact Hn|]. split; [exact Hk|].
  exact (proj1 (@NormalForm.curated_by_normal_form sample_upper
                  "  APPLE, inc." "Apple Inc" "US" true Hn Hk)).
Defined.

Lemma well_shaped_extract_witness :
  Shapes.well_shaped (VDict nested_record) = true /\
  exists x, NewsFetcher.extract (H := sample_float_of_str) (H0 := sample_iso_parser)
              (VDict nested_record) = Ok x.
Proof.
  assert (Hw : Shapes.well_shaped (VDict nested_record) = true)
    by (vm_compute; reflexivity).
  split; [exact Hw|].
  exact (@RecordShape.well_shaped_extract sample_float_of_str sample_iso_parser
           (VDict nested_record) Hw).
Defined.

Lemma fetch_total_witness :
  news_provider (NewsFetcher.TickerNews "AAPL") tt = (Ok sample_news, tt) /\
  exists out,
    res (run news_provider
           (NewsFetcher.fetch_recent_news (H := sample_float_of_str)
              (H0 := sample_iso_parser) "AAPL" 7 5) tt) = Ok out /\
    length (List.filter Shapes.is_news_call
              (calls (run news_provider
                        (NewsFetcher.fetch_recent_news (H := sample_float_of_str)
                           (H0 := sample_iso_parser) "AAPL" 7 5) tt))) = 1%nat.
Proof.
  split; [reflexivity|].
  apply (@RecordShape.fetch_total sample_float_of_str sample_iso_parser unit
           news_provider "AAPL" 7 5
           [VDict nested_record; VDict old_record; VDict untitled_record; VDict flat_record]
           tt tt).
  - reflexivity.
  - repeat constructor; vm_compute; reflexivity.
  - intros w. exists now_2023_11_15, w, cutoff_2023_11_08.
    split; [reflexivity | vm_compute; reflexivity].
Defined.

Lemma malformed_record_fails_witness :
  exists e,
    res (run broken_provider
           (NewsFetcher.fetch_recent_news (H := sample_float_of_str)
              (H0 := sample_iso_parser) "AAPL" 7 5) tt) = Err e /\
    length (List.filter Shapes.is_news_call
              (calls (run broken_provider
                        (NewsFetcher.fetch_recent_news (H := sample_float_of_str)
                           (H0 := sample_iso_parser) "AAPL" 7 5) tt))) = 3%nat.
Proof.
  apply (@RecordShape.malformed_record_fails sample_float_of_str sample_iso_parser unit
           broken_provider "AAPL" 7 5 tt).
  intros w. exists [VDict flat_record; VStr "oops"]. split; [reflexivity|].
  right. left. reflexivity.
Defined.

Lemma wider_window_keeps_witness :
  news_provider NewsFetcher.Now tt = (Ok now_2023_11_15, tt) /\
  7 <= 30 /\ sub_days now_2023_11_15 30 = Ok cutoff_2023_10_16 /\
  res (run news_provider
         (NewsFetcher.process (H := sample_float_of_str) (H0 := sample_iso_parser)
            (VDict boundary_record) 7) tt)
  = Ok (Some (NewsFetcher.item_of boundary_extracted)) /\
  res (run news_provider
         (NewsFetcher.process (H := sample_float_of_str) (H0 := sample_iso_parser)
            (VDict boundary_record) 30) tt)
  = Ok (Some (NewsFetcher.item_of boundary_extracted)).
Proof.
  assert (Hc : sub_days now_2023_11_15 30 = Ok cutoff_2023_10_16)
    by (vm_compute; reflexivity).
  assert (Hr : res (run news_provider
                 (NewsFetcher.process (H := sample_float_of_str)
                    (H0 := sample_iso_parser) (VDict boundary_record) 7) tt)
               = Ok (Some (NewsFetcher.item_of boundary_extracted)))
    by (vm_compute; reflexivity).
  split; [reflexivity|]. split; [lia|]. split; [exact Hc|]. split; [exact Hr|].
  apply (@Lookback.wider_window_keeps sample_float_of_str sample_iso_parser unit
           news_provider (VDict boundary_record) 7 30 tt tt now_2023_11_15
           cutoff_2023_10_16 (NewsFetcher.item_of boundary_extracted)
           eq_refl ltac:(lia) Hc Hr).
Defined.

Lemma zero_window_witness :
  Datetime.wf now_2023_11_15 /\
  NewsFetcher.extract (H := sample_float_of_str) (H0 := sample_iso_parser)
    (VDict boundary_record) = Ok boundary_extracted /\
  res (run news_provider
         (NewsFetcher.process (H := sample_float_of_str) (H0 := sample_iso_parser)
            (VDict boundary_record) 0) tt)
  = Ok (if Datetime.geb cutoff_2023_11_08 now_2023_11_15
        then Some (NewsFetcher.item_of boundary_extracted) else None).
Proof.
  assert (Hwf : Datetime.wf now_2023_11_15)
    by (repeat split; vm_compute; (reflexivity || discriminate)).
  assert (Hx : NewsFetcher.extract (H := sample_float_of_str)
                 (H0 := sample_iso_parser) (VDict boundary_record)
               = Ok boundary_extracted) by (vm_compute; reflexivity).
  split; [exact Hwf|]. split; [exact Hx|].
  apply (@Lookback.zero_window sample_float_of_str sample_iso_parser unit
           news_provider (VDict boundary_record) boundary_extracted
           cutoff_2023_11_08 now_2023_11_15 tt tt Hwf eq_refl Hx).
  - discriminate.
  - reflexivity.
  - reflexivity.
Defined.

Lemma parse_epoch_int_witness :
  Z.abs 1699999999 < 2 ^ 53 /\
  NewsFetcher._parse_epoch_to_dt (H := sample_float_of_str) (VInt 1699999999)
  = fromtimestamp 1699999999.
Proof.
  assert (Hz : Z.abs 1699999999 < 2 ^ 53) by reflexivity.
  split; [exact Hz|].
  exact (proj1 (@Lookback.parse_epoch_int sample_float_of_str 1699999999 Hz)).
Defined.

Lemma epoch_order_is_string_order_witness :
  NewsFetcher._parse_epoch_to_dt (H := sample_float_of_str) (VInt 1699999999)
  = Some dt_2023_11_14 /\
  NewsFetcher._parse_epoch_to_dt (H := sample_float_of_str) (VInt 1699444800)
  = Some cutoff_2023_11_08 /\
  String.compare (isoformat dt_2023_11_14) (isoformat cutoff_2023_11_08)
  = (1699999999 ?= 1699444800).
Proof.
  assert (H1 : NewsFetcher._parse_epoch_to_dt (H := sample_float_of_str)
                 (VInt 1699999999) = Some dt_2023_11_14) by (vm_compute; reflexivity).
  assert (H2 : NewsFetcher._parse_epoch_to_dt (H := sample_float_of_str)
                 (VInt 1699444800) = Some cutoff_2023_11_08) by (vm_compute; reflexivity).
  split; [exact H1|]. split; [exact H2|].
  exact (proj2 (@Lookback.epoch_order_is_string_order sample_float_of_str
                  1699999999 1699444800
                  dt_2023_11_14 cutoff_2023_11_08
                  ltac:(reflexivity) ltac:(reflexivity) H1 H2)).
Defined.

Lemma fetch_keeps_newest_witness :
  res (run news_provider
         (NewsFetcher.fetch_recent_news (H := sample_float_of_str)
            (H0 := sample_iso_parser) "AAPL" 7 1) tt)
  = Ok (firstn 1 fetched_sample) /\
  exists raw items dropped,
    news_provider (NewsFetcher.TickerNews "AAPL") tt = (Ok (VList raw), tt) /\
    res (run news_provider
           (NewsFetcher.collect (H := sample_float_of_str) (H0 := sample_iso_parser)
              raw 7 []) tt) = Ok items /\
    Permutation items (firstn 1 fetched_sample ++ dropped) /\
    StronglySorted (not_before PyStr.ltb NewsFetcher.published_at)
      (firstn 1 fetched_sample ++ dropped).
Proof.
  assert (Hr : res (run news_provider
                 (NewsFetcher.fetch_recent_news (H := sample_float_of_str)
                    (H0 := sample_iso_parser) "AAPL" 7 1) tt)
               = Ok (firstn 1 fetched_sample)) by (vm_compute; reflexivity).
  split; [exact Hr|].
  destruct (@FetchOrder.fetch_keeps_newest sample_float_of_str sample_iso_parser unit
              news_provider "AAPL" 7 1 tt (firstn 1 fetched_sample) Hr)
    as (w0 & w1 & v & raw & items & dropped & _ & Hh & Hor & Hi & Hp & Hs & _).
  injection Hh as <- _. injection Hor as <-. destruct w1.
  eexists. exists items, dropped. split; [reflexivity|].
  split; [exact Hi|]. split; [exact Hp | exact Hs].
Defined.

Lemma analyze_confidence_range_witness :
  exists r,
    res (run sample_model
           (SentimentChain.analyze_sentiment (H := sample_float_of_str)
              (H0 := sample_schema_float)
              "Apple Inc." "AAPL" "- Apple beats estimates") tt) = Ok r /\
    PyFloat.leb f0_0 (SentimentSchema.confidence_score r) = true /\
    PyFloat.leb (SentimentSchema.confidence_score r) f1_0 = true.
Proof.
  destruct (res (run sample_model
                   (SentimentChain.analyze_sentiment (H := sample_float_of_str)
              (H0 := sample_schema_float)
                      "Apple Inc." "AAPL" "- Apple beats estimates") tt))
    as [r|e] eqn:Hr; [|vm_compute in Hr; discriminate].
  exists r. split; [reflexivity|].
  exact (@ChainMore.analyze_confidence_range sample_float_of_str
           sample_schema_float unit sample_model
           "Apple Inc." "AAPL" "- Apple beats estimates" tt r Hr).
Defined.

Lemma analyze_asks_model_witness :
  PyStr.all_chars PyStr.is_space "- Apple beats estimates" = false /\
  res (run sample_model
         (SentimentChain.analyze_sentiment (H := sample_float_of_str)
              (H0 := sample_schema_float)
            "Apple Inc." "AAPL" "- Apple beats estimates") tt)
  = SentimentChain.validate (H := sample_float_of_str)
      (H0 := sample_schema_float) sample_output.
Proof.
  split; [reflexivity|].
  pose proof (@ChainMore.analyze_asks_model sample_float_of_str
                sample_schema_float unit sample_model
                "Apple Inc." "AAPL" "- Apple beats estimates" tt tt tt sample_output
                eq_refl eq_refl eq_refl) as Hm.
  cbv zeta in Hm. apply Hm.
Defined.

Lemma analyze_model_failure_witness :
  PyStr.all_chars PyStr.is_space "- Apple beats estimates" = false /\
  res (run no_model
         (SentimentChain.analyze_sentiment (H := sample_float_of_str)
              (H0 := sample_schema_float)
            "Apple Inc." "AAPL" "- Apple beats estimates") tt)
  = Err (ProviderError "offline").
Proof.
  split; [reflexivity|].
  pose proof (@ChainMore.analyze_model_failure sample_float_of_str
                sample_schema_float unit no_model
                "Apple Inc." "AAPL" "- Apple beats estimates" tt tt
                (ProviderError "offline") eq_refl eq_refl) as Hm.
  cbv zeta in Hm. apply Hm.
Defined.

Lemma settings_checked_witness :
  res (run (env_provider env_full) (Config.get_settings (H := sample_int_of_str)) tt)
  = Ok {| Config.google_api_key := "k-123"; Config.use_vertex := false;
          Config.news_lookback_days := 14; Config.news_top_k := 5 |} /\
  calls (run (env_provider env_full) (Config.get_settings (H := sample_int_of_str)) tt)
  = [Config.GetEnv "GOOGLE_API_KEY"; Config.GetEnv "GOOGLE_GENAI_USE_VERTEXAI";
     Config.GetEnv "NEWS_LOOKBACK_DAYS"; Config.GetEnv "NEWS_TOP_K"].
Proof.
  assert (Hr : res (run (env_provider env_full)
                      (Config.get_settings (H := sample_int_of_str)) tt)
               = Ok {| Config.google_api_key := "k-123"; Config.use_vertex := false;
                       Config.news_lookback_days := 14; Config.news_top_k := 5 |})
    by (vm_compute; reflexivity).
  split; [exact Hr|].
  exact (proj2 (proj2 (@ConfigFacts.settings_checked sample_int_of_str unit
                         (env_provider env_full) _ tt Hr))).
Defined.

Lemma settings_defaults_witness :
  env_bare "GOOGLE_API_KEY" = Some "k-123" /\
  env_bare "NEWS_LOOKBACK_DAYS" = Some "soon" /\
  res (run (env_provider env_bare) (Config.get_settings (H := sample_int_of_str)) tt)
  = Ok {| Config.google_api_key := "k-123"; Config.use_vertex := false;
          Config.news_lookback_days := 7; Config.news_top_k := 5 |}.
Proof.
  split; [reflexivity|]. split; [reflexivity|].
  apply (@ConfigFacts.settings_defaults sample_int_of_str unit
           (env_provider env_bare) env_bare "k-123" tt).
  - intros name w. reflexivity.
  - reflexivity.
  - discriminate.
  - reflexivity.
  - intros d [= <-]. reflexivity.
  - intros t. discriminate.
Defined.

Lemma bullet_date_witness :
  Datetime.wf dt_2023_11_14 /\
  exists t,
    Digest.bullet (H := sample_str_of_obj) (hd (NewsFetcher.item_of boundary_extracted)
                                              fetched_sample)
    = "- 2023-11-14" +:+ t.
Proof.
  assert (Hwf : Datetime.wf dt_2023_11_14)
    by (repeat split; vm_compute; (reflexivity || discriminate)).
  split; [exact Hwf|].
  exact (@DigestFacts.bullet_date sample_str_of_obj
           (hd (NewsFetcher.item_of boundary_extracted) fetched_sample)
           dt_2023_11_14 Hwf eq_refl).
Defined.

Lemma pipeline_needs_key_witness :
  exists e,
    res (run (pipeline_provider env_empty acme_candidates sample_news)
           (Pipeline.run_pipeline (H := sample_float_of_str) (H0 := sample_iso_parser)
              (H1 := sample_int_of_str) (H2 := sample_str_of_obj)
              (H3 := sample_schema_float) (H4 := sample_upper) true "Acme") tt)
    = Err e.
Proof.
  apply (@PipelineFacts.pipeline_needs_key sample_float_of_str sample_iso_parser
           sample_int_of_str sample_str_of_obj
           sample_schema_float sample_upper unit true
           (pipeline_provider env_empty acme_candidates sample_news) "Acme" tt).
  intros w v [= <-]. reflexivity.
Defined.

Lemma pipeline_curated_ticker_witness :
  TickerResolver.CURATED !! TickerResolver._norm "Apple Inc"
  = Some ("AAPL", "Apple Inc.", "NASDAQ") /\
  Forall (fun ev => Pipeline.looks_up (eq "AAPL") ev /\ Pipeline.is_search ev = false)
    (calls (run (pipeline_provider env_full acme_candidates sample_news)
              (Pipeline.run_pipeline (H := sample_float_of_str) (H0 := sample_iso_parser)
                 (H1 := sample_int_of_str) (H2 := sample_str_of_obj)
              (H3 := sample_schema_float) (H4 := sample_upper) true "Apple Inc") tt)).
Proof.
  assert (Hk : TickerResolver.CURATED !! TickerResolver._norm "Apple Inc"
               = Some ("AAPL", "Apple Inc.", "NASDAQ")) by (vm_compute; reflexivity).
  split; [exact Hk|].
  exact (@PipelineFacts.pipeline_curated_ticker sample_float_of_str sample_iso_parser
           sample_int_of_str sample_str_of_obj
           sample_schema_float sample_upper unit true
           (pipeline_provider env_full acme_candidates sample_news)
           "Apple Inc" "AAPL" "Apple Inc." "NASDAQ" tt Hk).
Defined.

Lemma pipeline_unknown_ticker_witness :
  TickerResolver.CURATED !! TickerResolver._norm "Acme" = None /\
  Forall (Pipeline.looks_up (eq "Acme"))
    (calls (run (pipeline_provider env_full [] sample_news)
              (Pipeline.run_pipeline (H := sample_float_of_str) (H0 := sample_iso_parser)
                 (H1 := sample_int_of_str) (H2 := sample_str_of_obj)
              (H3 := sample_schema_float) (H4 := sample_upper) true "Acme") tt)).
Proof.
  assert (Hk : TickerResolver.CURATED !! TickerResolver._norm "Acme" = None)
    by (vm_compute; reflexivity).
  split; [exact Hk|].
  apply (@PipelineFacts.pipeline_unknown_ticker sample_float_of_str sample_iso_parser
           sample_int_of_str sample_str_of_obj
           sample_schema_float sample_upper unit true
           (pipeline_provider env_full [] sample_news) "Acme" tt Hk).
  intros w v [= <-]. reflexivity.
Defined.

Lemma pipeline_no_news_witness :
  Forall (fun ev => Pipeline.is_model_call ev = false)
    (calls (run (pipeline_provider env_full acme_candidates (VList []))
              (Pipeline.run_pipeline (H := sample_float_of_str) (H0 := sample_iso_parser)
                 (H1 := sample_int_of_str) (H2 := sample_str_of_obj)
              (H3 := sample_schema_float) (H4 := sample_upper) true "Acme") tt)).
Proof.
  apply (@PipelineFacts.pipeline_no_news sample_float_of_str sample_iso_parser
           sample_int_of_str sample_str_of_obj
           sample_schema_float sample_upper unit true
           (pipeline_provider env_full acme_candidates (VList [])) "Acme" tt).
  intros w t v [= <-]. reflexivity.
Defined.

Lemma pipeline_confidence_range_witness :
  exists r,
    res (run (pipeline_provider env_full acme_candidates sample_news)
           (Pipeline.run_pipeline (H := sample_float_of_str) (H0 := sample_iso_parser)
              (H1 := sample_int_of_str) (H2 := sample_str_of_obj)
              (H3 := sample_schema_float) (H4 := sample_upper) true "Apple Inc") tt)
    = Ok r /\
    PyFloat.leb (SentimentSchema.confidence_score r) f1_0 = true.
Proof.
  destruct (res (run (pipeline_provider env_full acme_candidates sample_news)
                   (Pipeline.run_pipeline (H := sample_float_of_str)
                      (H0 := sample_iso_parser) (H1 := sample_int_of_str)
                      (H2 := sample_str_of_obj) (H3 := sample_schema_float)
                      (H4 := sample_upper) true "Apple Inc") tt))
    as [r|e] eqn:Hr; [|vm_compute in Hr; discriminate].
  exists r. split; [reflexivity|].
  exact (proj2 (@PipelineFacts.pipeline_confidence_range sample_float_of_str
                  sample_iso_parser sample_int_of_str sample_str_of_obj
           sample_schema_float sample_upper unit true
                  (pipeline_provider env_full acme_candidates sample_news)
                  "Apple Inc" tt r Hr)).
Defined.

Lemma pipeline_runs_balanced_witness :
  Pipeline.run_depth 0
    (calls (run (pipeline_provider env_full acme_candidates sample_news)
              (Pipeline.run_pipeline (H := sample_float_of_str) (H0 := sample_iso_parser)
                 (H1 := sample_int_of_str) (H2 := sample_str_of_obj)
              (H3 := sample_schema_float) (H4 := sample_upper) true "Apple Inc") tt))
  = Some 0%nat.
Proof.
  apply (@PipelineFacts.pipeline_runs_balanced sample_float_of_str sample_iso_parser
           sample_int_of_str sample_str_of_obj
           sample_schema_float sample_upper unit true
           (pipeline_provider env_full acme_candidates sample_news) "Apple Inc" tt).
  intros nested name w. reflexivity.
Defined.

End MoreInstances.
